(** * Sharp2WebGL: the PLY schema converter ([convert.py])

    A shallow embedding of the converter's core -- header parser, scalar
    type registry, vertex table reader, column reconciliation, vertex table
    writer, the [convert] pipeline and the header summary -- together with
    the properties its specification states about them and further
    properties of the code.

    Conventions.
    - A file is the list of its bytes ([list byte]); text decoded from it is
      a [string].  Python [int]s are [Z].
    - A raised exception is the left summand of [result]; the constructors of
      [exn] name the [raise] sites of [convert.py] and the library errors
      the code can run into.
    - A float is the integer of its IEEE 754 bit pattern: 32 bits for
      [numpy.float32], 64 bits for a Python [float].  Conversions between the
      two widths are written out on the bit patterns.
    - What the interpreter, numpy and the file system decide is a field of
      [Platform]; the functions that depend on it take the platform as an
      implicit argument, and a property stated without naming one holds on
      every platform. *)

From Stdlib Require Import ZArith Lia List DecimalString DecimalZ DecimalPos.
From Stdlib.Strings Require Import Ascii String Byte.
From stdpp Require Import base option list strings gmap.

Local Open Scope Z_scope.

(** ** Exceptions *)

Inductive exn : Type :=
  | EOFError_header                      (* _readline_ascii *)
  | EOFError_body (i n : Z)              (* "... reading vertex data at i/n" *)
  | ValueError_not_ply
  | ValueError_format_line
  | ValueError_element_line
  | ValueError_int                       (* int(parts[2]) *)
  | ValueError_list_property
  | ValueError_property_line
  | ValueError_no_vertex
  | ValueError_scalar_type (t : string)  (* KeyError of the registry, re-raised *)
  | ValueError_endian
  | ValueError_only_binary
  | ValueError_negative_dimensions       (* numpy.empty / numpy.zeros *)
  | ValueError_array_size                (* numpy.empty: a size numpy cannot represent *)
  | MemoryError                          (* numpy.empty: no memory for the array *)
  | ValueError_row_count (name : string)
  | KeyError_missing_column (name : string)
  | UnicodeDecodeError
  | UnicodeEncodeError
  | OSError_seek                         (* f.seek: the system call refuses the position *)
  | ValueError_offset                    (* f.seek: "cannot fit 'int' into an offset-sized integer" *)
  | OverflowError_f
  | StructError
  | IndexError.

Definition result (A : Type) : Type := exn + A.

Abbreviation Ok := (@inr exn _).
Abbreviation Err := (@inl exn _).

Definition bind {A B} (r : result A) (k : A -> result B) : result B :=
  match r with
  | inl e => inl e
  | inr a => k a
  end.

Notation "x <-! r ; k" := (bind r (fun x => k))
  (at level 100, r at next level, right associativity).

(** ** The platform

    The converter's behaviour depends in four places on what runs it. *)

(** How a call of [numpy.empty] ends. *)
Inductive allocation : Type :=
  | Allocated
  | NoMemory      (* MemoryError *)
  | TooLarge.     (* ValueError: the size is beyond what numpy represents *)

Class Platform := {
  (** [sys.get_int_max_str_digits()]: the largest number of digits [int]
      converts, [0] for no limit (4300 unless configured; interpreters before
      the limit was introduced behave as with [0]). *)
  int_max_str_digits : nat;
  (** Whether [struct] keeps a signalling NaN signalling when it converts
      between ['f'] and a Python float, as CPython does from 3.14 on; earlier
      versions return the quiet NaN of the C conversion. *)
  struct_keeps_snan : bool;
  (** [numpy_alloc k n]: how the [k]-th [numpy.empty((n,), float32)] call of
      a reader run ends, for [0 <= n]. *)
  numpy_alloc : nat -> Z -> allocation;
  (** Whether the file system accepts the position [p], below [2^63], when
      it lies beyond the end of the file. *)
  seek_past_end : Z -> bool;
}.

(** ** Bytes and byte order *)

Definition byte_val (b : byte) : Z := Z.of_N (Byte.to_N b).

Definition byte_of_Z (z : Z) : byte :=
  match Byte.of_N (Z.to_N z) with
  | Some b => b
  | None => x00
  end.

(** Unsigned integer of a little-endian byte sequence. *)
Fixpoint le_to_Z (bs : list byte) : Z :=
  match bs with
  | [] => 0
  | b :: r => byte_val b + 256 * le_to_Z r
  end.

(** The [w] low bytes of [z], little end first. *)
Fixpoint Z_to_le (w : nat) (z : Z) : list byte :=
  match w with
  | O => []
  | S w' => byte_of_Z (z mod 256) :: Z_to_le w' (z / 256)
  end.

(** [little = true] is struct's ["<"], [false] is [">"]. *)
Definition bytes_to_Z (little : bool) (bs : list byte) : Z :=
  if little then le_to_Z bs else le_to_Z (rev bs).

Definition Z_to_bytes (little : bool) (w : nat) (z : Z) : list byte :=
  if little then Z_to_le w z else rev (Z_to_le w z).

(** ** IEEE 754 bit patterns *)

Module Ieee.

(** A binary interchange format: width of the trailing significand field
    and of the exponent field. *)
Record fmt := { mw : Z; ew : Z }.

Definition binary32 : fmt := {| mw := 23; ew := 8 |}.
Definition binary64 : fmt := {| mw := 52; ew := 11 |}.

Definition bias (f : fmt) : Z := 2 ^ (ew f - 1) - 1.
(** Exponent of the unit in the last place of a subnormal. *)
Definition emin (f : fmt) : Z := 1 - bias f - mw f.
Definition emax_field (f : fmt) : Z := 2 ^ ew f - 1.
Definition sign_weight (f : fmt) : Z := 2 ^ (mw f + ew f).

Definition sign (f : fmt) (b : Z) : Z := b / sign_weight f.
Definition magnitude (f : fmt) (b : Z) : Z := b mod sign_weight f.
Definition expo (f : fmt) (b : Z) : Z := (b / 2 ^ mw f) mod 2 ^ ew f.
Definition mant (f : fmt) (b : Z) : Z := b mod 2 ^ mw f.

Definition inf_mag (f : fmt) : Z := emax_field f * 2 ^ mw f.
Definition quiet_bit (f : fmt) : Z := 2 ^ (mw f - 1).

Definition is_nan (f : fmt) (b : Z) : bool :=
  (expo f b =? emax_field f) && negb (mant f b =? 0).
Definition is_inf (f : fmt) (b : Z) : bool :=
  (expo f b =? emax_field f) && (mant f b =? 0).
(** A NaN whose quiet bit is clear. *)
Definition is_snan (f : fmt) (b : Z) : bool :=
  is_nan f b && (mant f b <? quiet_bit f).

(** [m / 2^k] rounded to nearest, ties to even ([0 < k]). *)
Definition rne (m k : Z) : Z :=
  let q := m / 2 ^ k in
  let r := m mod 2 ^ k in
  let h := 2 ^ (k - 1) in
  if r <? h then q
  else if h <? r then q + 1
  else if Z.even q then q else q + 1.

(** Magnitude bits of [m * 2^e] rounded to format [f] (round to nearest
    even); a result beyond the largest finite number is infinity. *)
Definition round_mag (f : fmt) (m e : Z) : Z :=
  if m =? 0 then 0
  else
    let d := Z.log2 m + 1 in
    let fe := Z.max (d + e - (mw f + 1)) (emin f) in
    let sh := fe - e in
    let m' := if sh <=? 0 then m * 2 ^ (- sh) else rne m sh in
    Z.min ((fe - emin f) * 2 ^ mw f + m') (inf_mag f).

(** Integer significand and exponent of a finite pattern. *)
Definition significand (f : fmt) (b : Z) : Z :=
  if expo f b =? 0 then mant f b else 2 ^ mw f + mant f b.
Definition exponent (f : fmt) (b : Z) : Z :=
  if expo f b =? 0 then emin f else expo f b - 1 + emin f.

(** Payload of a NaN moved to the other width. *)
Definition move_payload (src dst : fmt) (m : Z) : Z :=
  if mw src <=? mw dst then m * 2 ^ (mw dst - mw src)
  else m / 2 ^ (mw src - mw dst).

(** A trailing significand with its top (quiet) bit set. *)
Definition set_quiet (f : fmt) (m : Z) : Z :=
  if quiet_bit f <=? m then m else quiet_bit f + m.

(** The C conversion between floating types as IEEE hardware performs it:
    finite values are rounded to nearest even, infinities are kept, a NaN
    keeps the leading bits of its payload and comes out quiet. *)
Definition cast (src dst : fmt) (b : Z) : Z :=
  let mag :=
    if expo src b =? emax_field src then
      if mant src b =? 0 then inf_mag dst
      else inf_mag dst + set_quiet dst (move_payload src dst (mant src b))
    else round_mag dst (significand src b) (exponent src b) in
  sign src b * sign_weight dst + mag.

(** The double nearest to a Python [int] ([float(v)]); exact for the
    integers [struct] unpacks, which are below [2^32] in size. *)
Definition of_int (z : Z) : Z :=
  (if z <? 0 then sign_weight binary64 else 0) + round_mag binary64 (Z.abs z) 0.

End Ieee.

(** ** Python's [struct] module, as far as the converter uses it

    Standard sizes, no padding (the format strings start with ["<"] or
    [">"]).  An unpacked value is a Python [int] or [float]; the writer also
    passes [numpy.float32] scalars to [pack]. *)

Inductive pyval : Type :=
  | PyInt (z : Z)
  | PyFloat (d : Z)       (* binary64 pattern *)
  | NpFloat32 (x : Z).    (* binary32 pattern *)

Module Struct.
Import Ieee.

Inductive code : Type := Cb | CB | Ch | CH | Ci | CI | Cf | Cd.

Definition code_of_ascii (a : ascii) : option code :=
  if Ascii.eqb a "b" then Some Cb
  else if Ascii.eqb a "B" then Some CB
  else if Ascii.eqb a "h" then Some Ch
  else if Ascii.eqb a "H" then Some CH
  else if Ascii.eqb a "i" then Some Ci
  else if Ascii.eqb a "I" then Some CI
  else if Ascii.eqb a "f" then Some Cf
  else if Ascii.eqb a "d" then Some Cd
  else None.

Definition width (c : code) : nat :=
  match c with
  | Cb | CB => 1
  | Ch | CH => 2
  | Ci | CI | Cf => 4
  | Cd => 8
  end%nat.

Definition is_signed (c : code) : bool :=
  match c with Cb | Ch | Ci => true | _ => false end.

Definition modulus (c : code) : Z := 2 ^ (8 * Z.of_nat (width c)).

Record t := { little : bool; codes : list code }.

Fixpoint compile_codes (s : string) : option (list code) :=
  match s with
  | EmptyString => Some []
  | String a r =>
      match code_of_ascii a, compile_codes r with
      | Some c, Some cs => Some (c :: cs)
      | _, _ => None
      end
  end.

(** [struct.Struct(fmt)] for a format with an explicit byte order. *)
Definition compile (fmt : string) : result t :=
  match fmt with
  | String a r =>
      if Ascii.eqb a "<" then
        match compile_codes r with
        | Some cs => Ok {| little := true; codes := cs |}
        | None => Err StructError
        end
      else if Ascii.eqb a ">" then
        match compile_codes r with
        | Some cs => Ok {| little := false; codes := cs |}
        | None => Err StructError
        end
      else Err StructError
  | EmptyString => Err StructError
  end.

(** [st.size] *)
Definition size (st : t) : nat := sum_list (width <$> codes st).

(** [float(v)] *)
Definition py_float (v : pyval) : Z :=
  match v with
  | PyInt z => of_int z
  | PyFloat d => d
  | NpFloat32 x => cast binary32 binary64 x
  end.

Section Codec.

Context {platform : Platform}.

(** [PyFloat_Unpack4]: the C conversion; from CPython 3.14 on a signalling
    NaN gets its signalling bit back afterwards. *)
Definition PyFloat_Unpack4 (x : Z) : Z :=
  let y := cast binary32 binary64 x in
  if struct_keeps_snan && is_snan binary32 x then y - quiet_bit binary64 else y.

(** [PyFloat_Pack4]: the C conversion; a finite double that rounds to
    infinity is an [OverflowError]; from CPython 3.14 on a signalling NaN
    whose narrowed payload is not zero stays signalling. *)
Definition PyFloat_Pack4 (x : Z) : result Z :=
  let y := cast binary64 binary32 x in
  if is_inf binary32 y && negb (is_inf binary64 x) then Err OverflowError_f
  else if struct_keeps_snan && is_snan binary64 x
          && negb (mant binary32 y mod quiet_bit binary32 =? 0)
       then Ok (y - quiet_bit binary32)
  else Ok y.

Definition unpack_one (le : bool) (c : code) (bs : list byte) : pyval :=
  let u := bytes_to_Z le bs in
  match c with
  | Cf => PyFloat (PyFloat_Unpack4 u)
  | Cd => PyFloat u
  | _ =>
      if is_signed c && (modulus c / 2 <=? u) then PyInt (u - modulus c)
      else PyInt u
  end.

Definition pack_one (le : bool) (c : code) (v : pyval) : result (list byte) :=
  match c with
  | Cf => y <-! PyFloat_Pack4 (py_float v); Ok (Z_to_bytes le 4 y)
  | Cd => Ok (Z_to_bytes le 8 (py_float v))
  | _ =>
      match v with
      | PyInt z =>
          let lo := if is_signed c then - (modulus c / 2) else 0 in
          let hi := if is_signed c then modulus c / 2 else modulus c in
          if (lo <=? z) && (z <? hi)
          then Ok (Z_to_bytes le (width c) (z mod modulus c))
          else Err StructError
      | _ => Err StructError      (* "required argument is not an integer" *)
      end
  end.

Fixpoint unpack_codes (le : bool) (cs : list code) (bs : list byte)
  : list pyval :=
  match cs with
  | [] => []
  | c :: cs' =>
      unpack_one le c (take (width c) bs)
      :: unpack_codes le cs' (drop (width c) bs)
  end.

(** [st.unpack(chunk)] for a chunk of [st.size] bytes. *)
Definition unpack (st : t) (chunk : list byte) : list pyval :=
  unpack_codes (little st) (codes st) chunk.

Fixpoint pack_codes (le : bool) (cs : list code) (vs : list pyval)
  : result (list byte) :=
  match cs, vs with
  | [], [] => Ok []
  | c :: cs', v :: vs' =>
      b <-! pack_one le c v;
      r <-! pack_codes le cs' vs';
      Ok (b ++ r)
  | _, _ => Err StructError
  end.

(** [st.pack] applied to the values of a row. *)
Definition pack (st : t) (row : list pyval) : result (list byte) :=
  pack_codes (little st) (codes st) row.

End Codec.

End Struct.

(** ** Text: the [bytes] and [str] methods the parser calls *)

(** [str.isspace] on the ASCII range: tab to carriage return, the four
    separators 0x1c-0x1f, and the space. *)
Definition is_space (a : ascii) : bool :=
  let n := nat_of_ascii a in
  ((9 <=? n) && (n <=? 13) || (28 <=? n) && (n <=? 32))%nat.

Definition is_crlf (a : ascii) : bool :=
  Ascii.eqb a "013" || Ascii.eqb a "010".

Fixpoint lstrip (p : ascii -> bool) (s : string) : string :=
  match s with
  | String a r => if p a then lstrip p r else s
  | EmptyString => EmptyString
  end.

Fixpoint rstrip (p : ascii -> bool) (s : string) : string :=
  match s with
  | EmptyString => EmptyString
  | String a r =>
      match rstrip p r with
      | EmptyString => if p a then EmptyString else String a EmptyString
      | r' => String a r'
      end
  end.

(** [s.strip()] *)
Definition strip (s : string) : string := rstrip is_space (lstrip is_space s).

(** [s.split()]: the maximal runs of characters that are not whitespace. *)
Fixpoint split (s : string) : list string :=
  match s with
  | EmptyString => []
  | String a r =>
      if is_space a then split r
      else
        match r with
        | EmptyString => [String a EmptyString]
        | String b _ =>
            if is_space b then String a EmptyString :: split r
            else
              match split r with
              | t :: ts => String a t :: ts
              | [] => [String a EmptyString]
              end
        end
  end.

(** [bs.decode("ascii", errors="strict")] *)
Fixpoint decode_ascii (bs : list byte) : result string :=
  match bs with
  | [] => Ok EmptyString
  | b :: r =>
      if (byte_val b <? 128)%Z then
        s <-! decode_ascii r; Ok (String (ascii_of_byte b) s)
      else Err UnicodeDecodeError
  end.

(** [s.encode("ascii")] *)
Fixpoint encode_ascii (s : string) : result (list byte) :=
  match s with
  | EmptyString => Ok []
  | String a r =>
      if (nat_of_ascii a <? 128)%nat then
        bs <-! encode_ascii r; Ok (byte_of_ascii a :: bs)
      else Err UnicodeEncodeError
  end.

(** Digits of a decimal literal, most significant first; single underscores
    may separate digits, as [int] accepts them.  [prev] tells whether the
    character before was a digit. *)
Fixpoint digits_uint (prev : bool) (s : string) : option Decimal.uint :=
  match s with
  | EmptyString => if prev then Some Decimal.Nil else None
  | String a r =>
      if Ascii.eqb a "_" then
        match r with
        | String b _ =>
            if prev && negb (Ascii.eqb b "_") then digits_uint false r else None
        | EmptyString => None
        end
      else DecimalString.uint_of_char a (digits_uint true r)
  end.

(** [str(n)] for an [int], which is also what an f-string inserts. *)
Definition py_str_int (n : Z) : string :=
  DecimalString.NilZero.string_of_int (Z.to_int n).

(** The lines successive [f.readline()] calls return on a file opened in
    binary mode: each ends with its newline byte, except possibly the last. *)
Fixpoint readlines (bs : list byte) : list (list byte) :=
  match bs with
  | [] => []
  | b :: r =>
      if Byte.eqb b x0a then [b] :: readlines r
      else
        match readlines r with
        | l :: ls => (b :: l) :: ls
        | [] => [[b]]
        end
  end.

Section Int.

Context {platform : Platform}.

(** The check of [int] on the number [digits] of digit characters of a
    literal (leading zeros count, underscores and the sign do not): up to 640
    digits always pass. *)
Definition too_many_digits (digits : nat) : bool :=
  ((640 <? digits) && (0 <? int_max_str_digits)
   && (int_max_str_digits <? digits))%nat.

(** [int(s)] for a token [s] (no surrounding whitespace), base ten. *)
Definition py_int (s : string) : result Z :=
  let body sign r :=
    match digits_uint false r with
    | Some d =>
        if too_many_digits (Decimal.nb_digits d) then Err ValueError_int
        else Ok (sign * Z.of_uint d)%Z
    | None => Err ValueError_int
    end in
  match s with
  | String a r =>
      if Ascii.eqb a "-" then body (-1)%Z r
      else if Ascii.eqb a "+" then body 1%Z r
      else body 1%Z s
  | EmptyString => Err ValueError_int
  end.

End Int.

(** ** The header ([PlyHeader]) and the scalar type registry *)

Record PlyHeader := {
  format : string;
  version : string;
  vertex_count : Z;
  vertex_properties : list (string * string);   (* (type, name) *)
  header_lines : list string;
  data_start_offset : Z;
}.

Definition _PLY_TYPE_TO_STRUCT : gmap string string :=
  list_to_map
    [ ("char", "b"); ("int8", "b");
      ("uchar", "B"); ("uint8", "B");
      ("short", "h"); ("int16", "h");
      ("ushort", "H"); ("uint16", "H");
      ("int", "i"); ("int32", "i");
      ("uint", "I"); ("uint32", "I");
      ("float", "f"); ("float32", "f");
      ("double", "d"); ("float64", "d") ].

(** ** [parse_ply_header] *)

(** The local variables of the header loop.  [ps_pos] is [f.tell()]. *)
Record pstate := {
  ps_pos : Z;
  ps_count : option Z;
  ps_props : list (string * string);
  ps_in_vertex : bool;
  ps_lines : list string;
}.

Definition after_line (st : pstate) (bline : list byte) (line : string) : pstate :=
  {| ps_pos := ps_pos st + Z.of_nat (length bline);
     ps_count := ps_count st;
     ps_props := ps_props st;
     ps_in_vertex := ps_in_vertex st;
     ps_lines := ps_lines st ++ [line] |}.

Definition enter_element (st : pstate) (elem_name : string) (elem_count : Z)
  : pstate :=
  let in_vertex := String.eqb elem_name "vertex" in
  {| ps_pos := ps_pos st;
     ps_count := if in_vertex then Some elem_count else ps_count st;
     ps_props := ps_props st;
     ps_in_vertex := in_vertex;
     ps_lines := ps_lines st |}.

Definition add_property (st : pstate) (p_type p_name : string) : pstate :=
  {| ps_pos := ps_pos st;
     ps_count := ps_count st;
     ps_props := ps_props st ++ [(p_type, p_name)];
     ps_in_vertex := ps_in_vertex st;
     ps_lines := ps_lines st |}.

Section Parser.

Context {platform : Platform}.

(** The [while True] loop, over the lines still to be read.  It ends at the
    [end_header] line or, when the lines run out, with the [EOFError] of
    [_readline_ascii]. *)
Fixpoint header_loop (ls : list (list byte)) (st : pstate) : result pstate :=
  match ls with
  | [] => Err EOFError_header
  | bline :: rest =>
      decoded <-! decode_ascii bline;
      let line := rstrip is_crlf decoded in
      let st := after_line st bline line in
      let stripped := strip line in
      if String.eqb stripped "end_header" then Ok st
      else
        let parts := split stripped in
        match parts with
        | [] => header_loop rest st
        | p0 :: _ =>
            if String.eqb p0 "element" then
              match parts with
              | [_; elem_name; count] =>
                  elem_count <-! py_int count;
                  header_loop rest (enter_element st elem_name elem_count)
              | _ => Err ValueError_element_line
              end
            else if String.eqb p0 "property" then
              if ps_in_vertex st then
                match parts with
                | [_; p_type; p_name] =>
                    header_loop rest (add_property st p_type p_name)
                | _ :: p1 :: _ :: _ :: _ :: _ =>
                    if String.eqb p1 "list" then Err ValueError_list_property
                    else Err ValueError_property_line
                | _ => Err ValueError_property_line
                end
              else header_loop rest st
            else header_loop rest st
        end
  end.

Definition parse_ply_header (file : list byte) : result PlyHeader :=
  match readlines file with
  | [] => Err EOFError_header
  | first :: ls =>
      line0 <-! decode_ascii first;
      let line0 := rstrip is_crlf line0 in
      if negb (String.eqb (strip line0) "ply") then Err ValueError_not_ply
      else
        match ls with
        | [] => Err EOFError_header
        | fmt_line :: ls' =>
            fmt_text <-! decode_ascii fmt_line;
            match split (strip fmt_text) with
            | [kw; fmt; ver] =>
                if negb (String.eqb kw "format") then Err ValueError_format_line
                else
                  let st0 :=
                    {| ps_pos := Z.of_nat (length first + length fmt_line);
                       ps_count := None;
                       ps_props := [];
                       ps_in_vertex := false;
                       ps_lines := [line0; rstrip is_crlf fmt_text] |} in
                  st <-! header_loop ls' st0;
                  match ps_count st with
                  | None => Err ValueError_no_vertex
                  | Some n =>
                      Ok {| format := fmt;
                            version := ver;
                            vertex_count := n;
                            vertex_properties := ps_props st;
                            header_lines := ps_lines st;
                            data_start_offset := ps_pos st |}
                  end
            | _ => Err ValueError_format_line
            end
        end
  end.

End Parser.

(** ** [_struct_for_vertex] and [_endian_for_format] *)

Fixpoint join_codes (props : list (string * string)) : result string :=
  match props with
  | [] => Ok EmptyString
  | (t, _) :: r =>
      match _PLY_TYPE_TO_STRUCT !! t with
      | Some c => s <-! join_codes r; Ok (c +:+ s)
      | None => Err (ValueError_scalar_type t)
      end
  end.

Definition _struct_for_vertex (props : list (string * string)) (endian : string)
  : result Struct.t :=
  codes <-! join_codes props;
  Struct.compile (endian +:+ codes).

Definition _endian_for_format (fmt : string) : result string :=
  if String.eqb fmt "binary_little_endian" then Ok "<"
  else if String.eqb fmt "binary_big_endian" then Ok ">"
  else Err ValueError_endian.

(** ** Vertex tables

    A table maps a property name to its column, a [numpy.float32] array
    given as the list of its binary32 patterns.  The arrays of a table are
    never shared between two names or two tables where one of them is written
    to afterwards (the only in-place writes after construction are the
    [fill] calls of [convert], on arrays [numpy.zeros] has just created), so
    columns are modelled as values. *)

Abbreviation table := (gmap string (list Z)).

(** What is stored in a float32 array for [float(v)]: the C conversion of
    the double. *)
Definition to_float32 (v : pyval) : Z :=
  Ieee.cast Ieee.binary64 Ieee.binary32 (Struct.py_float v).

(** ** [read_vertex_table_binary] *)

Section Reader.

Context {platform : Platform}.

(** [junk k i] is what [numpy.empty] leaves in cell [i] of the [k]-th array
    it allocates. *)
Variable junk : nat -> nat -> Z.

(** The [k]-th [numpy.empty((n,), dtype=numpy.float32)]. *)
Definition np_empty (k : nat) (n : Z) : result (list Z) :=
  if (n <? 0)%Z then Err ValueError_negative_dimensions
  else
    match numpy_alloc k n with
    | Allocated => Ok (junk k <$> seq 0 (Z.to_nat n))
    | NoMemory => Err MemoryError
    | TooLarge => Err ValueError_array_size
    end.

(** The allocation loop; [k] counts the arrays allocated so far. *)
Fixpoint alloc_arrays (props : list (string * string)) (n : Z) (k : nat)
    (arrays : table) : result table :=
  match props with
  | [] => Ok arrays
  | (_, p_name) :: ps =>
      col <-! np_empty k n;
      alloc_arrays ps n (S k) (<[p_name := col]> arrays)
  end.

(** [arrays[p_name][i] = float(v)] over [zip(props, values)].  Every name
    is a key of [arrays] and [i] is below the array length, so the
    assignment never raises. *)
Fixpoint store_row (props : list (string * string)) (values : list pyval)
    (i : nat) (arrays : table) : table :=
  match props, values with
  | (_, p_name) :: ps, v :: vs =>
      store_row ps vs i (alter (λ col, <[i := to_float32 v]> col) p_name arrays)
  | _, _ => arrays
  end.

(** [k] iterations of the record loop starting at row [i]; [rest] is the
    part of the file after the current position. *)
Fixpoint read_rows (st : Struct.t) (props : list (string * string)) (n : Z)
    (k i : nat) (rest : list byte) (arrays : table) : result table :=
  match k with
  | O => Ok arrays
  | S k' =>
      let chunk := take (Struct.size st) rest in
      if negb (length chunk =? Struct.size st)%nat
      then Err (EOFError_body (Z.of_nat i) n)
      else read_rows st props n k' (S i) (drop (Struct.size st) rest)
             (store_row props (Struct.unpack st chunk) i arrays)
  end.

(** [f.seek(offset)] on a file opened for reading: what is left to read
    from the new position.  An offset that does not fit the 64 bits of an
    [off_t] is a [ValueError], a negative one is refused by the system call.
    A position up to the end of the file is always accepted; one beyond it
    is for the file system to accept, and reading there finds nothing. *)
Definition seek (file : list byte) (offset : Z) : result (list byte) :=
  if (offset <? - 2 ^ 63)%Z then Err ValueError_offset
  else if (offset <? 0)%Z then Err OSError_seek
  else if (offset <=? Z.of_nat (length file))%Z
       then Ok (drop (Z.to_nat offset) file)
  else if (2 ^ 63 <=? offset)%Z then Err ValueError_offset
  else if seek_past_end offset then Ok []
  else Err OSError_seek.

Definition read_vertex_table_binary (file : list byte) (header : PlyHeader)
  : result table :=
  if negb (String.eqb (format header) "binary_little_endian"
           || String.eqb (format header) "binary_big_endian")
  then Err ValueError_only_binary
  else
    endian <-! _endian_for_format (format header);
    st <-! _struct_for_vertex (vertex_properties header) endian;
    arrays <-! alloc_arrays (vertex_properties header) (vertex_count header) 0 ∅;
    rest <-! seek file (data_start_offset header);
    read_rows st (vertex_properties header) (vertex_count header)
      (Z.to_nat (vertex_count header)) 0 rest arrays.

End Reader.

(** ** Column reconciliation (the middle of [convert]) *)

Definition build_target_schema_from_train_header (train_header : PlyHeader)
  : list (string * string) :=
  vertex_properties train_header.

Definition np_zeros (n : Z) : result (list Z) :=
  if (n <? 0)%Z then Err ValueError_negative_dimensions
  else Ok (replicate (Z.to_nat n) 0%Z).

(** The loop over [target_schema] that builds [out_cols]. *)
Fixpoint build_out_cols (teaser_cols : table) (target_schema : list (string * string))
    (n : Z) (out_cols : table) : result table :=
  match target_schema with
  | [] => Ok out_cols
  | (_, name) :: r =>
      match teaser_cols !! name with
      | Some col => build_out_cols teaser_cols r n (<[name := col]> out_cols)
      | None =>
          col <-! np_zeros n;
          build_out_cols teaser_cols r n (<[name := col]> out_cols)
      end
  end.

(** [if name in out_cols and name not in teaser_cols: out_cols[name].fill(0.0)] *)
Definition fill_missing (teaser_cols : table) (name : string) (out_cols : table)
  : table :=
  if bool_decide (is_Some (out_cols !! name)) && bool_decide (teaser_cols !! name = None)
  then alter (λ col, replicate (length col) 0%Z) name out_cols
  else out_cols.

Definition f_rest_names : list string :=
  (λ i, "f_rest_" +:+ py_str_int (Z.of_nat i)) <$> seq 0 45.

Definition reconcile (teaser_cols : table) (target_schema : list (string * string))
    (n : Z) : result table :=
  out_cols <-! build_out_cols teaser_cols target_schema n ∅;
  let out_cols := foldl (λ out name, fill_missing teaser_cols name out) out_cols
                    ["nx"; "ny"; "nz"] in
  Ok (foldl (λ out name, fill_missing teaser_cols name out) out_cols f_rest_names).

(** ** [write_ply_binary_vertex_only]

    The writer's effect on the destination path comes with its outcome:
    [None] when the path was never opened, [Some bs] when it was opened for
    writing (which empties it) and [bs] is what it holds when the file object
    is closed, on return or on the way out of an exception. *)

Definition outcome : Type := option (list byte) * result unit.

Definition join_lines (ls : list string) : string :=
  foldr (λ l acc, l +:+ String "010" acc) EmptyString ls.

(** ["\n".join(header_lines) + "\n"] *)
Definition header_text (vertex_count : Z) (schema : list (string * string))
  : string :=
  join_lines
    (["ply"; "format binary_little_endian 1.0";
      "element vertex " +:+ py_str_int vertex_count]
     ++ ((λ p, "property " +:+ p.1 +:+ " " +:+ p.2) <$> schema)
     ++ ["end_header"]).

(** The sanity check that precedes [path.open]. *)
Fixpoint check_columns (vertex_count : Z) (schema : list (string * string))
    (columns : table) : result unit :=
  match schema with
  | [] => Ok tt
  | (_, p_name) :: r =>
      match columns !! p_name with
      | None => Err (KeyError_missing_column p_name)
      | Some col =>
          if negb (Z.of_nat (length col) =? vertex_count)%Z
          then Err (ValueError_row_count p_name)
          else check_columns vertex_count r columns
      end
  end.

(** [[columns[name][i] for _, name in schema]] *)
Fixpoint row_values (schema : list (string * string)) (columns : table) (i : nat)
  : result (list pyval) :=
  match schema with
  | [] => Ok []
  | (_, name) :: r =>
      match columns !! name with
      | None => Err (KeyError_missing_column name)
      | Some col =>
          match col !! i with
          | None => Err IndexError
          | Some x => vs <-! row_values r columns i; Ok (NpFloat32 x :: vs)
          end
      end
  end.

Section Writer.

Context {platform : Platform}.

(** [k] iterations of the row loop from row [i]; [written] is what the file
    holds so far. *)
Fixpoint write_rows (st : Struct.t) (schema : list (string * string))
    (columns : table) (k i : nat) (written : list byte) : outcome :=
  match k with
  | O => (Some written, Ok tt)
  | S k' =>
      match (row <-! row_values schema columns i; Struct.pack st row) with
      | inl e => (Some written, Err e)
      | inr bs => write_rows st schema columns k' (S i) (written ++ bs)
      end
  end.

Definition write_ply_binary_vertex_only (vertex_count : Z)
    (schema : list (string * string)) (columns : table) : outcome :=
  let header := header_text vertex_count schema in
  match _struct_for_vertex schema "<" with
  | inl e => (None, Err e)
  | inr st =>
      match check_columns vertex_count schema columns with
      | inl e => (None, Err e)
      | inr _ =>
          match encode_ascii header with
          | inl e => (Some [], Err e)
          | inr hb =>
              write_rows st schema columns (Z.to_nat vertex_count) 0 hb
          end
      end
  end.

End Writer.

(** ** [convert] *)

Section Convert.

Context {platform : Platform}.

Variable junk : nat -> nat -> Z.

Definition convert (teaser train : list byte) : outcome :=
  match parse_ply_header teaser with
  | inl e => (None, Err e)
  | inr teaser_header =>
      match parse_ply_header train with
      | inl e => (None, Err e)
      | inr train_header =>
          let target_schema := build_target_schema_from_train_header train_header in
          match read_vertex_table_binary junk teaser teaser_header with
          | inl e => (None, Err e)
          | inr teaser_cols =>
              let n := vertex_count teaser_header in
              match reconcile teaser_cols target_schema n with
              | inl e => (None, Err e)
              | inr out_cols =>
                  write_ply_binary_vertex_only n target_schema out_cols
              end
          end
      end
  end.

End Convert.

(** ** [_summarize_header]

    [name] is [path.name], the last component of the path the file was
    opened under. *)

(** [sep.join(parts)] *)
Definition str_join (sep : string) (parts : list string) : string :=
  match parts with
  | [] => EmptyString
  | p :: rest => p +:+ foldr (λ q acc, sep +:+ q +:+ acc) EmptyString rest
  end.

Section Summary.

Context {platform : Platform}.

Definition _summarize_header (name : string) (file : list byte) : result string :=
  h <-! parse_ply_header file;
  let props := str_join ", " (snd <$> vertex_properties h) in
  Ok (name +:+ ": format=" +:+ format h
      +:+ " vertex=" +:+ py_str_int (vertex_count h)
      +:+ " props=" +:+ py_str_int (Z.of_nat (length (vertex_properties h)))
      +:+ String "010" "  [" +:+ props +:+ "]").

End Summary.

(** * Notions used to state the properties *)

(** ** Struct codes of a schema *)

(** The struct code of a PLY scalar type name. *)
Definition type_code (t : string) : result Struct.code :=
  match _PLY_TYPE_TO_STRUCT !! t with
  | Some (String a EmptyString) =>
      match Struct.code_of_ascii a with
      | Some c => Ok c
      | None => Err StructError
      end
  | Some _ => Err StructError
  | None => Err (ValueError_scalar_type t)
  end.

Fixpoint type_codes (props : list (string * string)) : result (list Struct.code) :=
  match props with
  | [] => Ok []
  | (t, _) :: r =>
      c <-! type_code t;
      cs <-! type_codes r;
      Ok (c :: cs)
  end.

(** Length in bytes of one vertex record ([0] when a type is unknown). *)
Definition record_stride (props : list (string * string)) : nat :=
  match type_codes props with
  | inr cs => sum_list (Struct.width <$> cs)
  | inl _ => 0%nat
  end.

(** The struct of an output schema: little-endian. *)
Definition little_struct (cs : list Struct.code) : Struct.t :=
  {| Struct.little := true; Struct.codes := cs |}.

(** ** Bit patterns *)

(** A pattern from its three fields. *)
Definition encode (f : Ieee.fmt) (s e m : Z) : Z :=
  s * Ieee.sign_weight f + e * 2 ^ Ieee.mw f + m.

Abbreviation enc32 := (encode Ieee.binary32).
Abbreviation enc64 := (encode Ieee.binary64).

(** A pattern of [f] with a signalling NaN made quiet. *)
Definition quieted (f : Ieee.fmt) (b : Z) : Z :=
  if Ieee.is_snan f b then b + Ieee.quiet_bit f else b.

(** Exponent and significand fields of the double a float32 with the fields
    [e] and [m] is converted to. *)
Definition widened (e m : Z) : Z * Z :=
  if e =? 255
  then (2047, if m =? 0 then 0 else Ieee.set_quiet Ieee.binary64 (m * 2 ^ 29))
  else if e =? 0 then
    if m =? 0 then (0, 0)
    else (Z.log2 m + 874, m * 2 ^ (52 - Z.log2 m) - 2 ^ 52)
  else (e + 896, m * 2 ^ 29).

(** Every entry of every column is a binary32 pattern. *)
Definition float32_table (columns : table) : Prop :=
  ∀ name col, columns !! name = Some col →
              Forall (λ x, 0 ≤ x < 4294967296) col.

(** Every entry of every column is a binary32 pattern that is not a
    signalling NaN: what the reader stores. *)
Definition quiet_table (columns : table) : Prop :=
  ∀ name col, columns !! name = Some col →
              Forall (λ x, 0 ≤ x < 4294967296
                           ∧ Ieee.is_snan Ieee.binary32 x = false) col.

(** ** Resources of the platform *)

(** The number of digits of [str(n)]. *)
Definition int_digits (n : Z) : nat :=
  match Z.to_int n with
  | Decimal.Pos d | Decimal.Neg d => Decimal.nb_digits d
  end.

Section Resources.

Context {platform : Platform}.

(** [int] reads the numeral [str(n)]: it is within the limit on digits. *)
Definition readable (n : Z) : bool := negb (too_many_digits (int_digits n)).

(** numpy has room for the arrays of [n] cells that reading a table of the
    properties [props] allocates. *)
Definition room_for (props : list (string * string)) (n : Z) : Prop :=
  ∀ k, (k < length props)%nat → numpy_alloc k n = Allocated.

(** [f.seek(offset)] succeeds on the file. *)
Definition seekable (file : list byte) (offset : Z) : bool :=
  match seek file offset with
  | inr _ => true
  | inl _ => false
  end.

End Resources.

(** ** The vertex records of a file *)

(** The bytes of the file in which the header places the vertex records. *)
Definition vertex_window (header : PlyHeader) (file : list byte) : list byte :=
  take (record_stride (vertex_properties header) * Z.to_nat (vertex_count header))
       (drop (Z.to_nat (data_start_offset header)) file).

Definition at_offset_0 (header : PlyHeader) : PlyHeader :=
  {| format := format header;
     version := version header;
     vertex_count := vertex_count header;
     vertex_properties := vertex_properties header;
     header_lines := header_lines header;
     data_start_offset := 0 |}.

(** Record [i] of a body of fixed-stride records. *)
Definition record (stride : nat) (body : list byte) (i : nat) : list byte :=
  take stride (drop (i * stride) body).

(** The bytes of one field: the property that follows the properties [before]
    in every record. *)
Definition field (before : list (string * string)) (c : Struct.code)
    (rec : list byte) : list byte :=
  take (Struct.width c) (drop (record_stride before) rec).

(** The value [zip(props, values)] pairs last with the property [name]. *)
Fixpoint last_named (props : list (string * string)) (values : list pyval)
    (name : string) : option pyval :=
  match props, values with
  | (_, p_name) :: ps, v :: vs =>
      match last_named ps vs name with
      | Some w => Some w
      | None => if String.eqb p_name name then Some v else None
      end
  | _, _ => None
  end.

Section Records.

Context {platform : Platform}.

(** What the record loop makes of one column: [k] rows from row [i] on. *)
Fixpoint rows_col (st : Struct.t) (props : list (string * string))
    (name : string) (k i : nat) (rest : list byte) (col : list Z) : list Z :=
  match k with
  | O => col
  | S k' =>
      rows_col st props name k' (S i) (drop (Struct.size st) rest)
        match last_named props (Struct.unpack st (take (Struct.size st) rest)) name with
        | Some v => <[i := to_float32 v]> col
        | None => col
        end
  end.

(** [body] is [k] records, the rows [i], [i+1], ... of [columns] packed with
    [st] one after the other. *)
Fixpoint rows_packed (st : Struct.t) (schema : list (string * string))
    (columns : table) (k i : nat) (body : list byte) : Prop :=
  match k with
  | O => body = []
  | S k' =>
      ∃ row bs body',
        row_values schema columns i = Ok row ∧ Struct.pack st row = Ok bs
        ∧ body = bs ++ body' ∧ rows_packed st schema columns k' (S i) body'
  end.

End Records.

(** ** Reconciled columns *)

(** The column reconciliation is to produce under [name]. *)
Definition reconciled (teaser_cols : table) (n : Z) (name : string) : list Z :=
  default (replicate (Z.to_nat n) 0) (teaser_cols !! name).

(** A column standing for a property the source lacks holds zeros. *)
Definition zero_filled (teaser_cols : table) (n : Z) (out_cols : table) : Prop :=
  ∀ name col, out_cols !! name = Some col → teaser_cols !! name = None →
              col = replicate (Z.to_nat n) 0.

(** ** Tokens and header lines *)

Fixpoint all_chars (p : ascii → bool) (s : string) : bool :=
  match s with
  | EmptyString => true
  | String a r => p a && all_chars p r
  end.

(** A token: not empty, no whitespace -- what [split] returns. *)
Definition is_token (s : string) : bool :=
  match s with
  | EmptyString => false
  | _ => all_chars (λ a, negb (is_space a)) s
  end.

Definition ascii_text (s : string) : bool :=
  all_chars (λ a, (nat_of_ascii a <? 128)%nat) s.

Definition no_newline (s : string) : bool :=
  all_chars (λ a, negb (Ascii.eqb a "010")) s.

(** The property names of a schema are tokens. *)
Definition names_are_tokens (schema : list (string * string)) : bool :=
  forallb (λ p, is_token p.2) schema.

(** The bytes of a header line with its newline. *)
Definition line_bytes (l : string) : list byte :=
  list_byte_of_string (l +:+ String "010" EmptyString).

Definition text_lines (ls : list string) : list byte :=
  list_byte_of_string (join_lines ls).

Definition property_line (p : string * string) : string :=
  "property " +:+ p.1 +:+ " " +:+ p.2.

(** The lines [write_ply_binary_vertex_only] puts in a header. *)
Definition written_lines (vertex_count : Z) (schema : list (string * string))
  : list string :=
  ["ply"; "format binary_little_endian 1.0";
   "element vertex " +:+ py_str_int vertex_count]
  ++ (property_line <$> schema) ++ ["end_header"].

(** The header of a file the writer produces. *)
Definition written_header (vertex_count : Z) (schema : list (string * string))
  : PlyHeader :=
  {| format := "binary_little_endian";
     version := "1.0";
     vertex_count := vertex_count;
     vertex_properties := schema;
     header_lines := written_lines vertex_count schema;
     data_start_offset :=
       Z.of_nat (String.length (header_text vertex_count schema)) |}.

(** The state of the header loop after the property lines of [schema]. *)
Definition after_properties (st : pstate) (schema : list (string * string))
  : pstate :=
  {| ps_pos := ps_pos st
               + Z.of_nat (length (concat (line_bytes <$> (property_line <$> schema))));
     ps_count := ps_count st;
     ps_props := ps_props st ++ schema;
     ps_in_vertex := ps_in_vertex st;
     ps_lines := ps_lines st ++ (property_line <$> schema) |}.

(** A header with the format name [fmt] and nothing but an empty vertex
    element. *)
Definition minimal_header (fmt : string) : list string :=
  ["ply"; "format " +:+ fmt +:+ " 1.0"; "element vertex 0"; "end_header"].

(** The text of a header line as the loop of [parse_ply_header] sees it
    (empty when the line is not ASCII, where the parser raises). *)
Definition line_text (bline : list byte) : string :=
  match decode_ascii bline with
  | inr s => strip (rstrip is_crlf s)
  | inl _ => EmptyString
  end.

(** Whether the declarations up to [end_header] contain a list property
    ([property list <count type> <item type> <name>]) that belongs to a
    [vertex] element; [in_vertex] tells whether the last [element] line so
    far names [vertex]. *)
Fixpoint declares_list_in_vertex (in_vertex : bool) (texts : list string) : bool :=
  match texts with
  | [] => false
  | text :: rest =>
      if String.eqb text "end_header" then false
      else
        match split text with
        | kw :: arg :: more =>
            if String.eqb kw "element"
            then declares_list_in_vertex (String.eqb arg "vertex") rest
            else if String.eqb kw "property" && String.eqb arg "list"
                    && (3 <=? length more)%nat && in_vertex
            then true
            else declares_list_in_vertex in_vertex rest
        | _ => declares_list_in_vertex in_vertex rest
        end
  end.

Definition declares_vertex_list_property (file : list byte) : bool :=
  declares_list_in_vertex false (line_text <$> drop 2 (readlines file)).

(** ** The writer's failures *)

(** The precondition failures: raised by [_struct_for_vertex] and by the
    sanity check. *)
Definition validation_error (e : exn) : bool :=
  match e with
  | ValueError_scalar_type _ | KeyError_missing_column _ | ValueError_row_count _ =>
      true
  | _ => false
  end.

(** ** Floating-point schemas *)

(** The PLY names of the floating-point types. *)
Definition float_type (t : string) : bool :=
  bool_decide (t ∈ ["float"; "float32"; "double"; "float64"]).

(** Every property of the schema has a floating-point type. *)
Definition float_schema (schema : list (string * string)) : bool :=
  forallb (λ p, float_type p.1) schema.

(** ** One iteration of the header loop *)

(** How an iteration of the [while True] loop of [parse_ply_header] ends:
    with the [break] at [end_header], by going on to the next line, or with
    an exception. *)
Inductive iteration : Type :=
  | Break (st : pstate)
  | Continue (st : pstate)
  | Raise (e : exn).

Section Iteration.

Context {platform : Platform}.

(** The body of the loop, for the line [bline] that [_readline_ascii]
    returned. *)
Definition header_iteration (st : pstate) (bline : list byte) : iteration :=
  match decode_ascii bline with
  | inl e => Raise e
  | inr decoded =>
      let line := rstrip is_crlf decoded in
      let st := after_line st bline line in
      let stripped := strip line in
      if String.eqb stripped "end_header" then Break st
      else
        let parts := split stripped in
        match parts with
        | [] => Continue st
        | p0 :: _ =>
            if String.eqb p0 "element" then
              match parts with
              | [_; elem_name; count] =>
                  match py_int count with
                  | inl e => Raise e
                  | inr elem_count =>
                      Continue (enter_element st elem_name elem_count)
                  end
              | _ => Raise ValueError_element_line
              end
            else if String.eqb p0 "property" then
              if ps_in_vertex st then
                match parts with
                | [_; p_type; p_name] => Continue (add_property st p_type p_name)
                | _ :: p1 :: _ :: _ :: _ :: _ =>
                    if String.eqb p1 "list" then Raise ValueError_list_property
                    else Raise ValueError_property_line
                | _ => Raise ValueError_property_line
                end
              else Continue st
            else Continue st
        end
  end.

End Iteration.

(** The state of the loop before its first iteration. *)
Definition initial_pstate (first fmt_line : list byte) (line0 fmt_text : string)
  : pstate :=
  {| ps_pos := Z.of_nat (length first + length fmt_line);
     ps_count := None;
     ps_props := [];
     ps_in_vertex := false;
     ps_lines := [rstrip is_crlf line0; rstrip is_crlf fmt_text] |}.

(** Two loop states that agree on what has been declared so far (they may
    differ in the position and in the lines read). *)
Definition same_declarations (st st' : pstate) : Prop :=
  ps_count st = ps_count st' ∧ ps_props st = ps_props st'
  ∧ ps_in_vertex st = ps_in_vertex st'.

(** A header line the loop passes over: blank, or with a first word that is
    neither [element] nor [property], and not the [end_header] line. *)
Definition passed_over (line : string) : bool :=
  negb (String.eqb (strip line) "end_header")
  && match split (strip line) with
     | [] => true
     | p0 :: _ => negb (String.eqb p0 "element") && negb (String.eqb p0 "property")
     end.

(** A word of a header line: a token of ASCII characters. *)
Definition is_word (s : string) : bool := is_token s && ascii_text s.

(** Iterations, and results of the loop, that end the same way in states
    that agree on the declarations. *)
Definition related_iterations (r r' : iteration) : Prop :=
  match r, r' with
  | Break a, Break a' | Continue a, Continue a' => same_declarations a a'
  | Raise e, Raise e' => e = e'
  | _, _ => False
  end.

Definition related_results (r r' : result pstate) : Prop :=
  match r, r' with
  | inr a, inr a' => same_declarations a a'
  | inl e, inl e' => e = e'
  | _, _ => False
  end.

(** ** Exceptions the conversion cannot end in *)

(** The exceptions that the checks of [convert.py] and the way [convert]
    feeds one step into the next rule out for a whole conversion. *)
Definition ruled_out (e : exn) : bool :=
  match e with
  | ValueError_endian | ValueError_row_count _ | KeyError_missing_column _
  | UnicodeEncodeError | OSError_seek | OverflowError_f | IndexError => true
  | _ => false
  end.

(** ** Integers as float32 values *)

(** The binary32 pattern [b] is the float whose value is the integer [z]:
    [+0.0] for zero, otherwise a normal number with the sign of [z] whose
    significand [1 + mant / 2^23], scaled by [2^(expo - 127)], is [|z|]. *)
Definition represents_integer (b z : Z) : Prop :=
  if decide (z = 0) then b = 0
  else Ieee.sign Ieee.binary32 b = (if z <? 0 then 1 else 0)
       ∧ 127 ≤ Ieee.expo Ieee.binary32 b < 255
       ∧ (2 ^ 23 + Ieee.mant Ieee.binary32 b) * 2 ^ (Ieee.expo Ieee.binary32 b - 127)
         = Z.abs z * 2 ^ 23.

(** ** Byte order *)

(** A record with the bytes of every field reversed. *)
Fixpoint swap_fields (cs : list Struct.code) (chunk : list byte) : list byte :=
  match cs with
  | [] => chunk
  | c :: cs' =>
      rev (take (Struct.width c) chunk)
      ++ swap_fields cs' (drop (Struct.width c) chunk)
  end.

(** The first [k] records of a body with their fields reversed; an
    incomplete record keeps its length. *)
Fixpoint swap_records (cs : list Struct.code) (k : nat) (body : list byte)
  : list byte :=
  match k with
  | O => body
  | S k' =>
      let size := sum_list (Struct.width <$> cs) in
      swap_fields cs (take size body) ++ swap_records cs k' (drop size body)
  end.

(** The file with the fields of its vertex records reversed. *)
Definition swap_byte_order (header : PlyHeader) (file : list byte) : list byte :=
  match type_codes (vertex_properties header) with
  | inr cs =>
      take (Z.to_nat (data_start_offset header)) file
      ++ swap_records cs (Z.to_nat (vertex_count header))
           (drop (Z.to_nat (data_start_offset header)) file)
  | inl _ => file
  end.

(** The header with another format name. *)
Definition with_format (fmt : string) (header : PlyHeader) : PlyHeader :=
  {| format := fmt;
     version := version header;
     vertex_count := vertex_count header;
     vertex_properties := vertex_properties header;
     header_lines := header_lines header;
     data_start_offset := data_start_offset header |}.

(** A header line that neither ends the header nor opens an element: a
    property line of any shape, a comment, a blank line. *)
Definition inside_element (line : string) : bool :=
  negb (String.eqb (strip line) "end_header")
  && match split (strip line) with
     | [] => true
     | p0 :: _ => negb (String.eqb p0 "element")
     end.

Section OtherElements.

Context {platform : Platform}.

(** A header line that opens an element other than [vertex]. *)
Definition opens_other_element (line : string) : bool :=
  match split (strip line) with
  | [kw; name; count] =>
      String.eqb kw "element" && negb (String.eqb name "vertex")
      && match py_int count with inr _ => true | inl _ => false end
  | _ => false
  end.

(** The lines of a header between the properties of the vertex element and
    [end_header]: none, or the declarations of other elements. *)
Definition other_elements (lines : list string) : bool :=
  match lines with
  | [] => true
  | e :: others =>
      opens_other_element e
      && forallb (λ l, opens_other_element l || inside_element l) others
  end.

End OtherElements.

(** ** Sample platforms *)

(** CPython 3.11 with the default limit on the digits of an [int], on a
    machine with room for every array and a file system that accepts every
    position. *)
Definition reference : Platform :=
  {| int_max_str_digits := 4300;
     struct_keeps_snan := false;
     numpy_alloc := λ _ _, Allocated;
     seek_past_end := λ _, true |}.

(** The same with CPython 3.14. *)
Definition cpython_3_14 : Platform :=
  {| int_max_str_digits := 4300;
     struct_keeps_snan := true;
     numpy_alloc := λ _ _, Allocated;
     seek_past_end := λ _, true |}.

(** A 64-bit machine: numpy represents no array of [2^61] float32 cells or
    more, there is no memory for one of [2^32] cells or more, and the file
    system has no position from [2^44] on. *)
Definition small_machine : Platform :=
  {| int_max_str_digits := 4300;
     struct_keeps_snan := false;
     numpy_alloc := λ _ n, if 2 ^ 61 <=? n then TooLarge
                           else if 2 ^ 32 <=? n then NoMemory
                           else Allocated;
     seek_past_end := λ p, p <? 2 ^ 44 |}.

(** ** Sample inputs *)

Definition no_junk : nat → nat → Z := λ _ _, 0.

(** A header whose format name is not a binary variant. *)
Definition sample_foo : list byte :=
  text_lines ["ply"; "format foo 1.0"; "element vertex 0"; "end_header"].

(** A list property in the vertex element. *)
Definition sample_list : list byte :=
  text_lines ["ply"; "format binary_little_endian 1.0"; "element vertex 1";
              "property list uchar int vertex_indices"; "end_header"].

(** Two properties named [x]; the record is [1.0] then [2.0]. *)
Definition sample_dup : list byte :=
  text_lines ["ply"; "format binary_little_endian 1.0"; "element vertex 1";
              "property float x"; "property float x"; "end_header"]
  ++ [x00; x00; x80; x3f; x00; x00; x00; x40].

Definition sample_dup_header : PlyHeader :=
  {| format := "binary_little_endian"; version := "1.0"; vertex_count := 1;
     vertex_properties := [("float", "x"); ("float", "x")];
     header_lines := ["ply"; "format binary_little_endian 1.0";
                      "element vertex 1"; "property float x";
                      "property float x"; "end_header"];
     data_start_offset := 98 |}.

(** Two big-endian vertices of one float declared, five body bytes present
    after the offset. *)
Definition sample_short_header : PlyHeader :=
  {| format := "binary_big_endian"; version := "1.0"; vertex_count := 2;
     vertex_properties := [("float", "x")];
     header_lines := []; data_start_offset := 3 |}.

Definition sample_short : list byte :=
  [x00; x00; x00; x3f; x80; x00; x00; x40].

(** A header that declares [2^40] vertices of one float, followed by one
    record. *)
Definition sample_huge : list byte :=
  text_lines ["ply"; "format binary_little_endian 1.0";
              "element vertex 1099511627776"; "property float x"; "end_header"]
  ++ [x00; x00; x80; x3f].

Definition sample_huge_header : PlyHeader :=
  {| format := "binary_little_endian"; version := "1.0";
     vertex_count := 1099511627776;
     vertex_properties := [("float", "x")];
     header_lines := ["ply"; "format binary_little_endian 1.0";
                      "element vertex 1099511627776"; "property float x";
                      "end_header"];
     data_start_offset := 93 |}.

(** A [face] element of one record declared before the vertex element: the
    body starts with the face's byte [7], the vertex's byte [9] follows. *)
Definition sample_face_first : list byte :=
  text_lines ["ply"; "format binary_little_endian 1.0"; "element face 1";
              "property uchar a"; "element vertex 1"; "property uchar r";
              "end_header"]
  ++ [x07; x09].

(** A source of two big-endian vertices with one float [x], and a reference
    that declares seven vertices with the floats [nx] and [x]. *)
Definition sample_teaser : list byte :=
  text_lines ["ply"; "format binary_big_endian 1.0"; "element vertex 2";
              "property float x"; "end_header"]
  ++ [x3f; x80; x00; x00; xbf; x80; x00; x00].

Definition sample_train : list byte :=
  text_lines ["ply"; "format ascii 1.0"; "element vertex 7";
              "property float nx"; "property float x"; "end_header"].


(** The same reference with [nx] declared [uchar]. *)
Definition sample_train_uchar : list byte :=
  text_lines ["ply"; "format ascii 1.0"; "element vertex 7";
              "property uchar nx"; "property float x"; "end_header"].

(** What the conversion of [sample_teaser] to the schema of [sample_train]
    writes. *)
Definition sample_output : list byte :=
  Eval vm_compute in
    default [] (@convert reference no_junk sample_teaser sample_train).1.

(** * Properties *)

(** ** The registry and [_struct_for_vertex] *)

Section StructForVertex.

Context {platform : Platform}.

Lemma registry_cases (t : string) :
  _PLY_TYPE_TO_STRUCT !! t = None ∨
  ∃ a c, _PLY_TYPE_TO_STRUCT !! t = Some (String a EmptyString)
         ∧ Struct.code_of_ascii a = Some c.
Proof.
  destruct (_PLY_TYPE_TO_STRUCT !! t) as [s|] eqn:E; [right|by left].
  apply elem_of_list_to_map_2 in E.
  repeat (apply elem_of_cons in E as [E|E];
          [injection E as _ ->; eexists _, _; split; reflexivity|]).
  by apply elem_of_nil in E.
Qed.

Lemma compile_codes_cons a c (Hc : Struct.code_of_ascii a = Some c) s :
  Struct.compile_codes (String a s)
  = match Struct.compile_codes s with Some cs => Some (c :: cs) | None => None end.
Proof. cbn [Struct.compile_codes]. by rewrite Hc. Qed.

Lemma join_codes_compile props :
  match join_codes props with
  | inr s => ∃ cs, type_codes props = Ok cs ∧ Struct.compile_codes s = Some cs
  | inl e => type_codes props = Err e
  end.
Proof.
  induction props as [|[t p] r IH]; cbn [join_codes type_codes].
  - by exists [].
  - unfold type_code.
    destruct (registry_cases t) as [->|(a & c & -> & Hc)]; [done|].
    rewrite Hc. cbn [bind].
    destruct (join_codes r) as [e|s]; [by rewrite IH|].
    destruct IH as (cs & -> & Hcs). exists (c :: cs). split; [done|].
    change (String a EmptyString +:+ s) with (String a s).
    by rewrite (compile_codes_cons a c Hc), Hcs.
Qed.

Lemma struct_for_vertex_little props :
  _struct_for_vertex props "<"
  = (cs <-! type_codes props; Ok {| Struct.little := true; Struct.codes := cs |}).
Proof.
  unfold _struct_for_vertex. pose proof (join_codes_compile props) as H.
  destruct (join_codes props) as [e|s]; [by rewrite H|].
  destruct H as (cs & -> & Hcs). cbn [bind].
  change (Struct.compile ("<" +:+ s))
    with (match Struct.compile_codes s with
          | Some cs => Ok {| Struct.little := true; Struct.codes := cs |}
          | None => Err StructError
          end).
  by rewrite Hcs.
Qed.

Lemma struct_for_vertex_big props :
  _struct_for_vertex props ">"
  = (cs <-! type_codes props; Ok {| Struct.little := false; Struct.codes := cs |}).
Proof.
  unfold _struct_for_vertex. pose proof (join_codes_compile props) as H.
  destruct (join_codes props) as [e|s]; [by rewrite H|].
  destruct H as (cs & -> & Hcs). cbn [bind].
  change (Struct.compile (">" +:+ s))
    with (match Struct.compile_codes s with
          | Some cs => Ok {| Struct.little := false; Struct.codes := cs |}
          | None => Err StructError
          end).
  by rewrite Hcs.
Qed.

Lemma endian_for_format_inv fmt endian :
  _endian_for_format fmt = Ok endian →
  (fmt = "binary_little_endian" ∧ endian = "<")
  ∨ (fmt = "binary_big_endian" ∧ endian = ">").
Proof.
  unfold _endian_for_format.
  destruct (String.eqb_spec fmt "binary_little_endian") as [->|_].
  { intros [= <-]. by left. }
  destruct (String.eqb_spec fmt "binary_big_endian") as [->|_]; [|done].
  intros [= <-]. by right.
Qed.

Lemma struct_for_vertex_inv props fmt endian st :
  _endian_for_format fmt = Ok endian →
  _struct_for_vertex props endian = Ok st →
  type_codes props = Ok (Struct.codes st)
  ∧ Struct.little st = String.eqb fmt "binary_little_endian"
  ∧ Struct.size st = record_stride props.
Proof.
  intros [[-> ->]|[-> ->]]%endian_for_format_inv;
    rewrite ?struct_for_vertex_little, ?struct_for_vertex_big;
    unfold record_stride;
    (destruct (type_codes props) as [e|cs]; [done|]); by intros [= <-].
Qed.

Lemma type_codes_length props cs :
  type_codes props = Ok cs → length cs = length props.
Proof.
  revert cs. induction props as [|[t p] r IH]; intros cs; cbn [type_codes].
  - by intros [= <-].
  - destruct (type_code t); [done|]. cbn.
    destruct (type_codes r) as [|cs']; [done|]. intros [= <-]. cbn.
    by rewrite (IH cs').
Qed.

(** ** The reader: allocation and the record loop *)

Section ReaderFacts.

Variable junk : nat → nat → Z.

Lemma alloc_arrays_from props n k acc :
  0 ≤ n →
  (∀ j, (j < length props)%nat → numpy_alloc (k + j) n = Allocated) →
  ∃ arrays, alloc_arrays junk props n k acc = Ok arrays.
Proof.
  intros Hn. revert k acc.
  induction props as [|[t p] r IH]; intros k acc Hroom; cbn [alloc_arrays].
  - by eexists.
  - unfold np_empty. destruct (Z.ltb_spec n 0); [lia|].
    pose proof (Hroom 0%nat ltac:(cbn; lia)) as H0.
    rewrite Nat.add_0_r in H0. rewrite H0. cbn [bind]. apply IH.
    intros j Hj. replace (S k + j)%nat with (k + S j)%nat by lia.
    apply Hroom. cbn. lia.
Qed.

Lemma alloc_arrays_ok props n acc :
  0 ≤ n → room_for props n →
  ∃ arrays, alloc_arrays junk props n 0 acc = Ok arrays.
Proof. intros Hn Hroom. by apply alloc_arrays_from. Qed.

Lemma seek_Ok file offset rest :
  seek file offset = Ok rest →
  0 ≤ offset ∧ rest = drop (Z.to_nat offset) file.
Proof.
  unfold seek. destruct (Z.ltb_spec offset (- 2 ^ 63)); [done|].
  destruct (Z.ltb_spec offset 0); [done|].
  destruct (Z.leb_spec offset (Z.of_nat (length file))).
  - intros Heq. apply (inj inr) in Heq. by split.
  - destruct (2 ^ 63 <=? offset); [done|].
    destruct (seek_past_end offset); [|done].
    intros Heq. apply (inj inr) in Heq. split; [done|].
    rewrite drop_ge by lia. done.
Qed.

Lemma seek_inside file offset :
  0 ≤ offset ≤ Z.of_nat (length file) →
  seek file offset = Ok (drop (Z.to_nat offset) file).
Proof.
  intros Hoff. unfold seek.
  destruct (Z.ltb_spec offset (- 2 ^ 63)); [lia|].
  destruct (Z.ltb_spec offset 0); [lia|].
  by destruct (Z.leb_spec offset (Z.of_nat (length file))); [|lia].
Qed.

Lemma seekable_inside file offset :
  0 ≤ offset ≤ Z.of_nat (length file) → seekable file offset = true.
Proof. intros Hoff. unfold seekable. by rewrite seek_inside. Qed.

Lemma seekable_Ok file offset :
  seekable file offset = true →
  0 ≤ offset ∧ seek file offset = Ok (drop (Z.to_nat offset) file).
Proof.
  unfold seekable. destruct (seek file offset) as [e|rest] eqn:Hs; [done|].
  intros _. by destruct (seek_Ok _ _ _ Hs) as [? <-].
Qed.

Lemma read_rows_short st props n k i rest arrays :
  (length rest < Struct.size st * k)%nat →
  read_rows st props n k i rest arrays
  = Err (EOFError_body (Z.of_nat (i + length rest / Struct.size st)) n).
Proof.
  revert i rest arrays. induction k as [|k IH]; intros i rest arrays Hlen.
  - lia.
  - cbn [read_rows]. rewrite length_take.
    destruct (Nat.eqb_spec (Struct.size st `min` length rest) (Struct.size st))
      as [Heq|Hne]; cbn [negb].
    + rewrite IH by (rewrite length_drop; nia).
      rewrite length_drop. do 2 f_equal.
      assert (Struct.size st ≠ 0)%nat as Hnz by lia.
      pose proof (Nat.div_add_l 1 (Struct.size st)
                    (length rest - Struct.size st) Hnz) as Hdiv.
      replace (1 * Struct.size st + (length rest - Struct.size st))%nat
        with (length rest) in Hdiv by lia.
      lia.
    + rewrite Nat.div_small by lia. do 2 f_equal. lia.
Qed.

Lemma read_rows_window st props n k i rest arrays :
  read_rows st props n k i rest arrays
  = read_rows st props n k i (take (Struct.size st * k) rest) arrays.
Proof.
  revert i rest arrays. induction k as [|k IH]; intros i rest arrays; [done|].
  cbn [read_rows].
  rewrite take_take, Nat.min_l by lia.
  destruct (negb _); [done|].
  rewrite IH, (IH _ (drop _ (take _ _))). f_equal.
  rewrite skipn_firstn_comm, take_take. f_equal. lia.
Qed.

Lemma read_window file header :
  seekable file (data_start_offset header) = true →
  read_vertex_table_binary junk file header
  = read_vertex_table_binary junk (vertex_window header file) (at_offset_0 header).
Proof.
  intros Hseek. apply seekable_Ok in Hseek as [Hoff Hseek].
  unfold read_vertex_table_binary, vertex_window. cbn [at_offset_0 format
    vertex_properties vertex_count data_start_offset].
  destruct (negb _); [done|].
  destruct (_endian_for_format (format header)) as [e|endian] eqn:Hend; [done|].
  cbn [bind].
  destruct (_struct_for_vertex _ endian) as [e|st] eqn:Hst; [done|]. cbn [bind].
  destruct (alloc_arrays _ _ _ _ _) as [e|arrays]; [done|]. cbn [bind].
  destruct (struct_for_vertex_inv _ _ _ _ Hend Hst) as (_ & _ & <-).
  rewrite Hseek, seek_inside by lia. cbn [bind Z.to_nat].
  rewrite drop_0. apply read_rows_window.
Qed.

End ReaderFacts.

End StructForVertex.

Section StructForVertexExamples.

#[local] Existing Instance reference.

(** [f.seek] at and beyond the end of a file of three bytes, before its
    start, and at offsets that do not fit an [off_t]; the position [2^50] on
    a file system that has none from [2^44] on. *)
Example seek_cases :
  seek [x01; x02; x03] 3 = Ok []
  ∧ seek [x01; x02; x03] 1000000 = Ok []
  ∧ seek [x01; x02; x03] (-1) = Err OSError_seek
  ∧ seek [x01; x02; x03] (2 ^ 63) = Err ValueError_offset
  ∧ seek [x01; x02; x03] (- 2 ^ 63 - 1) = Err ValueError_offset
  ∧ @seek small_machine [x01; x02; x03] (2 ^ 50) = Err OSError_seek.
Proof. vm_compute. repeat split; reflexivity. Qed.

End StructForVertexExamples.

(** ** The reader: what the table holds *)

Section ReaderTable.

Context {platform : Platform}.

Lemma store_row_lookup props values i (arrays : table) name :
  store_row props values i arrays !! name
  = match last_named props values name with
    | Some v => (λ col, <[i := to_float32 v]> col) <$> arrays !! name
    | None => arrays !! name
    end.
Proof.
  revert values arrays.
  induction props as [|[t p] ps IH]; intros [|v vs] arrays;
    cbn [store_row last_named]; try done.
  rewrite IH. destruct (last_named ps vs name) as [w|].
  - rewrite lookup_alter. case_decide; [subst p|done].
    destruct (arrays !! name) as [col|]; [|done]. cbn.
    by rewrite list_insert_insert_eq.
  - rewrite lookup_alter. destruct (String.eqb_spec p name) as [->|Hne].
    + by rewrite decide_True.
    + by rewrite decide_False.
Qed.

Lemma read_rows_lookup st props n k i rest (arrays t : table) name :
  read_rows st props n k i rest arrays = Ok t →
  t !! name = rows_col st props name k i rest <$> arrays !! name.
Proof.
  revert i rest arrays. induction k as [|k IH]; intros i rest arrays.
  - intros [= <-]. cbn. by destruct (arrays !! name).
  - cbn [read_rows rows_col]. destruct (negb _); [done|].
    intros H. rewrite (IH _ _ _ H), store_row_lookup.
    destruct (last_named _ _ _); [|done]. by destruct (arrays !! name).
Qed.

Lemma rows_col_length st props name k i rest col :
  length (rows_col st props name k i rest col) = length col.
Proof.
  revert i rest col. induction k as [|k IH]; intros i rest col; [done|].
  cbn [rows_col]. rewrite IH. destruct (last_named _ _ _); [|done].
  by rewrite length_insert.
Qed.

Lemma rows_col_lookup st props name k i rest col j :
  (∀ chunk, length chunk = Struct.size st →
            is_Some (last_named props (Struct.unpack st chunk) name)) →
  (Struct.size st * k ≤ length rest)%nat →
  (i ≤ j < i + k)%nat → (j < length col)%nat →
  rows_col st props name k i rest col !! j
  = to_float32 <$> last_named props
      (Struct.unpack st (record (Struct.size st) rest (j - i))) name.
Proof.
  intros Hsome. revert i rest col.
  induction k as [|k IH]; intros i rest col Hrest Hj Hlen; [lia|].
  cbn [rows_col].
  assert (length (take (Struct.size st) rest) = Struct.size st) as Hchunk
    by (rewrite length_take; lia).
  destruct (Hsome _ Hchunk) as [v Hv]. rewrite Hv.
  destruct (decide (j = i)) as [->|Hne].
  - assert (∀ k' i' rest' col', (i < i')%nat →
              rows_col st props name k' i' rest' col' !! i = col' !! i) as Hkeep.
    { induction k' as [|k' IHk]; intros i' rest' col' Hlt; [done|].
      cbn [rows_col]. rewrite IHk by lia.
      destruct (last_named props (Struct.unpack st (take _ rest')) name); [|done].
      rewrite list_lookup_insert_ne; [done|lia]. }
    rewrite Hkeep by lia. rewrite list_lookup_insert_eq by done.
    unfold record. rewrite Nat.sub_diag. cbn [Nat.mul]. rewrite drop_0.
    by rewrite Hv.
  - rewrite IH; [|rewrite length_drop; nia|lia|by rewrite length_insert].
    unfold record. rewrite drop_drop. do 5 f_equal. nia.
Qed.

Lemma alloc_arrays_lookup junk props n k (acc arrays : table) name :
  alloc_arrays junk props n k acc = Ok arrays →
  if decide (name ∈ props.*2)
  then ∃ col, arrays !! name = Some col ∧ length col = Z.to_nat n
  else arrays !! name = acc !! name.
Proof.
  revert k acc. induction props as [|[t p] r IH]; intros k acc;
    cbn [alloc_arrays].
  - intros [= <-]. by rewrite decide_False by apply not_elem_of_nil.
  - unfold np_empty. destruct (n <? 0); [done|].
    destruct (numpy_alloc k n); [|done..]. cbn [bind].
    intros H. specialize (IH _ _ H).
    destruct (decide (name ∈ r.*2)) as [Hin|Hnin].
    + rewrite decide_True; [done|]. by apply list_elem_of_further.
    + destruct (decide (name = p)) as [->|Hne].
      * rewrite decide_True by apply list_elem_of_here.
        rewrite IH, lookup_insert_eq. eexists. split; [done|].
        by rewrite length_fmap, length_seq.
      * rewrite decide_False, IH, lookup_insert_ne; [done|done|].
        intros [?|?]%elem_of_cons; done.
Qed.

Lemma unpack_codes_length le cs bs :
  length (Struct.unpack_codes le cs bs) = length cs.
Proof.
  revert bs. induction cs as [|c cs IH]; intros bs; cbn; [done|].
  by rewrite IH.
Qed.

Lemma last_named_is_Some props values name :
  name ∈ props.*2 → length values = length props →
  is_Some (last_named props values name).
Proof.
  revert values. induction props as [|[t p] ps IH]; intros [|v vs] Hin Hlen;
    try done.
  - by apply elem_of_nil in Hin.
  - cbn [last_named]. cbn in Hin. apply elem_of_cons in Hin as [->|Hin].
    + destruct (last_named ps vs p); [done|]. by rewrite String.eqb_refl.
    + destruct (IH vs Hin) as [w ->]; [by injection Hlen|done].
Qed.

Lemma last_named_app ps1 t name ps2 values :
  name ∉ ps2.*2 → length values = length (ps1 ++ (t, name) :: ps2) →
  last_named (ps1 ++ (t, name) :: ps2) values name = values !! length ps1.
Proof.
  intros Hnin. revert values.
  induction ps1 as [|[t1 p1] ps1 IH]; intros [|v vs] Hlen; try done.
  - cbn [app last_named length]. rewrite String.eqb_refl.
    assert (last_named ps2 vs name = None) as ->; [|done].
    clear Hlen. revert vs. induction ps2 as [|[t2 p2] ps2 IH2]; intros [|w ws];
      try done.
    cbn [last_named]. cbn in Hnin. apply not_elem_of_cons in Hnin as [Hne Hnin].
    rewrite (IH2 Hnin). destruct (String.eqb_spec p2 name); [by subst|done].
  - cbn [app last_named length]. rewrite IH by (by injection Hlen).
    cbn [lookup list_lookup].
    destruct (vs !! length ps1) as [w|] eqn:Hw; [done|].
    apply lookup_ge_None in Hw. cbn in Hlen. rewrite length_app in Hlen.
    cbn in Hlen. lia.
Qed.

End ReaderTable.

Section ReaderCells.

Context {platform : Platform}.

Lemma type_codes_app ps1 ps2 cs :
  type_codes (ps1 ++ ps2) = Ok cs →
  ∃ cs1 cs2, type_codes ps1 = Ok cs1 ∧ type_codes ps2 = Ok cs2 ∧ cs = cs1 ++ cs2.
Proof.
  revert cs. induction ps1 as [|[t p] ps1 IH]; intros cs; cbn [app type_codes].
  - intros H. by exists [], cs.
  - destruct (type_code t) as [|c]; [done|]. cbn [bind].
    destruct (type_codes (ps1 ++ ps2)) as [|cs'] eqn:E; [done|]. intros [= <-].
    destruct (IH cs' eq_refl) as (cs1 & cs2 & -> & -> & ->).
    by exists (c :: cs1), cs2.
Qed.

Lemma unpack_codes_app le cs1 cs2 bs :
  Struct.unpack_codes le (cs1 ++ cs2) bs
  = Struct.unpack_codes le cs1 bs
    ++ Struct.unpack_codes le cs2 (drop (sum_list (Struct.width <$> cs1)) bs).
Proof.
  revert bs. induction cs1 as [|c cs1 IH]; intros bs; cbn; [done|].
  by rewrite IH, drop_drop.
Qed.

Lemma unpack_field le ps1 t name ps2 cs chunk :
  type_codes (ps1 ++ (t, name) :: ps2) = Ok cs →
  ∃ c, type_code t = Ok c ∧
       Struct.unpack_codes le cs chunk !! length ps1
       = Some (Struct.unpack_one le c (field ps1 c chunk)).
Proof.
  intros (cs1 & cs2 & H1 & H2 & ->)%type_codes_app.
  cbn [type_codes] in H2. destruct (type_code t) as [|c]; [done|].
  cbn [bind] in H2. destruct (type_codes ps2) as [|cs2']; [done|].
  injection H2 as <-. exists c. split; [done|].
  rewrite unpack_codes_app, lookup_app_r
    by (by rewrite unpack_codes_length, (type_codes_length _ _ H1)).
  rewrite unpack_codes_length, (type_codes_length _ _ H1), Nat.sub_diag.
  unfold field, record_stride. by rewrite H1.
Qed.

Section ReaderSpec.

Variable junk : nat → nat → Z.

Lemma read_ok_inv file header t :
  read_vertex_table_binary junk file header = Ok t →
  ∃ endian st arrays,
    _endian_for_format (format header) = Ok endian ∧
    _struct_for_vertex (vertex_properties header) endian = Ok st ∧
    alloc_arrays junk (vertex_properties header) (vertex_count header) 0 ∅
      = Ok arrays ∧
    0 ≤ data_start_offset header ∧
    read_rows st (vertex_properties header) (vertex_count header)
      (Z.to_nat (vertex_count header)) 0
      (drop (Z.to_nat (data_start_offset header)) file) arrays = Ok t ∧
    (Struct.size st * Z.to_nat (vertex_count header)
     ≤ length (drop (Z.to_nat (data_start_offset header)) file))%nat.
Proof.
  unfold read_vertex_table_binary. destruct (negb _); [done|].
  destruct (_endian_for_format _) as [|endian] eqn:He; [done|]. cbn [bind].
  destruct (_struct_for_vertex _ _) as [|st] eqn:Hs; [done|]. cbn [bind].
  destruct (alloc_arrays _ _ _ _ _) as [|arrays] eqn:Ha; [done|]. cbn [bind].
  destruct (seek _ _) as [|rest] eqn:Hseek; [done|]. cbn [bind].
  apply seek_Ok in Hseek as [Hoff ->].
  intros Hrows. exists endian, st, arrays. do 5 (split; [done|]).
  apply Nat.le_ngt. intros Hlt.
  by rewrite (read_rows_short _ _ _ _ _ _ _ Hlt) in Hrows.
Qed.

(** Every name of the header has a column of [vertex_count] cells; cell [i]
    is the value record [i] pairs last with that name. *)
Lemma reader_cells file header t endian st name :
  read_vertex_table_binary junk file header = Ok t →
  _endian_for_format (format header) = Ok endian →
  _struct_for_vertex (vertex_properties header) endian = Ok st →
  if decide (name ∈ (vertex_properties header).*2) then
    ∃ col, t !! name = Some col ∧
      length col = Z.to_nat (vertex_count header) ∧
      ∀ i, (i < Z.to_nat (vertex_count header))%nat →
        col !! i = to_float32 <$>
          last_named (vertex_properties header)
            (Struct.unpack st
               (record (Struct.size st)
                  (drop (Z.to_nat (data_start_offset header)) file) i)) name
  else t !! name = None.
Proof.
  intros (endian' & st' & arrays & He & Hs & Ha & Hoff & Hrows & Hlen)%read_ok_inv
    He' Hs'.
  rewrite He in He'. injection He' as ->. rewrite Hs in Hs'. injection Hs' as ->.
  pose proof (alloc_arrays_lookup _ _ _ _ _ _ name Ha) as Hcol.
  rewrite (read_rows_lookup _ _ _ _ _ _ _ _ name Hrows).
  case_decide as Hin.
  - destruct Hcol as (col0 & -> & Hlen0). cbn. eexists. split; [done|].
    split; [by rewrite rows_col_length|]. intros i Hi.
    rewrite rows_col_lookup; [by rewrite Nat.sub_0_r| |done|lia|lia].
    intros chunk Hchunk. apply last_named_is_Some; [done|].
    unfold Struct.unpack. rewrite unpack_codes_length.
    destruct (struct_for_vertex_inv _ _ _ _ He Hs) as (Hcs & _).
    by apply type_codes_length.
  - by rewrite Hcol, lookup_empty.
Qed.

End ReaderSpec.

End ReaderCells.

(** ** Bit patterns: fields *)

Section Fields.
Import Ieee.

Variable f : fmt.
Hypothesis Hmw : 0 < mw f.
Hypothesis Hew : 0 < ew f.

Lemma pow_mw_pos : 0 < 2 ^ mw f.
Proof. apply Z.pow_pos_nonneg; lia. Qed.

Lemma pow_ew_pos : 0 < 2 ^ ew f.
Proof. apply Z.pow_pos_nonneg; lia. Qed.

Lemma sign_weight_eq : sign_weight f = 2 ^ mw f * 2 ^ ew f.
Proof. unfold sign_weight. rewrite Z.pow_add_r; lia. Qed.

Lemma fields_encode s e m :
  0 ≤ s → 0 ≤ e < 2 ^ ew f → 0 ≤ m < 2 ^ mw f →
  sign f (encode f s e m) = s
  ∧ expo f (encode f s e m) = e
  ∧ mant f (encode f s e m) = m.
Proof.
  intros Hs He Hm. pose proof pow_mw_pos. pose proof pow_ew_pos.
  unfold sign, expo, mant, encode. rewrite sign_weight_eq.
  set (M := 2 ^ mw f) in *. set (E := 2 ^ ew f) in *.
  split; [|split].
  - symmetry. apply (Z.div_unique_pos _ _ s (e * M + m)); nia.
  - assert ((s * (M * E) + e * M + m) / M = s * E + e) as ->
      by (symmetry; apply (Z.div_unique_pos _ _ _ m); nia).
    symmetry. apply (Z.mod_unique_pos _ _ s); lia.
  - symmetry. apply (Z.mod_unique_pos _ _ (s * E + e)); nia.
Qed.

Lemma decompose b :
  0 ≤ b < 2 * sign_weight f →
  b = encode f (sign f b) (expo f b) (mant f b)
  ∧ 0 ≤ sign f b < 2
  ∧ 0 ≤ expo f b < 2 ^ ew f
  ∧ 0 ≤ mant f b < 2 ^ mw f.
Proof.
  intros Hb. pose proof pow_mw_pos. pose proof pow_ew_pos.
  unfold sign, expo, mant, encode. rewrite sign_weight_eq in *.
  set (M := 2 ^ mw f) in *. set (E := 2 ^ ew f) in *.
  pose proof (Z.div_mod b M ltac:(lia)) as H1.
  pose proof (Z.div_mod (b / M) E ltac:(lia)) as H2.
  pose proof (Z.mod_pos_bound b M ltac:(lia)).
  pose proof (Z.mod_pos_bound (b / M) E ltac:(lia)).
  rewrite Z.div_div in H2 by lia.
  assert (0 ≤ b / (M * E) < 2).
  { split; [apply Z.div_pos; nia|apply Z.div_lt_upper_bound; nia]. }
  repeat split; try lia; nia.
Qed.

End Fields.

(** ** Bit patterns: rounding of values that need none *)

Section Rounding.
Import Ieee.

Lemma rne_exact q k : 0 < k → rne (q * 2 ^ k) k = q.
Proof.
  intros Hk. unfold rne.
  assert (0 < 2 ^ k) by (apply Z.pow_pos_nonneg; lia).
  assert (0 < 2 ^ (k - 1)) by (apply Z.pow_pos_nonneg; lia).
  rewrite Z.div_mul, Z.mod_mul by lia.
  by destruct (Z.ltb_spec 0 (2 ^ (k - 1))); [|lia].
Qed.

Lemma round_mag_shift_left f m e :
  0 < m →
  emin f ≤ Z.log2 m + e - mw f ≤ e →
  round_mag f m e
  = Z.min ((Z.log2 m + e - mw f - emin f) * 2 ^ mw f
           + m * 2 ^ (mw f - Z.log2 m)) (inf_mag f).
Proof.
  intros Hm Hfe. unfold round_mag.
  destruct (Z.eqb_spec m 0); [lia|].
  rewrite Z.max_l by lia.
  destruct (Z.leb_spec (Z.log2 m + 1 + e - (mw f + 1) - e) 0); [|lia].
  do 2 f_equal; [lia|]. do 2 f_equal. lia.
Qed.

Lemma round_mag_shift_right f q k e :
  0 < q → 0 < k →
  Z.log2 q + 1 + (e + k) - (mw f + 1) ≤ e + k →
  emin f ≤ e + k → (e + k = emin f ∨ Z.log2 q = mw f) →
  round_mag f (q * 2 ^ k) e
  = Z.min ((e + k - emin f) * 2 ^ mw f + q) (inf_mag f).
Proof.
  intros Hq Hk Hle Hge Hcase. unfold round_mag.
  assert (0 < 2 ^ k) by (apply Z.pow_pos_nonneg; lia).
  destruct (Z.eqb_spec (q * 2 ^ k) 0); [nia|].
  rewrite Z.log2_mul_pow2 by lia.
  assert (Z.max (k + Z.log2 q + 1 + e - (mw f + 1)) (emin f) = e + k) as ->
    by lia.
  destruct (Z.leb_spec (e + k - e) 0); [lia|].
  replace (e + k - e) with k by lia. by rewrite rne_exact.
Qed.

End Rounding.

(** ** Conversions between binary32 and binary64 *)

Section Conversions.
Import Ieee.

Lemma fields32 s e m :
  0 ≤ s → 0 ≤ e < 256 → 0 ≤ m < 8388608 →
  sign binary32 (enc32 s e m) = s
  ∧ expo binary32 (enc32 s e m) = e
  ∧ mant binary32 (enc32 s e m) = m.
Proof. intros. by apply fields_encode. Qed.

Lemma fields64 s e m :
  0 ≤ s → 0 ≤ e < 2048 → 0 ≤ m < 4503599627370496 →
  sign binary64 (enc64 s e m) = s
  ∧ expo binary64 (enc64 s e m) = e
  ∧ mant binary64 (enc64 s e m) = m.
Proof. intros. by apply fields_encode. Qed.

Lemma decompose32 b :
  0 ≤ b < 4294967296 →
  ∃ s e m, b = enc32 s e m ∧ 0 ≤ s < 2 ∧ 0 ≤ e < 256 ∧ 0 ≤ m < 8388608.
Proof.
  intros Hb. exists (sign binary32 b), (expo binary32 b), (mant binary32 b).
  by apply decompose.
Qed.

Lemma log2_significand32 m : 0 ≤ m < 8388608 → Z.log2 (8388608 + m) = 23.
Proof. intros. apply Z.log2_unique; [lia|]. cbn. lia. Qed.

Lemma subnormal_scaled m :
  0 < m < 8388608 →
  0 ≤ Z.log2 m ≤ 22
  ∧ 4503599627370496 ≤ m * 2 ^ (52 - Z.log2 m) < 9007199254740992.
Proof.
  intros Hm. pose proof (Z.log2_spec m ltac:(lia)) as [Hlo Hhi].
  pose proof (Z.log2_nonneg m).
  assert (Z.log2 m < 23) by (apply Z.log2_lt_pow2; lia).
  split; [lia|].
  assert (0 < 2 ^ (52 - Z.log2 m)) by (apply Z.pow_pos_nonneg; lia).
  assert (2 ^ Z.log2 m * 2 ^ (52 - Z.log2 m) = 4503599627370496) as Hp1.
  { rewrite <- Z.pow_add_r by lia. by replace (Z.log2 m + (52 - Z.log2 m)) with 52 by lia. }
  assert (2 ^ Z.succ (Z.log2 m) * 2 ^ (52 - Z.log2 m) = 9007199254740992) as Hp2.
  { rewrite <- Z.pow_add_r by lia.
    by replace (Z.succ (Z.log2 m) + (52 - Z.log2 m)) with 53 by lia. }
  nia.
Qed.

Lemma widened_range e m :
  0 ≤ e < 256 → 0 ≤ m < 8388608 →
  0 ≤ (widened e m).1 < 2048 ∧ 0 ≤ (widened e m).2 < 4503599627370496.
Proof.
  intros He Hm. unfold widened.
  destruct (Z.eqb_spec e 255); [|destruct (Z.eqb_spec e 0)]; cbn [fst snd].
  - split; [lia|]. destruct (Z.eqb_spec m 0); [lia|].
    unfold set_quiet. change (quiet_bit binary64) with 2251799813685248.
    change (2 ^ 29) with 536870912. case_match; lia.
  - destruct (Z.eqb_spec m 0); cbn [fst snd]; [lia|].
    destruct (subnormal_scaled m) as [? ?]; [lia|].
    change (2 ^ 52) with 4503599627370496. lia.
  - change (2 ^ 29) with 536870912. lia.
Qed.

Lemma cast_widen s e m :
  0 ≤ s < 2 → 0 ≤ e < 256 → 0 ≤ m < 8388608 →
  cast binary32 binary64 (enc32 s e m)
  = enc64 s (widened e m).1 (widened e m).2.
Proof.
  intros Hs He Hm. unfold cast, significand, exponent.
  destruct (fields32 s e m) as (-> & -> & ->); [lia..|].
  unfold encode.
  assert (∀ a b c d : Z, b = c + d → a + b = a + c + d) as Hassoc by lia.
  apply Hassoc. clear Hassoc.
  change (2 ^ mw binary64) with 4503599627370496.
  unfold widened. change (emax_field binary32) with 255.
  destruct (Z.eqb_spec e 255) as [->|Hfin]; cbn [fst snd].
  { unfold move_payload. cbn [mw binary32 binary64 Z.leb Z.compare Pos.compare
      Pos.compare_cont Z.sub Z.opp Z.add Z.pos_sub Pos.pred_double].
    change (inf_mag binary64) with (2047 * 4503599627370496).
    change (2 ^ (52 - 23)) with (2 ^ 29).
    destruct (Z.eqb_spec m 0); lia. }
  change (emin binary32) with (-149).
  change (2 ^ mw binary32) with 8388608.
  destruct (Z.eqb_spec e 0) as [->|Hnz].
  - destruct (Z.eqb_spec m 0) as [->|Hm0]; [done|].
    destruct (subnormal_scaled m) as [Hk Hscaled]; [lia|].
    rewrite round_mag_shift_left;
      change (emin binary64) with (-1074); change (mw binary64) with 52;
      [|lia..].
    change (inf_mag binary64) with 9218868437227405312.
    change (2 ^ 52) with 4503599627370496 in *. cbn [fst snd]. lia.
  - rewrite round_mag_shift_left;
      rewrite ?log2_significand32 by lia;
      change (emin binary64) with (-1074); change (mw binary64) with 52;
      [|lia..].
    change (inf_mag binary64) with 9218868437227405312.
    change (2 ^ (52 - 23)) with 536870912. change (2 ^ 29) with 536870912.
    cbn [fst snd]. lia.
Qed.

Lemma cast_narrow_widened s e m :
  0 ≤ s < 2 → 0 ≤ e < 256 → 0 ≤ m < 8388608 →
  cast binary64 binary32 (enc64 s (widened e m).1 (widened e m).2)
  = enc32 s e (if (e =? 255) && negb (m =? 0) then set_quiet binary32 m else m).
Proof.
  intros Hs He Hm. unfold cast, significand, exponent.
  destruct (widened_range e m) as [He' Hm']; [lia..|].
  destruct (fields64 s (widened e m).1 (widened e m).2) as (-> & -> & ->);
    [lia..|].
  unfold encode.
  assert (∀ a b c d : Z, b = c + d → a + b = a + c + d) as Hassoc by lia.
  apply Hassoc. clear Hassoc He' Hm'.
  change (2 ^ mw binary32) with 8388608.
  change (2 ^ mw binary64) with 4503599627370496.
  change (emax_field binary64) with 2047. change (emin binary64) with (-1074).
  unfold widened.
  destruct (Z.eqb_spec e 255) as [->|Hfin]; cbn [fst snd andb].
  { cbn [Z.eqb]. unfold move_payload.
    cbn [mw binary32 binary64 Z.leb Z.compare Pos.compare Pos.compare_cont
         Z.sub Z.opp Z.add Z.pos_sub Pos.pred_double].
    change (inf_mag binary32) with (255 * 8388608).
    destruct (Z.eqb_spec m 0) as [->|Hm0]; cbn [negb]; [done|].
    unfold set_quiet. change (quiet_bit binary64) with 2251799813685248.
    change (quiet_bit binary32) with 4194304.
    change (2 ^ 29) with 536870912.
    destruct (Z.leb_spec 2251799813685248 (m * 536870912)) as [Hq|Hq].
    - destruct (Z.eqb_spec (m * 536870912) 0); [lia|].
      rewrite Z.div_mul by lia.
      destruct (Z.leb_spec 4194304 m); [|lia].
      by destruct (Z.leb_spec 4194304 m); [|lia].
    - destruct (Z.eqb_spec (2251799813685248 + m * 536870912) 0); [lia|].
      replace (2251799813685248 + m * 536870912)
        with ((4194304 + m) * 536870912) by lia.
      rewrite Z.div_mul by lia.
      destruct (Z.leb_spec 4194304 (4194304 + m)); [|lia].
      by destruct (Z.leb_spec 4194304 m); [lia|]. }
  destruct (Z.eqb_spec e 0) as [->|Hnz].
  - destruct (Z.eqb_spec m 0) as [->|Hm0]; cbn [fst snd]; [done|].
    destruct (subnormal_scaled m) as [Hk Hscaled]; [lia|].
    change (2 ^ 52) with 4503599627370496 in *.
    destruct (Z.eqb_spec (Z.log2 m + 874) 2047); [lia|].
    destruct (Z.eqb_spec (Z.log2 m + 874) 0); [lia|].
    replace (4503599627370496 + (m * 2 ^ (52 - Z.log2 m) - 4503599627370496))
      with (m * 2 ^ (52 - Z.log2 m)) by lia.
    rewrite round_mag_shift_right;
      change (emin binary32) with (-149); change (mw binary32) with 23;
      [|lia..].
    change (inf_mag binary32) with 2139095040. lia.
  - cbn [fst snd].
    destruct (Z.eqb_spec (e + 896) 2047); [lia|].
    destruct (Z.eqb_spec (e + 896) 0); [lia|].
    change (2 ^ 29) with 536870912.
    replace (4503599627370496 + m * 536870912)
      with ((8388608 + m) * 2 ^ 29) by (change (2 ^ 29) with 536870912; lia).
    rewrite round_mag_shift_right;
      rewrite ?log2_significand32 by lia;
      change (emin binary32) with (-149); change (mw binary32) with 23;
      [|lia..].
    change (inf_mag binary32) with 2139095040. lia.
Qed.

(** Float to double and back: the pattern is kept, a signalling NaN is
    made quiet. *)
Lemma cast_round_trip b :
  0 ≤ b < 4294967296 →
  cast binary64 binary32 (cast binary32 binary64 b) = quieted binary32 b.
Proof.
  intros (s & e & m & -> & Hs & He & Hm)%decompose32.
  rewrite cast_widen, cast_narrow_widened by lia.
  unfold quieted, is_snan, is_nan.
  destruct (fields32 s e m) as (_ & -> & ->); [lia..|].
  change (emax_field binary32) with 255. unfold set_quiet.
  change (quiet_bit binary32) with 4194304.
  destruct (Z.eqb_spec e 255); cbn [andb]; [|done].
  destruct (Z.eqb_spec m 0); cbn [negb andb]; [done|].
  destruct (Z.leb_spec 4194304 m), (Z.ltb_spec m 4194304);
    cbn [andb]; try lia; try done.
  unfold encode. lia.
Qed.

End Conversions.

(** ** [PyFloat_Unpack4] and [PyFloat_Pack4] *)

Section FloatCodec.

Context {platform : Platform}.

Section Pack4.
Import Ieee Struct.

Lemma pack4_widened s e m :
  0 ≤ s < 2 → 0 ≤ e < 256 → 0 ≤ m < 8388608 →
  PyFloat_Pack4 (encode binary64 s (widened e m).1 (widened e m).2)
  = Ok (encode binary32 s e
          (if (e =? 255) && negb (m =? 0) then set_quiet binary32 m else m)).
Proof.
  intros Hs He Hm. unfold PyFloat_Pack4.
  rewrite cast_narrow_widened by lia.
  destruct (widened_range e m) as [He' Hm']; [lia..|].
  unfold is_inf, is_snan, is_nan.
  destruct (fields64 s (widened e m).1 (widened e m).2) as (_ & -> & ->);
    [lia..|].
  assert (0 ≤ (if (e =? 255) && negb (m =? 0) then set_quiet binary32 m else m)
          < 8388608) as Hq.
  { unfold set_quiet. change (quiet_bit binary32) with 4194304.
    repeat case_match; lia. }
  destruct (fields32 s e _ ltac:(lia) He Hq) as (_ & -> & ->).
  change (emax_field binary32) with 255. change (emax_field binary64) with 2047.
  change (quiet_bit binary64) with 2251799813685248.
  clear He' Hm' Hq. unfold widened, set_quiet.
  change (quiet_bit binary64) with 2251799813685248.
  change (quiet_bit binary32) with 4194304. change (2 ^ 29) with 536870912.
  destruct (Z.eqb_spec e 255) as [->|Hfin]; cbn [fst snd andb negb Z.eqb].
  - destruct (Z.eqb_spec m 0) as [->|Hm0]; cbn [negb Z.eqb andb];
      [by rewrite !andb_false_r|].
    destruct (Z.leb_spec 2251799813685248 (m * 536870912));
      destruct (Z.leb_spec 4194304 m); try lia.
    + destruct (Z.eqb_spec m 0); [lia|].
      destruct (Z.eqb_spec (m * 536870912) 0); [lia|]. cbn [negb andb].
      destruct (Z.ltb_spec (m * 536870912) 2251799813685248); [lia|].
      by rewrite andb_false_r.
    + destruct (Z.eqb_spec (4194304 + m) 0); [lia|].
      destruct (Z.eqb_spec (2251799813685248 + m * 536870912) 0); [lia|].
      cbn [negb andb].
      destruct (Z.ltb_spec (2251799813685248 + m * 536870912)
                  2251799813685248); [lia|].
      by rewrite andb_false_r.
  - destruct (Z.eqb_spec e 0) as [->|Hnz].
    + destruct (Z.eqb_spec m 0) as [->|Hm0]; cbn [fst snd];
        [by rewrite !andb_false_r|].
      destruct (subnormal_scaled m) as [Hk _]; [lia|].
      destruct (Z.eqb_spec (Z.log2 m + 874) 2047); [lia|].
      by rewrite !andb_false_r.
    + cbn [fst snd]. destruct (Z.eqb_spec (e + 896) 2047); [lia|].
      by rewrite !andb_false_r.
Qed.

(** Packing the double of a float32 gives the float32 back, quiet. *)
Lemma pack4_cast b :
  0 ≤ b < 4294967296 →
  PyFloat_Pack4 (cast binary32 binary64 b) = Ok (quieted binary32 b).
Proof.
  intros Hb. rewrite <- (cast_round_trip b Hb).
  destruct (decompose32 b Hb) as (s & e & m & -> & Hs & He & Hm).
  rewrite cast_widen, pack4_widened, cast_narrow_widened by lia. done.
Qed.

(** A signalling NaN unpacked where [struct] keeps it: the payload moved up,
    the quiet bit clear. *)
Lemma unpack4_snan s m :
  struct_keeps_snan = true →
  0 ≤ s < 2 → 0 < m < 4194304 →
  PyFloat_Unpack4 (encode binary32 s 255 m)
  = encode binary64 s 2047 (m * 536870912).
Proof.
  intros Hkeeps Hs Hm. unfold PyFloat_Unpack4. rewrite Hkeeps. cbn [andb].
  rewrite cast_widen by lia.
  unfold is_snan, is_nan.
  destruct (fields32 s 255 m) as (_ & -> & ->); [lia..|].
  change (emax_field binary32) with 255. change (quiet_bit binary32) with 4194304.
  cbn [Z.eqb Pos.eqb andb]. destruct (Z.eqb_spec m 0); [lia|].
  destruct (Z.ltb_spec m 4194304); [|lia]. cbn [negb andb].
  unfold widened. cbn [Z.eqb Pos.eqb fst snd].
  destruct (Z.eqb_spec m 0); [lia|]. unfold set_quiet.
  change (quiet_bit binary64) with 2251799813685248.
  change (2 ^ 29) with 536870912.
  destruct (Z.leb_spec 2251799813685248 (m * 536870912)); [lia|].
  unfold encode. lia.
Qed.

Lemma pack4_snan s m :
  struct_keeps_snan = true →
  0 ≤ s < 2 → 0 < m < 4194304 →
  PyFloat_Pack4 (encode binary64 s 2047 (m * 536870912))
  = Ok (encode binary32 s 255 m).
Proof.
  intros Hkeeps Hs Hm. unfold PyFloat_Pack4. rewrite Hkeeps. cbn [andb].
  unfold cast, is_inf, is_snan, is_nan.
  destruct (fields64 s 2047 (m * 536870912)) as (-> & -> & ->); [lia..|].
  change (emax_field binary64) with 2047. cbn [Z.eqb Pos.eqb andb].
  destruct (Z.eqb_spec (m * 536870912) 0); [lia|]. cbn [negb andb].
  unfold move_payload.
  cbn [mw binary32 binary64 Z.leb Z.compare Pos.compare Pos.compare_cont
       Z.sub Z.opp Z.add Z.pos_sub Pos.pred_double].
  change (2 ^ 29) with 536870912. rewrite Z.div_mul by lia.
  unfold set_quiet. change (quiet_bit binary32) with 4194304.
  change (quiet_bit binary64) with 2251799813685248.
  destruct (Z.leb_spec 4194304 m); [lia|].
  change (inf_mag binary32) with (255 * 2 ^ mw binary32).
  replace (s * sign_weight binary32 + (255 * 2 ^ mw binary32 + (4194304 + m)))
    with (encode binary32 s 255 (4194304 + m)) by (unfold encode; lia).
  destruct (fields32 s 255 (4194304 + m)) as (_ & -> & ->); [lia..|].
  change (emax_field binary32) with 255. cbn [Z.eqb Pos.eqb andb].
  destruct (Z.eqb_spec (4194304 + m) 0); [lia|]. cbn [andb].
  destruct (Z.ltb_spec (m * 536870912) 2251799813685248); [|lia]. cbn [andb].
  replace ((4194304 + m) mod 4194304) with m
    by (apply (Z.mod_unique_pos _ _ 1); lia).
  destruct (Z.eqb_spec m 0); [lia|]. cbn [negb]. unfold encode. f_equal. lia.
Qed.

(** The scalar codec for [f]: unpacking a float32 pattern and packing the
    double again gives the pattern where [struct] keeps signalling NaNs, and
    the pattern with a signalling NaN made quiet where it does not. *)
Lemma pack4_unpack4 b :
  0 ≤ b < 4294967296 →
  PyFloat_Pack4 (PyFloat_Unpack4 b)
  = Ok (if struct_keeps_snan then b else quieted binary32 b).
Proof.
  intros Hb. destruct struct_keeps_snan eqn:Hkeeps;
    [|by unfold PyFloat_Unpack4; rewrite Hkeeps; cbn [andb]; apply pack4_cast].
  destruct (is_snan binary32 b) eqn:Hsnan.
  - destruct (decompose32 b Hb) as (s & e & m & -> & Hs & He & Hm).
    unfold is_snan, is_nan in Hsnan.
    destruct (fields32 s e m) as (_ & Hfe & Hfm); [lia..|].
    rewrite Hfe, Hfm in Hsnan. change (emax_field binary32) with 255 in Hsnan.
    change (quiet_bit binary32) with 4194304 in Hsnan.
    destruct (Z.eqb_spec e 255) as [->|]; [|done].
    destruct (Z.eqb_spec m 0); [done|].
    destruct (Z.ltb_spec m 4194304); [|done].
    rewrite unpack4_snan, pack4_snan by (done || lia). done.
  - unfold PyFloat_Unpack4. rewrite Hsnan, andb_false_r, pack4_cast by done.
    unfold quieted. by rewrite Hsnan.
Qed.

End Pack4.

End FloatCodec.

(** ** Bytes and integers *)

Lemma byte_val_range b : 0 ≤ byte_val b < 256.
Proof. unfold byte_val. pose proof (Byte.to_N_bounded b). lia. Qed.

Lemma byte_of_Z_val b : byte_of_Z (byte_val b) = b.
Proof. unfold byte_of_Z, byte_val. by rewrite N2Z.id, Byte.of_to_N. Qed.

Lemma le_to_Z_range bs : 0 ≤ le_to_Z bs < 2 ^ (8 * Z.of_nat (length bs)).
Proof.
  induction bs as [|b bs IH]; cbn [le_to_Z length]; [cbn; lia|].
  pose proof (byte_val_range b).
  replace (8 * Z.of_nat (S (length bs))) with (8 + 8 * Z.of_nat (length bs)) by lia.
  rewrite Z.pow_add_r by lia. change (2 ^ 8) with 256. lia.
Qed.

Lemma Z_to_le_le_to_Z bs : Z_to_le (length bs) (le_to_Z bs) = bs.
Proof.
  induction bs as [|b bs IH]; cbn [le_to_Z length Z_to_le]; [done|].
  pose proof (byte_val_range b).
  replace ((byte_val b + 256 * le_to_Z bs) mod 256) with (byte_val b)
    by (apply (Z.mod_unique_pos _ _ (le_to_Z bs)); lia).
  replace ((byte_val b + 256 * le_to_Z bs) / 256) with (le_to_Z bs)
    by (apply (Z.div_unique_pos _ _ _ (byte_val b)); lia).
  by rewrite byte_of_Z_val, IH.
Qed.

Lemma Z_to_le_length w z : length (Z_to_le w z) = w.
Proof. revert z. induction w as [|w IH]; intros z; cbn; [done|]. by rewrite IH. Qed.

Lemma bytes_to_Z_range le bs : 0 ≤ bytes_to_Z le bs < 2 ^ (8 * Z.of_nat (length bs)).
Proof.
  unfold bytes_to_Z. destruct le; [apply le_to_Z_range|].
  rewrite <- (length_rev bs). apply le_to_Z_range.
Qed.

Lemma Z_to_bytes_bytes_to_Z le bs :
  Z_to_bytes le (length bs) (bytes_to_Z le bs) = bs.
Proof.
  unfold Z_to_bytes, bytes_to_Z. destruct le; [apply Z_to_le_le_to_Z|].
  rewrite <- (length_rev bs), Z_to_le_le_to_Z. apply rev_involutive.
Qed.

Lemma Z_to_bytes_length le w z : length (Z_to_bytes le w z) = w.
Proof.
  unfold Z_to_bytes. destruct le; [|rewrite length_rev]; apply Z_to_le_length.
Qed.

(** ** Claim about the scalar codec *)

Section ScalarCodec.

Context {platform : Platform}.

Lemma codec_symmetry (c : Struct.code) (le : bool) (bs : list byte) :
  length bs = Struct.width c →
  Struct.pack_one le c (Struct.unpack_one le c bs)
  = Ok match c with
       | Struct.Cf =>
           if struct_keeps_snan then bs
           else Z_to_bytes le 4 (quieted Ieee.binary32 (bytes_to_Z le bs))
       | _ => bs
       end.
Proof.
  intros Hlen. pose proof (bytes_to_Z_range le bs) as Hu.
  pose proof (Z_to_bytes_bytes_to_Z le bs) as Hback. rewrite Hlen in Hu, Hback.
  assert (∀ u, 0 ≤ u < Struct.modulus c →
            (u - Struct.modulus c) mod Struct.modulus c = u) as Hwrap.
  { intros u Hrange. symmetry. apply (Z.mod_unique_pos _ _ (-1)); lia. }
  unfold Struct.modulus in Hwrap.
  destruct c; unfold Struct.unpack_one, Struct.pack_one, Struct.modulus;
    cbn [Struct.width Struct.is_signed andb Struct.py_float] in *;
    try (change (2 ^ (8 * Z.of_nat 1)) with 256 in *);
    try (change (2 ^ (8 * Z.of_nat 2)) with 65536 in *);
    try (change (2 ^ (8 * Z.of_nat 4)) with 4294967296 in *);
    try (change (2 ^ (8 * Z.of_nat 8)) with 18446744073709551616 in *).
  all: set (u := bytes_to_Z le bs) in *.
  all: change (256 / 2) with 128; change (65536 / 2) with 32768;
       change (4294967296 / 2) with 2147483648.
  7: by rewrite pack4_unpack4 by done; cbn [bind];
       destruct struct_keeps_snan; rewrite ?Hback.
  7: by rewrite Hback.
  all: repeat match goal with
       | |- context [Z.leb ?a ?b] => destruct (Z.leb_spec a b); cbv beta iota
       | |- context [Z.ltb ?a ?b] => destruct (Z.ltb_spec a b); cbv beta iota
       end; cbn [andb]; try lia;
       rewrite ?Hwrap, ?Z.mod_small by lia; by rewrite Hback.
Qed.

(** C9.  The scalar codec.  Every scalar type name of the registry has a
    struct code.  For either byte order, unpacking a byte pattern of the
    type's width and packing the value again with the same code and byte
    order gives the bytes back -- for every pattern where [struct] keeps
    signalling NaNs, and elsewhere for every pattern but a float that is a
    signalling NaN, which comes back with its quiet bit set. *)
Theorem scalar_codec_symmetry (t : string) :
  is_Some (_PLY_TYPE_TO_STRUCT !! t) →
  ∃ c, type_code t = Ok c
       ∧ ∀ (le : bool) (bs : list byte),
           length bs = Struct.width c →
           (struct_keeps_snan = true ∨ c ≠ Struct.Cf
            ∨ Ieee.is_snan Ieee.binary32 (bytes_to_Z le bs) = false →
            Struct.pack_one le c (Struct.unpack_one le c bs) = Ok bs)
           ∧ (struct_keeps_snan = false → c = Struct.Cf →
              Ieee.is_snan Ieee.binary32 (bytes_to_Z le bs) = true →
              Struct.pack_one le c (Struct.unpack_one le c bs)
              = Ok (Z_to_bytes le 4
                      (bytes_to_Z le bs + Ieee.quiet_bit Ieee.binary32))).
Proof.
  intros [s Hs]. unfold type_code.
  destruct (registry_cases t) as [Hnone|(a & c & -> & ->)]; [congruence|].
  exists c. split; [done|]. intros le bs Hlen.
  rewrite (codec_symmetry c le bs Hlen).
  pose proof (Z_to_bytes_bytes_to_Z le bs) as Hback. rewrite Hlen in Hback.
  split.
  - intros Hcase. f_equal. destruct c; try done.
    destruct struct_keeps_snan; [done|]. unfold quieted.
    destruct Hcase as [?|[?| ->]]; done.
  - intros -> -> Hsnan. unfold quieted. by rewrite Hsnan.
Qed.

End ScalarCodec.

Section ScalarCodecExamples.

#[local] Existing Instance reference.

Lemma scalar_codec_symmetry_witness :
  Struct.pack_one false Struct.Cf
    (Struct.unpack_one false Struct.Cf [x3f; x80; x00; x00])
  = Ok [x3f; x80; x00; x00].
Proof.
  destruct (scalar_codec_symmetry "float32") as (c & Hc & Hsym).
  - exists "f". vm_compute. reflexivity.
  - vm_compute in Hc. injection Hc as <-.
    apply (Hsym false [x3f; x80; x00; x00]); [reflexivity|].
    right. right. vm_compute. reflexivity.
Defined.

(** C9, the claim as stated, fails on an interpreter before CPython 3.14:
    the big-endian float [7f800001], a signalling NaN, is unpacked to a
    quiet NaN and packed as [7fc00001]. *)
Lemma signalling_nan_is_packed_quiet :
  Struct.pack_one false Struct.Cf
    (Struct.unpack_one false Struct.Cf [x7f; x80; x00; x01])
  = Ok [x7f; xc0; x00; x01].
Proof. vm_compute. reflexivity. Qed.

(** With CPython 3.14 the same bytes come back. *)
Example signalling_nan_is_kept :
  @Struct.pack_one cpython_3_14 false Struct.Cf
    (@Struct.unpack_one cpython_3_14 false Struct.Cf [x7f; x80; x00; x01])
  = Ok [x7f; x80; x00; x01].
Proof. vm_compute. reflexivity. Qed.

End ScalarCodecExamples.

(** ** Text: [split], [strip] and the codec on tokens and lines *)

Lemma app_cons a s t : String a s +:+ t = String a (s +:+ t).
Proof. reflexivity. Qed.

Lemma app_nil_l t : EmptyString +:+ t = t.
Proof. reflexivity. Qed.

Lemma append_assoc s1 s2 s3 : (s1 +:+ s2) +:+ s3 = s1 +:+ (s2 +:+ s3).
Proof.
  induction s1 as [|a s1 IH]; [done|]. by rewrite !app_cons, IH.
Qed.

Lemma all_chars_app p s1 s2 :
  all_chars p (s1 +:+ s2) = all_chars p s1 && all_chars p s2.
Proof.
  induction s1 as [|a s1 IH]; [done|].
  rewrite app_cons. cbn [all_chars]. by rewrite IH, andb_assoc.
Qed.

Lemma all_chars_impl (p q : ascii → bool) s :
  (∀ a, p a = true → q a = true) → all_chars p s = true → all_chars q s = true.
Proof.
  intros Hpq. induction s as [|a s IH]; cbn; [done|].
  intros [Ha Hs]%andb_prop. by rewrite (Hpq a Ha), IH.
Qed.

Lemma is_crlf_space a : is_crlf a = true → is_space a = true.
Proof.
  unfold is_crlf. intros [H|H]%orb_prop; apply Ascii.eqb_eq in H; by subst.
Qed.

Lemma is_token_inv t :
  is_token t = true →
  ∃ a r, t = String a r ∧ is_space a = false
         ∧ all_chars (λ a, negb (is_space a)) r = true.
Proof.
  destruct t as [|a r]; [done|]. cbn. intros [Ha Hr]%andb_prop.
  exists a, r. by apply negb_true_iff in Ha.
Qed.

Lemma split_cons a r :
  split (String a r)
  = if is_space a then split r
    else match r with
         | EmptyString => [String a EmptyString]
         | String b _ =>
             if is_space b then String a EmptyString :: split r
             else match split r with
                  | t :: ts => String a t :: ts
                  | [] => [String a EmptyString]
                  end
         end.
Proof. reflexivity. Qed.

Lemma split_word t sep r :
  is_token t = true → is_space sep = true →
  split (t +:+ String sep r) = t :: split r.
Proof.
  intros (a & t' & -> & Ha & Ht')%is_token_inv Hsep. revert a Ha.
  induction t' as [|b t' IH]; intros a Ha.
  - rewrite app_cons, app_nil_l, split_cons, Ha, Hsep.
    by rewrite (split_cons sep), Hsep.
  - cbn in Ht'. apply andb_prop in Ht' as [Hb Ht'].
    apply negb_true_iff in Hb.
    rewrite app_cons, split_cons, Ha, app_cons, Hb, <- app_cons.
    by rewrite (IH Ht' b Hb).
Qed.

Lemma split_last t : is_token t = true → split t = [t].
Proof.
  intros (a & t' & -> & Ha & Ht')%is_token_inv. revert a Ha.
  induction t' as [|b t' IH]; intros a Ha.
  - by rewrite split_cons, Ha.
  - cbn in Ht'. apply andb_prop in Ht' as [Hb Ht'].
    apply negb_true_iff in Hb. rewrite split_cons, Ha, Hb.
    by rewrite (IH Ht' b Hb).
Qed.

Lemma rstrip_clean p t :
  all_chars (λ a, negb (p a)) t = true → rstrip p t = t.
Proof.
  induction t as [|a t IH]; cbn; [done|]. intros [Ha Ht]%andb_prop.
  apply negb_true_iff in Ha. rewrite (IH Ht), Ha. by destruct t.
Qed.

Lemma rstrip_app_clean p s t :
  t ≠ EmptyString → all_chars (λ a, negb (p a)) t = true →
  rstrip p (s +:+ t) = s +:+ t.
Proof.
  intros Hne Ht. induction s as [|a s IH].
  - by apply rstrip_clean.
  - rewrite app_cons. cbn [rstrip]. rewrite IH. destruct (s +:+ t) eqn:E; [|done].
    destruct s; [done|discriminate].
Qed.

Lemma rstrip_newline p s c :
  p c = true → rstrip p (s +:+ String c EmptyString) = rstrip p s.
Proof.
  intros Hc. induction s as [|a s IH].
  - rewrite app_nil_l. cbn [rstrip]. by rewrite Hc.
  - rewrite app_cons. cbn [rstrip]. by rewrite IH.
Qed.

(** A line that ends with a token is what [rstrip] and [strip] leave of the
    line followed by its newline. *)
Lemma line_rstrip s t :
  is_token t = true →
  rstrip is_crlf ((s +:+ t) +:+ String "010" EmptyString) = s +:+ t
  ∧ rstrip is_space (s +:+ t) = s +:+ t.
Proof.
  intros Ht. assert (t ≠ EmptyString) by (by destruct t).
  assert (all_chars (λ a, negb (is_space a)) t = true) as Hsp by (by destruct t).
  split.
  - rewrite rstrip_newline by done. apply rstrip_app_clean; [done|].
    revert Hsp. apply all_chars_impl. intros a Ha.
    destruct (is_crlf a) eqn:E; [|done].
    by rewrite (is_crlf_space a E) in Ha.
  - by apply rstrip_app_clean.
Qed.

(** ** Text: ASCII encoding *)

Lemma byte_of_ascii_val a : byte_val (byte_of_ascii a) = Z.of_nat (nat_of_ascii a).
Proof.
  unfold byte_val. rewrite Byte.to_N_via_nat, nat_N_Z. f_equal.
  remember (byte_of_ascii a) as b eqn:Hb.
  assert (a = ascii_of_nat (Byte.to_nat b)) as ->
    by (by rewrite <- ascii_of_byte_via_nat, Hb, ascii_of_byte_of_ascii).
  rewrite nat_ascii_embedding; [done|].
  pose proof (Byte.to_N_bounded b). rewrite Byte.to_nat_via_N. lia.
Qed.

Lemma encode_ascii_Ok s bs :
  encode_ascii s = Ok bs → ascii_text s = true ∧ bs = list_byte_of_string s.
Proof.
  revert bs. induction s as [|a s IH]; intros bs; cbn [encode_ascii].
  - by intros [= <-].
  - unfold ascii_text. cbn [all_chars].
    destruct (nat_of_ascii a <? 128)%nat; [|done].
    destruct (encode_ascii s) as [|bs']; [done|]. cbn [bind]. intros [= <-].
    destruct (IH bs' eq_refl) as [Hs ->]. done.
Qed.

Lemma encode_ascii_text s :
  ascii_text s = true → encode_ascii s = Ok (list_byte_of_string s).
Proof.
  unfold ascii_text. induction s as [|a s IH]; cbn [encode_ascii all_chars]; [done|].
  intros [-> Hs]%andb_prop. by rewrite (IH Hs).
Qed.

Lemma decode_ascii_text s :
  ascii_text s = true → decode_ascii (list_byte_of_string s) = Ok s.
Proof.
  unfold ascii_text. induction s as [|a s IH]; [done|].
  cbn [all_chars]. intros [Ha Hs]%andb_prop.
  change (list_byte_of_string (String a s))
    with (byte_of_ascii a :: list_byte_of_string s).
  cbn [decode_ascii]. rewrite byte_of_ascii_val.
  apply Nat.ltb_lt in Ha.
  destruct (Z.ltb_spec (Z.of_nat (nat_of_ascii a)) 128); [|lia].
  by rewrite (IH Hs), ascii_of_byte_of_ascii.
Qed.

Lemma list_byte_of_string_app s1 s2 :
  list_byte_of_string (s1 +:+ s2)
  = list_byte_of_string s1 ++ list_byte_of_string s2.
Proof.
  induction s1 as [|a s1 IH]; [done|].
  change (list_byte_of_string (String a s1 +:+ s2))
    with (byte_of_ascii a :: list_byte_of_string (s1 +:+ s2)).
  by rewrite IH.
Qed.

Lemma list_byte_of_string_length s :
  length (list_byte_of_string s) = String.length s.
Proof.
  induction s as [|a s IH]; [done|].
  change (list_byte_of_string (String a s))
    with (byte_of_ascii a :: list_byte_of_string s).
  cbn. by rewrite IH.
Qed.

(** ** Decimal numerals *)

Section Numerals.

Context {platform : Platform}.

Lemma digits_uint_string d :
  digits_uint true (NilEmpty.string_of_uint d) = Some d.
Proof. induction d; cbn; rewrite ?IHd; done. Qed.

Lemma digits_uint_nonnil d :
  d ≠ Decimal.Nil → digits_uint false (NilEmpty.string_of_uint d) = Some d.
Proof. destruct d; intros Hne; cbn; rewrite ?digits_uint_string; done. Qed.

Lemma string_of_uint_digits d :
  all_chars (λ a, negb (is_space a) && (nat_of_ascii a <? 128)%nat
                  && negb (Ascii.eqb a "-") && negb (Ascii.eqb a "+"))
    (NilEmpty.string_of_uint d) = true.
Proof. induction d; cbn; rewrite ?IHd; done. Qed.

Lemma py_int_digits d :
  d ≠ Decimal.Nil → too_many_digits (Decimal.nb_digits d) = false →
  py_int (NilEmpty.string_of_uint d) = Ok (Z.of_uint d).
Proof.
  intros Hne Hlim. pose proof (digits_uint_nonnil d Hne) as Hu.
  destruct d; [done|..]; cbn [NilEmpty.string_of_uint] in *; unfold py_int;
    cbn [Ascii.eqb Bool.eqb]; rewrite Hu, Hlim; f_equal; lia.
Qed.

Lemma string_of_uint_nonnil d :
  d ≠ Decimal.Nil → NilZero.string_of_uint d = NilEmpty.string_of_uint d.
Proof. by destruct d. Qed.

Lemma py_int_str n : readable n = true → py_int (py_str_int n) = Ok n.
Proof.
  unfold readable, int_digits, py_str_int. intros Hlim%negb_true_iff.
  destruct n as [|p|p]; [done| |];
    cbn [Z.to_int NilZero.string_of_int] in Hlim |- *;
    pose proof (Unsigned.to_uint_nonnil p) as Hnn;
    rewrite string_of_uint_nonnil by done.
  - rewrite py_int_digits by done. unfold Z.of_uint. by rewrite Unsigned.of_to.
  - unfold py_int. cbn [Ascii.eqb Bool.eqb].
    rewrite digits_uint_nonnil, Hlim by done.
    unfold Z.of_uint. by rewrite Unsigned.of_to.
Qed.

Lemma too_many_digits_le a b :
  (b ≤ a)%nat → too_many_digits a = false → too_many_digits b = false.
Proof.
  unfold too_many_digits. intros Hle.
  destruct (Nat.ltb_spec 640 a), (Nat.ltb_spec 640 b),
    (Nat.ltb_spec 0 int_max_str_digits), (Nat.ltb_spec int_max_str_digits a),
    (Nat.ltb_spec int_max_str_digits b); cbn; (done || lia).
Qed.

Lemma few_digits_readable n : (int_digits n ≤ 640)%nat → readable n = true.
Proof.
  intros Hle. unfold readable, too_many_digits.
  by destruct (Nat.ltb_spec 640 (int_digits n)); [lia|].
Qed.

(** A number [int] has returned is one whose numeral it reads: the numeral
    has no more digits than the literal had. *)
Lemma py_int_readable s n : py_int s = Ok n → readable n = true.
Proof.
  assert (∀ sign d, sign = 1 ∨ sign = -1 →
            too_many_digits (Decimal.nb_digits d) = false →
            readable (sign * Z.of_uint d) = true) as Hd.
  { intros sign d Hsign Hlim. unfold readable. apply negb_true_iff.
    unfold Z.of_uint. destruct (Pos.of_uint d) as [|p] eqn:Hp.
    - replace (sign * Z.of_N 0) with 0 by lia. done.
    - assert (d ≠ Decimal.Nil) as Hnil by (by intros ->).
      pose proof (Unsigned.to_of d) as Hto. rewrite Hp in Hto.
      cbn [N.to_uint] in Hto. clear Hp. rename Hto into Hp.
      assert (int_digits (sign * Z.of_N (N.pos p))
              = Decimal.nb_digits (Decimal.unorm d)) as ->.
      { unfold int_digits.
        destruct Hsign as [-> | ->];
          [replace (1 * Z.of_N (N.pos p)) with (Z.pos p) by lia
          |replace (-1 * Z.of_N (N.pos p)) with (Z.neg p) by lia];
          cbn [Z.to_int]; by rewrite Hp. }
      apply (too_many_digits_le (Decimal.nb_digits d)); [|done].
      by apply DecimalFacts.nb_digits_unorm. }
  unfold py_int. destruct s as [|a r]; [done|].
  destruct (Ascii.eqb a "-"); [|destruct (Ascii.eqb a "+")];
    destruct (digits_uint _ _) as [d|]; try done;
    destruct (too_many_digits _) eqn:Hlim; try done;
    intros Heq; apply (inj inr) in Heq; subst n; apply Hd; auto.
Qed.

Lemma py_str_int_token n :
  is_token (py_str_int n) = true ∧ ascii_text (py_str_int n) = true.
Proof.
  assert (∀ d, d ≠ Decimal.Nil →
            is_token (NilEmpty.string_of_uint d) = true
            ∧ ascii_text (NilEmpty.string_of_uint d) = true) as Hd.
  { intros d Hne. pose proof (string_of_uint_digits d) as H. split.
    - destruct d; [done|..]; cbn [NilEmpty.string_of_uint is_token] in *;
        revert H; apply all_chars_impl; intros a; cbv beta;
        intros [[[? ?]%andb_prop ?]%andb_prop ?]%andb_prop; done.
    - revert H. apply all_chars_impl. intros a. cbv beta.
      intros [[[? ?]%andb_prop ?]%andb_prop ?]%andb_prop; done. }
  unfold py_str_int. destruct n as [|p|p]; [done| |];
    cbn [Z.to_int NilZero.string_of_int];
    pose proof (Unsigned.to_uint_nonnil p) as Hnn;
    rewrite string_of_uint_nonnil by done;
    destruct (Hd _ Hnn) as [Ht Ha]; [done|].
  split; [|done]. cbn [is_token]. cbn [all_chars].
  by destruct (NilEmpty.string_of_uint (Pos.to_uint p)).
Qed.

End Numerals.

Section NumeralsExamples.

#[local] Existing Instance reference.

(** The limit of 4300 digits: leading zeros count, underscores and the sign
    do not. *)
Example int_digit_limit :
  py_int (string_of_list_ascii (replicate 4300 "1"%char))
  = Ok (Z.of_uint (Nat.iter 4300 Decimal.D1 Decimal.Nil))
  ∧ py_int (string_of_list_ascii (replicate 4301 "1"%char)) = Err ValueError_int
  ∧ py_int (string_of_list_ascii (replicate 4301 "0"%char)) = Err ValueError_int
  ∧ py_int (String "-" (string_of_list_ascii
                          ("1"%char :: "_"%char :: replicate 4299 "0"%char)))
    = Ok (- 10 ^ 4299).
Proof. vm_compute. repeat split; reflexivity. Qed.

End NumeralsExamples.

(** ** Parsing a header the writer wrote *)

Section WrittenHeader.

Context {platform : Platform}.

Lemma byte_of_ascii_newline a :
  Ascii.eqb a "010" = false → Byte.eqb (byte_of_ascii a) x0a = false.
Proof.
  intros Ha. destruct (Byte.eqb (byte_of_ascii a) x0a) eqn:E; [|done].
  apply Byte.byte_dec_bl in E.
  apply (f_equal ascii_of_byte) in E. rewrite ascii_of_byte_of_ascii in E.
  subst a. done.
Qed.

Lemma readlines_line l rest :
  no_newline l = true →
  readlines (line_bytes l ++ rest) = line_bytes l :: readlines rest.
Proof.
  unfold no_newline, line_bytes. induction l as [|a l IH].
  - done.
  - cbn [all_chars]. intros [Ha Hl]%andb_prop. apply negb_true_iff in Ha.
    rewrite app_cons.
    change (list_byte_of_string (String a (l +:+ String "010" EmptyString)))
      with (byte_of_ascii a
            :: list_byte_of_string (l +:+ String "010" EmptyString)).
    cbn [app readlines]. rewrite (byte_of_ascii_newline a Ha).
    by rewrite (IH Hl).
Qed.

Lemma readlines_lines ls rest :
  forallb no_newline ls = true →
  readlines (concat (line_bytes <$> ls) ++ rest)
  = (line_bytes <$> ls) ++ readlines rest.
Proof.
  induction ls as [|l ls IH]; [done|]. cbn [forallb fmap list_fmap concat].
  intros [Hl Hls]%andb_prop.
  by rewrite <- app_assoc, readlines_line, (IH Hls).
Qed.

Lemma join_lines_bytes ls :
  list_byte_of_string (join_lines ls) = concat (line_bytes <$> ls).
Proof.
  induction ls as [|l ls IH]; [done|].
  cbn [join_lines foldr fmap list_fmap concat]. fold (join_lines ls).
  rewrite <- IH. unfold line_bytes. rewrite <- list_byte_of_string_app.
  by rewrite append_assoc.
Qed.

Lemma join_lines_app ls1 ls2 :
  join_lines (ls1 ++ ls2) = join_lines ls1 +:+ join_lines ls2.
Proof.
  induction ls1 as [|l ls1 IH]; [done|].
  cbn [app join_lines foldr]. fold (join_lines (ls1 ++ ls2)) (join_lines ls1).
  rewrite IH. rewrite !append_assoc. by rewrite app_cons.
Qed.

Lemma token_no_newline t : is_token t = true → no_newline t = true.
Proof.
  intros Ht. assert (all_chars (λ a, negb (is_space a)) t = true) as H
    by (by destruct t).
  revert H. apply all_chars_impl. intros a Ha.
  destruct (Ascii.eqb_spec a "010") as [->|]; done.
Qed.

Lemma registry_token t :
  is_Some (_PLY_TYPE_TO_STRUCT !! t) →
  is_token t = true ∧ ascii_text t = true.
Proof.
  intros [s E]. apply elem_of_list_to_map_2 in E.
  repeat (apply elem_of_cons in E as [E|E]; [by injection E as -> _|]).
  by apply elem_of_nil in E.
Qed.

Lemma type_codes_registry props cs ty name :
  type_codes props = Ok cs → (ty, name) ∈ props →
  is_Some (_PLY_TYPE_TO_STRUCT !! ty).
Proof.
  revert cs. induction props as [|[t p] r IH]; intros cs Hcs Hin.
  - by apply elem_of_nil in Hin.
  - cbn [type_codes] in Hcs. destruct (type_code t) as [|c] eqn:Ht; [done|].
    cbn [bind] in Hcs. destruct (type_codes r) as [|cs'] eqn:Hr; [done|].
    apply elem_of_cons in Hin as [[= -> ->]|Hin]; [|by eapply IH].
    unfold type_code in Ht. by destruct (_PLY_TYPE_TO_STRUCT !! t).
Qed.

(** One property line through the header loop. *)
Lemma header_loop_property ty name rest st :
  ps_in_vertex st = true →
  is_token ty = true → ascii_text ty = true →
  is_token name = true → ascii_text name = true →
  header_loop (line_bytes (property_line (ty, name)) :: rest) st
  = header_loop rest
      (add_property
         (after_line st (line_bytes (property_line (ty, name)))
            (property_line (ty, name))) ty name).
Proof.
  intros Hin Hty Haty Hname Haname.
  unfold property_line. cbn [fst snd]. cbn [header_loop].
  set (l := "property " +:+ ty +:+ " " +:+ name).
  assert (l = ("property " +:+ ty +:+ " ") +:+ name) as Hl
    by (unfold l; by rewrite !append_assoc).
  assert (ascii_text (l +:+ String "010" EmptyString) = true) as Hascii.
  { unfold l, ascii_text in *. rewrite !all_chars_app, Haty, Haname. done. }
  unfold line_bytes at 1. rewrite (decode_ascii_text _ Hascii). cbn [bind].
  destruct (line_rstrip ("property " +:+ ty +:+ " ") name Hname) as [Hr1 Hr2].
  rewrite <- Hl in Hr1, Hr2. rewrite Hr1.
  assert (strip l = l) as ->.
  { unfold strip. replace (lstrip is_space l) with l; [done|].
    unfold l. by rewrite app_cons. }
  assert (String.eqb l "end_header" = false) as -> by (unfold l; by rewrite app_cons).
  assert (split l = ["property"; ty; name]) as ->.
  { unfold l.
    change (split ("property" +:+ String " " (ty +:+ String " " name))
            = ["property"; ty; name]).
    rewrite (split_word "property" " ") by done.
    by rewrite (split_word ty " "), split_last. }
  cbn [String.eqb Ascii.eqb Bool.eqb]. cbn [after_line ps_in_vertex].
  by rewrite Hin.
Qed.

Lemma header_loop_properties schema cs rest st :
  ps_in_vertex st = true →
  type_codes schema = Ok cs →
  names_are_tokens schema = true →
  ascii_text (join_lines (property_line <$> schema)) = true →
  header_loop ((line_bytes <$> (property_line <$> schema)) ++ rest) st
  = header_loop rest (after_properties st schema).
Proof.
  revert cs st. induction schema as [|[ty name] r IH]; intros cs st Hin Hcs Htok Hascii.
  - unfold after_properties. cbn [fmap list_fmap concat app length].
    rewrite Z.add_0_r, !app_nil_r. by destruct st.
  - assert (is_Some (_PLY_TYPE_TO_STRUCT !! ty)) as Hreg
      by (eapply type_codes_registry; [done|apply list_elem_of_here]).
    destruct (registry_token ty Hreg) as [Hty Haty].
    cbn [names_are_tokens forallb snd] in Htok.
    apply andb_prop in Htok as [Hname Htok].
    cbn [fmap list_fmap join_lines foldr] in Hascii.
    fold (join_lines (property_line <$> r)) in Hascii.
    unfold ascii_text in Hascii. rewrite all_chars_app in Hascii.
    apply andb_prop in Hascii as [Hline Hascii].
    cbn [all_chars] in Hascii. apply andb_prop in Hascii as [_ Hascii].
    assert (ascii_text name = true) as Haname.
    { unfold property_line in Hline. cbn [fst snd] in Hline.
      rewrite !all_chars_app in Hline.
      by repeat apply andb_prop in Hline as [_ Hline]. }
    cbn [type_codes] in Hcs. destruct (type_code ty); [done|]. cbn [bind] in Hcs.
    destruct (type_codes r) as [|cs'] eqn:Hr; [done|].
    cbn [fmap list_fmap app].
    rewrite header_loop_property by done.
    rewrite (IH cs') by done.
    f_equal. unfold after_properties.
    cbn [add_property after_line ps_pos ps_count ps_props ps_in_vertex ps_lines
         fmap list_fmap concat].
    rewrite length_app, <- !app_assoc. f_equal. lia.
Qed.

End WrittenHeader.

Section WrittenHeaderParse.

Context {platform : Platform}.

Lemma header_text_lines n schema :
  header_text n schema = join_lines (written_lines n schema).
Proof. reflexivity. Qed.

Lemma parse_little_endian_prefix file ls :
  readlines file
  = line_bytes "ply" :: line_bytes "format binary_little_endian 1.0" :: ls →
  parse_ply_header file
  = (st <-! header_loop ls
              {| ps_pos := 36; ps_count := None; ps_props := [];
                 ps_in_vertex := false;
                 ps_lines := ["ply"; "format binary_little_endian 1.0"] |};
     match ps_count st with
     | None => Err ValueError_no_vertex
     | Some n =>
         Ok {| format := "binary_little_endian"; version := "1.0";
               vertex_count := n; vertex_properties := ps_props st;
               header_lines := ps_lines st; data_start_offset := ps_pos st |}
     end).
Proof. intros H. unfold parse_ply_header. rewrite H. reflexivity. Qed.

Lemma header_loop_element_vertex n rest st :
  readable n = true →
  header_loop (line_bytes ("element vertex " +:+ py_str_int n) :: rest) st
  = header_loop rest
      (enter_element
         (after_line st (line_bytes ("element vertex " +:+ py_str_int n))
            ("element vertex " +:+ py_str_int n)) "vertex" n).
Proof.
  intros Hread. destruct (py_str_int_token n) as [Htok Hasc].
  cbn [header_loop]. set (l := "element vertex " +:+ py_str_int n).
  assert (ascii_text (l +:+ String "010" EmptyString) = true) as Hascii.
  { unfold l, ascii_text in *. by rewrite !all_chars_app, Hasc. }
  unfold line_bytes at 1. rewrite (decode_ascii_text _ Hascii). cbn [bind].
  destruct (line_rstrip "element vertex " (py_str_int n) Htok) as [Hr1 Hr2].
  fold l in Hr1, Hr2. rewrite Hr1.
  assert (strip l = l) as ->.
  { unfold strip. replace (lstrip is_space l) with l; [done|].
    unfold l. by rewrite app_cons. }
  assert (String.eqb l "end_header" = false) as -> by (unfold l; by rewrite app_cons).
  assert (split l = ["element"; "vertex"; py_str_int n]) as ->.
  { unfold l.
    change (split ("element" +:+ String " " ("vertex" +:+ String " " (py_str_int n)))
            = ["element"; "vertex"; py_str_int n]).
    rewrite (split_word "element" " ") by done.
    by rewrite (split_word "vertex" " "), split_last. }
  cbn [String.eqb Ascii.eqb Bool.eqb]. by rewrite py_int_str.
Qed.

Lemma header_loop_end rest st :
  header_loop (line_bytes "end_header" :: rest) st
  = Ok (after_line st (line_bytes "end_header") "end_header").
Proof. reflexivity. Qed.

Lemma written_lines_no_newline n schema cs :
  type_codes schema = Ok cs → names_are_tokens schema = true →
  forallb no_newline (written_lines n schema) = true.
Proof.
  intros Hcs Htok. unfold written_lines. rewrite !forallb_app.
  apply andb_true_intro. split; [|apply andb_true_intro; split; [|done]].
  - cbn [forallb]. destruct (py_str_int_token n) as [Hn _].
    unfold no_newline at 3. rewrite all_chars_app.
    fold (no_newline (py_str_int n)). by rewrite (token_no_newline _ Hn).
  - revert cs Hcs Htok. induction schema as [|[ty name] r IH]; intros cs Hcs Htok;
      [done|].
    assert (is_Some (_PLY_TYPE_TO_STRUCT !! ty)) as Hreg
      by (eapply type_codes_registry; [done|apply list_elem_of_here]).
    destruct (registry_token ty Hreg) as [Hty _].
    cbn [names_are_tokens forallb snd] in Htok.
    apply andb_prop in Htok as [Hname Htok].
    cbn [type_codes] in Hcs. destruct (type_code ty); [done|]. cbn [bind] in Hcs.
    destruct (type_codes r) as [|cs'] eqn:Hr; [done|].
    cbn [fmap list_fmap forallb]. rewrite (IH cs') by done.
    unfold property_line, no_newline. cbn [fst snd]. rewrite !all_chars_app.
    fold (no_newline ty) (no_newline name).
    by rewrite (token_no_newline _ Hty), (token_no_newline _ Hname).
Qed.

(** A file that starts with the header text the writer builds parses to the
    header the writer was given. *)
Lemma parse_written_header n schema cs body :
  readable n = true →
  type_codes schema = Ok cs →
  names_are_tokens schema = true →
  ascii_text (header_text n schema) = true →
  parse_ply_header (list_byte_of_string (header_text n schema) ++ body)
  = Ok (written_header n schema).
Proof.
  intros Hread Hcs Htok Hascii.
  assert (ascii_text (join_lines (property_line <$> schema)) = true) as Hprops.
  { rewrite header_text_lines in Hascii. unfold written_lines in Hascii.
    rewrite !join_lines_app in Hascii. unfold ascii_text in *.
    rewrite !all_chars_app in Hascii.
    apply andb_prop in Hascii as [_ Hascii].
    by apply andb_prop in Hascii as [Hascii _]. }
  erewrite parse_little_endian_prefix; cycle 1.
  { rewrite header_text_lines, join_lines_bytes, readlines_lines
      by (by eapply written_lines_no_newline).
    unfold written_lines. rewrite !fmap_app. cbn [app fmap list_fmap].
    rewrite <- !app_assoc. reflexivity. }
  rewrite header_loop_element_vertex by done.
  rewrite (header_loop_properties schema cs) by done.
  cbn [app]. rewrite header_loop_end. cbn [bind].
  cbn [after_line after_properties enter_element ps_count ps_props ps_lines
       ps_pos ps_in_vertex String.eqb Ascii.eqb Bool.eqb].
  unfold written_header. do 2 f_equal.
  rewrite <- list_byte_of_string_length, header_text_lines, join_lines_bytes.
  unfold written_lines. rewrite !fmap_app, !concat_app, !length_app.
  cbn [fmap list_fmap concat length app]. rewrite !length_app.
  cbn [length]. change (length (line_bytes "ply")) with 4%nat.
  change (length (line_bytes "format binary_little_endian 1.0")) with 32%nat.
  change (length (line_bytes "end_header")) with 11%nat.
  lia.
Qed.

End WrittenHeaderParse.

(** ** What the parser returns *)

Section ParserAndWriter.

Context {platform : Platform}.

Lemma split_tokens s : Forall (λ t, is_token t = true) (split s).
Proof.
  induction s as [|a r IH]; [constructor|].
  rewrite split_cons. destruct (is_space a) eqn:Ha; [done|].
  assert (is_token (String a EmptyString) = true) as Hone
    by (cbn; by rewrite Ha).
  destruct r as [|b r']; [by repeat constructor|].
  destruct (is_space b) eqn:Hb; [by constructor|].
  destruct (split (String b r')) as [|t ts]; [by repeat constructor|].
  inversion IH as [|? ? Ht Hts]; subst. constructor; [|done].
  destruct t; [done|]. cbn in *. by rewrite Ha.
Qed.

Lemma header_loop_tokens ls st st' :
  header_loop ls st = Ok st' →
  names_are_tokens (ps_props st) = true →
  names_are_tokens (ps_props st') = true.
Proof.
  revert st. induction ls as [|bline rest IH]; intros st; [done|].
  cbn [header_loop]. destruct (decode_ascii bline) as [|s]; [done|]. cbn [bind].
  set (text := strip (rstrip is_crlf s)).
  set (st1 := after_line st bline (rstrip is_crlf s)).
  change (ps_props st) with (ps_props st1).
  destruct (String.eqb text "end_header"); [by intros [= <-]|].
  pose proof (split_tokens text) as Htok.
  destruct (split text) as [|kw parts]; [apply IH|].
  destruct (String.eqb kw "element").
  { destruct parts as [|name [|count [|? ?]]]; try done.
    destruct (py_int count) as [|n]; [done|]. cbn [bind].
    intros H Hst. by apply (IH _ H). }
  destruct (String.eqb kw "property"); [|apply IH].
  destruct (ps_in_vertex st1); [|apply IH].
  destruct parts as [|ty [|name [|m3 [|m4 more]]]]; try done.
  - intros H Hst. apply (IH _ H). cbn [add_property ps_props].
    unfold names_are_tokens in *. rewrite forallb_app, Hst. cbn.
    inversion Htok as [|? ? _ Ht1]; subst. inversion Ht1 as [|? ? _ Ht2]; subst.
    inversion Ht2 as [|? ? Hname _]; subst. by rewrite Hname.
  - by destruct (String.eqb ty "list").
Qed.

Lemma parse_tokens file header :
  parse_ply_header file = Ok header →
  names_are_tokens (vertex_properties header) = true.
Proof.
  unfold parse_ply_header.
  destruct (readlines file) as [|first [|fmt_line ls]]; [done| |].
  { destruct (decode_ascii first); [done|]. cbn [bind]. by destruct (negb _). }
  destruct (decode_ascii first); [done|]. cbn [bind].
  destruct (negb _); [done|].
  destruct (decode_ascii fmt_line); [done|]. cbn [bind].
  destruct (split _) as [|kw [|fmt [|ver [|? ?]]]]; try done.
  destruct (negb _); [done|].
  destruct (header_loop ls _) as [|st] eqn:Hloop; [done|]. cbn [bind].
  destruct (ps_count st); [|done]. intros [= <-]. cbn [vertex_properties].
  by apply (header_loop_tokens _ _ _ Hloop).
Qed.

Lemma header_loop_readable ls st st' :
  header_loop ls st = Ok st' →
  (∀ n, ps_count st = Some n → readable n = true) →
  ∀ n, ps_count st' = Some n → readable n = true.
Proof.
  revert st. induction ls as [|bline rest IH]; intros st; [done|].
  cbn [header_loop]. destruct (decode_ascii bline) as [|s]; [done|]. cbn [bind].
  set (text := strip (rstrip is_crlf s)).
  set (st1 := after_line st bline (rstrip is_crlf s)).
  change (ps_count st) with (ps_count st1).
  destruct (String.eqb text "end_header"); [by intros [= <-]|].
  destruct (split text) as [|kw parts]; [apply IH|].
  destruct (String.eqb kw "element").
  { destruct parts as [|name [|count [|? ?]]]; try done.
    destruct (py_int count) as [|k] eqn:Hk; [done|]. cbn [bind].
    intros H Hst. apply (IH _ H). cbn [enter_element ps_count].
    destruct (String.eqb name "vertex"); [|done].
    intros n [= <-]. by eapply py_int_readable. }
  destruct (String.eqb kw "property"); [|apply IH].
  destruct (ps_in_vertex st1); [|apply IH].
  destruct parts as [|ty [|name [|m3 [|m4 more]]]]; try done.
  - intros H Hst. by apply (IH _ H).
  - by destruct (String.eqb ty "list").
Qed.

(** The vertex count of a parsed header is a number [int] reads back from
    its numeral. *)
Lemma parse_readable file header :
  parse_ply_header file = Ok header → readable (vertex_count header) = true.
Proof.
  unfold parse_ply_header.
  destruct (readlines file) as [|first [|fmt_line ls]]; [done| |].
  { destruct (decode_ascii first); [done|]. cbn [bind]. by destruct (negb _). }
  destruct (decode_ascii first); [done|]. cbn [bind].
  destruct (negb _); [done|].
  destruct (decode_ascii fmt_line); [done|]. cbn [bind].
  destruct (split _) as [|kw [|fmt [|ver [|? ?]]]]; try done.
  destruct (negb _); [done|].
  destruct (header_loop ls _) as [|st] eqn:Hloop; [done|]. cbn [bind].
  destruct (ps_count st) as [n|] eqn:Hn; [|done]. intros [= <-].
  cbn [vertex_count]. by apply (header_loop_readable _ _ _ Hloop).
Qed.

(** ** What the writer writes *)

Lemma write_rows_ok st schema columns k i written out :
  write_rows st schema columns k i written = (Some out, Ok tt) →
  ∃ body, out = written ++ body ∧ rows_packed st schema columns k i body.
Proof.
  revert i written. induction k as [|k IH]; intros i written; cbn [write_rows].
  - intros [= <-]. exists []. by rewrite app_nil_r.
  - destruct (row_values schema columns i) as [|row] eqn:Hrow; [done|].
    cbn [bind]. destruct (Struct.pack st row) as [|bs] eqn:Hbs; [done|].
    intros (body' & -> & Hrows)%IH. exists (bs ++ body').
    split; [by rewrite app_assoc|]. cbn [rows_packed]. by exists row, bs, body'.
Qed.

Lemma writer_ok_inv n schema columns out :
  write_ply_binary_vertex_only n schema columns = (Some out, Ok tt) →
  ∃ cs body,
    type_codes schema = Ok cs
    ∧ check_columns n schema columns = Ok tt
    ∧ ascii_text (header_text n schema) = true
    ∧ out = list_byte_of_string (header_text n schema) ++ body
    ∧ rows_packed (little_struct cs) schema columns (Z.to_nat n) 0 body.
Proof.
  unfold write_ply_binary_vertex_only. rewrite struct_for_vertex_little.
  destruct (type_codes schema) as [|cs]; [done|]. cbn [bind].
  destruct (check_columns n schema columns) as [|[]]; [done|].
  destruct (encode_ascii (header_text n schema)) as [|hb] eqn:Henc; [done|].
  destruct (encode_ascii_Ok _ _ Henc) as [Hascii ->].
  intros (body & -> & Hrows)%write_rows_ok. by exists cs, body.
Qed.

Lemma pack_codes_length le cs row bs :
  Struct.pack_codes le cs row = Ok bs →
  length bs = sum_list (Struct.width <$> cs).
Proof.
  revert row bs. induction cs as [|c cs IH]; intros [|v row] bs;
    cbn [Struct.pack_codes]; try done.
  - by intros [= <-].
  - destruct (Struct.pack_one le c v) as [|b] eqn:Hb; [done|]. cbn [bind].
    destruct (Struct.pack_codes le cs row) as [|r] eqn:Hr; [done|]. cbn [bind].
    intros [= <-]. rewrite length_app, (IH _ _ Hr). cbn. f_equal.
    destruct c; cbn [Struct.pack_one] in Hb;
      repeat match type of Hb with
        | context [Struct.PyFloat_Pack4 ?x] =>
            destruct (Struct.PyFloat_Pack4 x); [done|]; cbn [bind] in Hb
        | context [match v with _ => _ end] => destruct v; try done
        | context [if ?b then _ else _] => destruct b; try done
        end;
      injection Hb as <-; by rewrite Z_to_bytes_length.
Qed.

Lemma rows_packed_length st schema columns k i body :
  rows_packed st schema columns k i body →
  length body = (Struct.size st * k)%nat.
Proof.
  revert i body. induction k as [|k IH]; intros i body; cbn [rows_packed].
  - intros ->. cbn. lia.
  - intros (row & bs & body' & _ & Hbs & -> & Hrows).
    rewrite length_app, (IH _ _ Hrows).
    unfold Struct.pack in Hbs. rewrite (pack_codes_length _ _ _ _ Hbs).
    unfold Struct.size. lia.
Qed.

End ParserAndWriter.

(** ** Column reconciliation *)

Section Reconcile.

Variables (teaser_cols : table) (n : Z).


Lemma fill_missing_id out_cols name :
  zero_filled teaser_cols n out_cols → fill_missing teaser_cols name out_cols = out_cols.
Proof.
  intros Hz. unfold fill_missing.
  destruct (bool_decide (is_Some (out_cols !! name))) eqn:E1; [|done].
  destruct (bool_decide (teaser_cols !! name = None)) eqn:E2; [|done]. simpl.
  apply bool_decide_eq_true in E1 as [col Hcol], E2.
  apply map_eq. intros k. rewrite lookup_alter.
  case_decide; [subst|done].
  rewrite Hcol. simpl. f_equal.
  rewrite (Hz _ _ Hcol E2). by rewrite length_replicate.
Qed.

Lemma fill_all_id names out_cols :
  zero_filled teaser_cols n out_cols →
  foldl (λ out name, fill_missing teaser_cols name out) out_cols names = out_cols.
Proof.
  intros Hz. induction names as [|a r IH]; simpl; [done|].
  by rewrite fill_missing_id.
Qed.

End Reconcile.


Section ReconcileClaimsExamples.

#[local] Existing Instance reference.



End ReconcileClaimsExamples.

(** ** Claims about the reader *)

Section ReaderClaims.

Context {platform : Platform}.

Lemma seek_Err file offset e :
  seek file offset = Err e →
  e = if offset <? - 2 ^ 63 then ValueError_offset
      else if offset <? 0 then OSError_seek
      else if 2 ^ 63 <=? offset then ValueError_offset else OSError_seek.
Proof.
  unfold seek. destruct (offset <? - 2 ^ 63); [by intros [= <-]|].
  destruct (offset <? 0); [by intros [= <-]|].
  destruct (offset <=? Z.of_nat (length file)); [done|].
  destruct (2 ^ 63 <=? offset); [by intros [= <-]|].
  destruct (seek_past_end offset); [done|by intros [= <-]].
Qed.

(** C4 (as amended).  Truncated body.  For a header of a binary format whose
    property types are all known, when fewer bytes follow
    [data_start_offset] than [vertex_count] records need, the reader returns
    no table.  When numpy has room for the arrays, which are allocated
    first, and the seek to [data_start_offset] succeeds, the exception is
    the [EOFError] that carries the index of the first record that is not
    complete (the number of whole records present). *)
Theorem truncated_body_eof (junk : nat → nat → Z) (file : list byte)
    (header : PlyHeader) (endian : string) (st : Struct.t) :
  _endian_for_format (format header) = Ok endian →
  _struct_for_vertex (vertex_properties header) endian = Ok st →
  Z.of_nat (length (drop (Z.to_nat (data_start_offset header)) file))
    < Z.of_nat (Struct.size st) * vertex_count header →
  (∃ e, read_vertex_table_binary junk file header = Err e)
  ∧ (room_for (vertex_properties header) (vertex_count header) →
     seekable file (data_start_offset header) = true →
     read_vertex_table_binary junk file header
     = Err (EOFError_body
              (Z.of_nat (length (drop (Z.to_nat (data_start_offset header)) file)
                         / Struct.size st))
              (vertex_count header))).
Proof.
  intros He Hs Hshort.
  assert (read_vertex_table_binary junk file header
          = (arrays <-! alloc_arrays junk (vertex_properties header)
                          (vertex_count header) 0 ∅;
             rest <-! seek file (data_start_offset header);
             read_rows st (vertex_properties header) (vertex_count header)
               (Z.to_nat (vertex_count header)) 0 rest arrays)) as ->.
  { unfold read_vertex_table_binary.
    destruct (endian_for_format_inv _ _ He) as [[Hf _]|[Hf _]]; rewrite Hf in *;
      cbn [String.eqb Ascii.eqb Bool.eqb orb negb];
      rewrite He; cbn [bind]; by rewrite Hs. }
  split.
  - destruct (alloc_arrays _ _ _ _ _) as [e|arrays]; [by eexists|]. cbn [bind].
    destruct (seek _ _) as [e|rest] eqn:Hseek; [by eexists|]. cbn [bind].
    apply seek_Ok in Hseek as [_ ->].
    rewrite read_rows_short by nia. by eexists.
  - intros Hroom Hseek.
    destruct (alloc_arrays_ok junk (vertex_properties header)
                (vertex_count header) ∅) as [arrays ->]; [nia|done|].
    cbn [bind]. apply seekable_Ok in Hseek as [_ ->]. cbn [bind].
    by rewrite read_rows_short by nia.
Qed.

(** C10.  The table depends on the file only through the bytes in which the
    header places the vertex records, [record_stride * vertex_count] bytes
    from [data_start_offset] on.  Two files that agree there yield the same
    table when the reader returns one for each; they are read alike, table
    or exception, when the seek to [data_start_offset] succeeds on both or
    on neither.  Where the seek succeeds, reading a file is reading that
    window as a body that starts at offset 0 -- the records are taken to
    begin right at [data_start_offset], whatever elements the header
    declares before [vertex]. *)
Theorem reader_depends_on_window (junk : nat → nat → Z)
    (file1 file2 : list byte) (header : PlyHeader) :
  vertex_window header file1 = vertex_window header file2 →
  (∀ t1 t2, read_vertex_table_binary junk file1 header = Ok t1 →
            read_vertex_table_binary junk file2 header = Ok t2 → t1 = t2)
  ∧ (seekable file1 (data_start_offset header)
     = seekable file2 (data_start_offset header) →
     read_vertex_table_binary junk file1 header
     = read_vertex_table_binary junk file2 header)
  ∧ (seekable file1 (data_start_offset header) = true →
     read_vertex_table_binary junk file1 header
     = read_vertex_table_binary junk (vertex_window header file1)
         (at_offset_0 header)).
Proof.
  intros Hw.
  assert (seekable file1 (data_start_offset header)
          = seekable file2 (data_start_offset header) →
          read_vertex_table_binary junk file1 header
          = read_vertex_table_binary junk file2 header) as Hsame.
  { intros Hseek.
    destruct (seekable file1 (data_start_offset header)) eqn:Hs1.
    - by rewrite (read_window junk file1), (read_window junk file2), Hw.
    - unfold seekable in Hs1, Hseek.
      destruct (seek file1 _) as [e1|] eqn:He1; [|done].
      destruct (seek file2 _) as [e2|] eqn:He2; [|done].
      apply seek_Err in He1 as Hv1. apply seek_Err in He2 as Hv2.
      unfold read_vertex_table_binary. rewrite He1, He2, Hv1, Hv2. done. }
  split; [|split; [done|apply read_window]].
  intros t1 t2 H1 H2.
  assert (∀ file t, read_vertex_table_binary junk file header = Ok t →
                    seekable file (data_start_offset header) = true) as Hs.
  { intros file t. unfold read_vertex_table_binary, seekable.
    destruct (negb _); [done|].
    destruct (_endian_for_format _); [done|]. cbn [bind].
    destruct (_struct_for_vertex _ _); [done|]. cbn [bind].
    destruct (alloc_arrays _ _ _ _ _); [done|]. cbn [bind].
    by destruct (seek _ _). }
  rewrite Hsame, H2 in H1 by (by rewrite (Hs _ _ H1), (Hs _ _ H2)).
  by apply (inj inr) in H1.
Qed.

(** C8 (as amended).  Duplicate property names are not detected.  Whenever
    the reader returns a table, the column of a name holds, in every row,
    the value decoded from the field of the last property declared with
    that name: declarations of the same name before it are overwritten. *)
Theorem duplicate_name_last_wins (junk : nat → nat → Z) (file : list byte)
    (header : PlyHeader) (t : table)
    (before after : list (string * string)) (ty name : string) :
  read_vertex_table_binary junk file header = Ok t →
  vertex_properties header = before ++ (ty, name) :: after →
  name ∉ after.*2 →
  ∃ c col,
    type_code ty = Ok c ∧ t !! name = Some col ∧
    length col = Z.to_nat (vertex_count header) ∧
    ∀ i, (i < Z.to_nat (vertex_count header))%nat →
      col !! i
      = Some (to_float32
                (Struct.unpack_one
                   (String.eqb (format header) "binary_little_endian") c
                   (field before c
                      (record (record_stride (vertex_properties header))
                         (drop (Z.to_nat (data_start_offset header)) file) i)))).
Proof.
  intros Hread Hprops Hlast.
  destruct (read_ok_inv _ _ _ _ Hread) as (endian & st & _ & He & Hs & _).
  destruct (struct_for_vertex_inv _ _ _ _ He Hs) as (Hcs & Hle & Hsize).
  pose proof (reader_cells junk file header t endian st name Hread He Hs) as Hc.
  rewrite decide_True in Hc
    by (rewrite Hprops, fmap_app; apply elem_of_app; right; apply list_elem_of_here).
  destruct Hc as (col & Hcol & Hlen & Hcells).
  rewrite Hprops in Hcs.
  destruct (unpack_field (Struct.little st) before ty name after _ [] Hcs)
    as (c & Hc & _).
  exists c, col. do 3 (split; [done|]). intros i Hi.
  rewrite (Hcells i Hi). rewrite Hprops at 1.
  rewrite last_named_app;
    [|done|unfold Struct.unpack;
      by rewrite unpack_codes_length, (type_codes_length _ _ Hcs)].
  unfold Struct.unpack.
  destruct (unpack_field (Struct.little st) before ty name after _
              (record (Struct.size st)
                 (drop (Z.to_nat (data_start_offset header)) file) i) Hcs)
    as (c' & Hc' & ->).
  rewrite Hc in Hc'. injection Hc' as <-. cbn. by rewrite Hle, Hsize.
Qed.

(** ** Claims about the header parser *)

Lemma header_loop_rejects_list ls st :
  declares_list_in_vertex (ps_in_vertex st) (line_text <$> ls) = true →
  ∃ e, header_loop ls st = Err e.
Proof.
  revert st. induction ls as [|bline rest IH]; intros st; [done|].
  cbn [fmap list_fmap declares_list_in_vertex header_loop]. unfold line_text at 1 2.
  destruct (decode_ascii bline) as [e|s]; [by eexists|]. cbn [bind].
  set (text := strip (rstrip is_crlf s)).
  set (st' := after_line st bline (rstrip is_crlf s)).
  change (ps_in_vertex st) with (ps_in_vertex st').
  destruct (String.eqb text "end_header"); [done|].
  destruct (split text) as [|kw [|arg more]]; [apply IH| |].
  - destruct (String.eqb kw "element"); [by eexists|].
    destruct (String.eqb kw "property"); [|apply IH].
    destruct (ps_in_vertex st') eqn:Hin; [by eexists|rewrite <- Hin; apply IH].
  - destruct (String.eqb kw "element").
    + destruct more as [|count [|? ?]]; [by eexists| |by eexists].
      destruct (py_int count) as [e|n]; [by eexists|]. cbn [bind].
      intros H. apply IH. exact H.
    + destruct (String.eqb kw "property"); [|apply IH]. cbn [andb].
      destruct (ps_in_vertex st') eqn:Hin.
      * destruct more as [|m1 [|m2 [|m3 more]]]; cbn [length Nat.leb andb].
        -- by eexists.
        -- rewrite andb_false_r. cbn [andb]. intros H.
           apply (IH (add_property st' arg m1)).
           cbn [add_property ps_in_vertex]. by rewrite Hin.
        -- by eexists.
        -- destruct (String.eqb arg "list"); by eexists.
      * rewrite andb_false_r. intros H. apply IH. by rewrite Hin.
Qed.

(** C7.  A header that declares a list property inside the vertex element is
    rejected by [parse_ply_header]: the result is an exception whatever
    follows the declaration, body included. *)
Theorem list_property_rejected (file : list byte) :
  declares_vertex_list_property file = true →
  ∃ e, parse_ply_header file = Err e.
Proof.
  unfold declares_vertex_list_property, parse_ply_header.
  destruct (readlines file) as [|first [|fmt_line ls]]; [done|done|].
  cbn [drop]. intros H.
  destruct (decode_ascii first); [by eexists|]. cbn [bind].
  destruct (negb _); [by eexists|].
  destruct (decode_ascii fmt_line); [by eexists|]. cbn [bind].
  destruct (split _) as [|kw [|fmt [|ver [|? ?]]]]; try by eexists.
  destruct (negb _); [by eexists|].
  edestruct (header_loop_rejects_list ls) as [e ->]; [exact H|by eexists].
Qed.

End ReaderClaims.

Section ReaderClaimsExamples.

#[local] Existing Instance reference.

Lemma truncated_body_eof_witness :
  read_vertex_table_binary no_junk sample_short sample_short_header
  = Err (EOFError_body 1 2).
Proof.
  apply (truncated_body_eof no_junk sample_short sample_short_header ">"
           {| Struct.little := false; Struct.codes := [Struct.Cf] |}).
  - reflexivity.
  - reflexivity.
  - vm_compute. reflexivity.
  - intros k Hk. reflexivity.
  - reflexivity.
Defined.

(** C4, the claim as stated, fails: the arrays are allocated before the
    file is opened, so a header that declares more vertices than numpy has
    memory for ends the reader with numpy's error, however short the body
    is. *)
Lemma huge_count_fails_before_reading :
  @parse_ply_header small_machine sample_huge = Ok sample_huge_header
  ∧ @read_vertex_table_binary small_machine no_junk sample_huge sample_huge_header
    = Err MemoryError.
Proof. vm_compute. split; reflexivity. Qed.

Lemma reader_depends_on_window_witness :
  read_vertex_table_binary no_junk sample_dup sample_dup_header
  = read_vertex_table_binary no_junk (sample_dup ++ [x01; x02]) sample_dup_header.
Proof.
  assert (vertex_window sample_dup_header sample_dup
          = vertex_window sample_dup_header (sample_dup ++ [x01; x02])) as Hw
    by (vm_compute; reflexivity).
  assert (seekable sample_dup (data_start_offset sample_dup_header)
          = seekable (sample_dup ++ [x01; x02])
              (data_start_offset sample_dup_header)) as Hs
    by (vm_compute; reflexivity).
  exact (proj1 (proj2 (reader_depends_on_window no_junk sample_dup
                         (sample_dup ++ [x01; x02]) sample_dup_header Hw)) Hs).
Defined.

(** The byte of the [face] element is read as the vertex's [r]. *)
Example face_body_not_skipped :
  (h <-! parse_ply_header sample_face_first;
   read_vertex_table_binary no_junk sample_face_first h)
  = Ok {[ "r" := [to_float32 (PyInt 7)] ]}.
Proof. vm_compute. reflexivity. Qed.

Lemma duplicate_name_last_wins_witness :
  ∃ col, (∃ t, read_vertex_table_binary no_junk sample_dup sample_dup_header = Ok t
               ∧ t !! "x" = Some col)
         ∧ col !! 0%nat = Some 0x40000000.
Proof.
  destruct (duplicate_name_last_wins no_junk sample_dup sample_dup_header
              {[ "x" := [0x40000000] ]} [("float", "x")] [] "float" "x")
    as (c & col & Hc & Hcol & Hlen & Hcells).
  - vm_compute. reflexivity.
  - reflexivity.
  - apply not_elem_of_nil.
  - exists col. split.
    + eexists. split; [vm_compute; reflexivity|exact Hcol].
    + injection Hc as <-. rewrite (Hcells 0%nat); [reflexivity|vm_compute; lia].
Defined.

(** C8, the claim as stated, fails: the duplicated header parses, the table
    is read with the later value under [x], and the conversion to that very
    schema succeeds. *)
Lemma duplicate_names_accepted :
  parse_ply_header sample_dup = Ok sample_dup_header
  ∧ read_vertex_table_binary no_junk sample_dup sample_dup_header
    = Ok {[ "x" := [0x40000000] ]}
  ∧ (convert no_junk sample_dup sample_dup).2 = Ok tt.
Proof. vm_compute. repeat split; reflexivity. Qed.

Lemma list_property_rejected_witness :
  ∃ e, parse_ply_header sample_list = Err e.
Proof. apply (list_property_rejected sample_list). vm_compute. reflexivity. Defined.

Example list_property_error :
  parse_ply_header sample_list = Err ValueError_list_property.
Proof. vm_compute. reflexivity. Qed.

End ReaderClaimsExamples.

(** ** Claims about the writer and the conversion *)

Section WriterClaims.

Context {platform : Platform}.

Lemma check_columns_row n schema columns i :
  check_columns n schema columns = Ok tt → (i < Z.to_nat n)%nat →
  ∃ row, row_values schema columns i = Ok row.
Proof.
  intros Hcheck Hi. induction schema as [|[ty name] r IH];
    cbn [check_columns row_values] in *; [by eexists|].
  destruct (columns !! name) as [col|]; [|done].
  destruct (Z.eqb_spec (Z.of_nat (length col)) n) as [Hlen|]; [|done].
  cbn [negb] in Hcheck. destruct (IH Hcheck) as [row ->].
  destruct (col !! i) as [x|] eqn:Hx; [by eexists|].
  apply lookup_ge_None in Hx. lia.
Qed.

Lemma pack_codes_error le cs row e :
  Struct.pack_codes le cs row = Err e → validation_error e = false.
Proof.
  revert row. induction cs as [|c cs IH]; intros [|v row];
    cbn [Struct.pack_codes]; try done; try (by intros [= <-]).
  destruct (Struct.pack_one le c v) as [e'|b] eqn:Hb; cbn [bind].
  - intros [= <-]. destruct c; cbn [Struct.pack_one] in Hb;
      repeat match type of Hb with
        | context [Struct.PyFloat_Pack4 ?x] =>
            unfold Struct.PyFloat_Pack4 in Hb
        | context [match v with _ => _ end] => destruct v; try done
        | context [if ?b then _ else _] => destruct b; try done
        end; cbn [bind] in Hb; try done; by injection Hb as <-.
  - destruct (Struct.pack_codes le cs row) as [e'|r] eqn:Hr; cbn [bind]; [|done].
    intros [= <-]. by eapply IH.
Qed.

Lemma write_rows_error st schema columns n k i written dest e :
  check_columns n schema columns = Ok tt → (i + k ≤ Z.to_nat n)%nat →
  write_rows st schema columns k i written = (dest, Err e) →
  validation_error e = false.
Proof.
  intros Hcheck. revert i written. induction k as [|k IH]; intros i written Hk;
    cbn [write_rows]; [done|].
  destruct (check_columns_row n schema columns i Hcheck) as [row ->]; [lia|].
  cbn [bind]. destruct (Struct.pack st row) as [e'|bs] eqn:Hbs.
  - intros [= _ <-]. by eapply pack_codes_error.
  - apply IH. lia.
Qed.

Lemma encode_ascii_error s e :
  encode_ascii s = Err e → e = UnicodeEncodeError.
Proof.
  induction s as [|a s IH]; cbn [encode_ascii]; [done|].
  destruct (nat_of_ascii a <? 128)%nat; [|by intros [= <-]].
  destruct (encode_ascii s); cbn [bind]; [|done]. intros [= <-]. by apply IH.
Qed.

Lemma check_columns_violation n schema columns ty name :
  (ty, name) ∈ schema →
  (columns !! name = None
   ∨ ∃ col, columns !! name = Some col ∧ Z.of_nat (length col) ≠ n) →
  ∃ e, check_columns n schema columns = Err e ∧ validation_error e = true.
Proof.
  intros Hin Hbad. induction schema as [|[ty' name'] r IH];
    [by apply elem_of_nil in Hin|].
  cbn [check_columns].
  destruct (columns !! name') as [col|] eqn:Hcol; [|by eexists].
  destruct (Z.eqb_spec (Z.of_nat (length col)) n) as [Hlen|]; [|by eexists].
  cbn [negb]. apply elem_of_cons in Hin as [[= -> ->]|Hin]; [|by apply IH].
  destruct Hbad as [Hnone|(col' & Hsome & Hne)]; [congruence|].
  rewrite Hcol in Hsome. by injection Hsome as ->.
Qed.

(** C5 (as amended).  The writer's precondition failures leave the
    destination untouched: when it raises for an unsupported scalar type, a
    missing column or a row-count mismatch, the path has not been opened; and
    a schema name without a column, or with a column whose length is not
    [vertex_count], makes it raise one of these before it opens the path. *)
Theorem writer_validates_before_open (n : Z) (schema : list (string * string))
    (columns : table) :
  (∀ dest e, write_ply_binary_vertex_only n schema columns = (dest, Err e) →
             validation_error e = true → dest = None)
  ∧ ((∃ ty name, (ty, name) ∈ schema ∧
        (columns !! name = None
         ∨ ∃ col, columns !! name = Some col ∧ Z.of_nat (length col) ≠ n)) →
     ∃ e, write_ply_binary_vertex_only n schema columns = (None, Err e)
          ∧ validation_error e = true).
Proof.
  unfold write_ply_binary_vertex_only. rewrite struct_for_vertex_little. split.
  - intros dest e.
    destruct (type_codes schema) as [e'|cs] eqn:Hcs; cbn [bind];
      [by intros [= <- <-]|].
    destruct (check_columns n schema columns) as [e'|[]] eqn:Hcheck;
      [by intros [= <- <-]|].
    destruct (encode_ascii _) as [e'|hb] eqn:Henc.
    { apply encode_ascii_error in Henc as ->. by intros [= <- <-]. }
    intros Hw He. eapply write_rows_error in Hw; [congruence|done|lia].
  - intros (ty & name & Hin & Hbad).
    destruct (type_codes schema) as [e'|cs] eqn:Hcs; cbn [bind].
    + exists e'. split; [done|]. clear Hin Hbad.
      revert e' Hcs. induction schema as [|[t p] r IH]; intros e'; [done|].
      cbn [type_codes]. destruct (type_code t) as [e1|c] eqn:Ht; cbn [bind].
      * intros [= <-]. unfold type_code in Ht.
        destruct (registry_cases t) as [Hr|(a & c & Hr & Hc)]; rewrite Hr in Ht.
        -- by injection Ht as <-.
        -- by rewrite Hc in Ht.
      * destruct (type_codes r) as [e2|cs]; cbn [bind]; [|done].
        intros [= <-]. by apply IH.
    + destruct (check_columns_violation n schema columns ty name Hin Hbad)
        as (e & -> & He). by exists e.
Qed.

Lemma convert_ok_inv junk teaser train out :
  convert junk teaser train = (Some out, Ok tt) →
  ∃ teaser_header train_header teaser_cols out_cols,
    parse_ply_header teaser = Ok teaser_header
    ∧ parse_ply_header train = Ok train_header
    ∧ read_vertex_table_binary junk teaser teaser_header = Ok teaser_cols
    ∧ reconcile teaser_cols (vertex_properties train_header)
        (vertex_count teaser_header) = Ok out_cols
    ∧ write_ply_binary_vertex_only (vertex_count teaser_header)
        (vertex_properties train_header) out_cols = (Some out, Ok tt).
Proof.
  unfold convert, build_target_schema_from_train_header.
  destruct (parse_ply_header teaser) as [|th]; [done|].
  destruct (parse_ply_header train) as [|trh]; [done|].
  destruct (read_vertex_table_binary junk teaser th) as [|cols] eqn:Hread;
    [done|].
  destruct (reconcile cols _ _) as [|out_cols] eqn:Hrec; [done|].
  intros Hw. exists th, trh, cols, out_cols. by repeat (split; [done|]).
Qed.

End WriterClaims.

Section WriterClaimsExamples.

#[local] Existing Instance reference.

Lemma writer_validates_before_open_witness :
  ∃ e, write_ply_binary_vertex_only 2 [("float", "x")] {[ "x" := [0] ]}
       = (None, Err e).
Proof.
  destruct (writer_validates_before_open 2 [("float", "x")] {[ "x" := [0] ]})
    as [_ H].
  destruct H as (e & He & _).
  - exists "float", "x". split; [apply list_elem_of_here|].
    right. exists [0]. split; [reflexivity|]. vm_compute. discriminate.
  - by exists e.
Defined.

(** C5, the claim as stated, fails: with a [uchar] property the writer
    raises [struct.error] on the first row, after the header has been
    written; so does the conversion to a reference that declares one. *)
Lemma writer_leaves_partial_file :
  write_ply_binary_vertex_only 1 [("uchar", "r")] {[ "r" := [0] ]}
  = (Some (list_byte_of_string (header_text 1 [("uchar", "r")])), Err StructError)
  ∧ convert no_junk sample_teaser sample_train_uchar
    = (Some (list_byte_of_string
               (header_text 2 [("uchar", "nx"); ("float", "x")])),
       Err StructError).
Proof. vm_compute. split; reflexivity. Qed.

End WriterClaimsExamples.

(** ** Writing a float32 and reading it back *)

Section RoundTripFloat.

Context {platform : Platform}.

Lemma le_to_Z_to_le w z :
  0 ≤ z < 2 ^ (8 * Z.of_nat w) → le_to_Z (Z_to_le w z) = z.
Proof.
  revert z. induction w as [|w IH]; intros z Hz.
  - cbn in *. lia.
  - cbn [Z_to_le le_to_Z].
    replace (8 * Z.of_nat (S w)) with (8 + 8 * Z.of_nat w) in Hz by lia.
    rewrite Z.pow_add_r in Hz by lia. change (2 ^ 8) with 256 in Hz.
    pose proof (Z.mod_pos_bound z 256 ltac:(lia)).
    rewrite IH by (split; [apply Z.div_pos; lia|apply Z.div_lt_upper_bound; lia]).
    unfold byte_of_Z, byte_val.
    destruct (Byte.of_N (Z.to_N (z mod 256))) as [b|] eqn:Hb.
    + apply Byte.to_of_N in Hb. rewrite Hb, Z2N.id by lia.
      pose proof (Z.div_mod z 256 ltac:(lia)). lia.
    + apply Byte.of_N_None_iff in Hb. lia.
Qed.

Lemma bytes_to_Z_to_bytes le w z :
  0 ≤ z < 2 ^ (8 * Z.of_nat w) → bytes_to_Z le (Z_to_bytes le w z) = z.
Proof.
  intros Hz. unfold bytes_to_Z, Z_to_bytes.
  destruct le; [|rewrite rev_involutive]; by apply le_to_Z_to_le.
Qed.

Section Quieted.
Import Ieee.

Lemma quieted_fields b :
  0 ≤ b < 4294967296 →
  0 ≤ quieted binary32 b < 4294967296
  ∧ is_snan binary32 (quieted binary32 b) = false.
Proof.
  intros Hb. unfold quieted. destruct (is_snan binary32 b) eqn:Hsnan; [|done].
  destruct (decompose32 b Hb) as (s & e & m & -> & Hs & He & Hm).
  unfold is_snan, is_nan in Hsnan.
  destruct (fields32 s e m) as (_ & Hfe & Hfm); [lia..|].
  rewrite Hfe, Hfm in Hsnan. change (emax_field binary32) with 255 in Hsnan.
  change (quiet_bit binary32) with 4194304 in *.
  destruct (Z.eqb_spec e 255) as [->|]; [|done].
  destruct (Z.eqb_spec m 0); [done|].
  destruct (Z.ltb_spec m 4194304); [|done].
  replace (encode binary32 s 255 m + 4194304)
    with (encode binary32 s 255 (4194304 + m)) by (unfold encode; lia).
  split.
  - unfold encode. change (sign_weight binary32) with 2147483648.
    change (2 ^ mw binary32) with 8388608. lia.
  - unfold is_snan, is_nan.
    destruct (fields32 s 255 (4194304 + m)) as (_ & -> & ->); [lia..|].
    change (quiet_bit binary32) with 4194304.
    destruct (Z.ltb_spec (4194304 + m) 4194304); [lia|]. apply andb_false_r.
Qed.

Lemma cast_widen_range b :
  0 ≤ b < 4294967296 →
  0 ≤ cast binary32 binary64 b < 18446744073709551616.
Proof.
  intros (s & e & m & -> & Hs & He & Hm)%decompose32.
  rewrite cast_widen by lia.
  destruct (widened_range e m) as [He' Hm']; [lia..|].
  unfold encode. change (sign_weight binary64) with 9223372036854775808.
  change (2 ^ mw binary64) with 4503599627370496. lia.
Qed.

(** What the reader stores for a float32 the writer packed. *)
Lemma float32_round_trip le c x b :
  0 ≤ x < 4294967296 →
  Struct.pack_one le c (NpFloat32 x) = Ok b →
  length b = Struct.width c
  ∧ to_float32 (Struct.unpack_one le c b) = quieted binary32 x.
Proof.
  intros Hx. destruct (quieted_fields x Hx) as [Hq Hqs].
  destruct c; cbn [Struct.pack_one Struct.py_float]; try done.
  - rewrite pack4_cast by done. cbn [bind]. intros [= <-].
    split; [apply Z_to_bytes_length|].
    unfold Struct.unpack_one, to_float32. cbn [Struct.py_float].
    rewrite bytes_to_Z_to_bytes by (cbn; lia).
    unfold Struct.PyFloat_Unpack4. rewrite Hqs, andb_false_r.
    rewrite cast_round_trip by done. unfold quieted at 1. by rewrite Hqs.
  - intros [= <-]. split; [apply Z_to_bytes_length|].
    unfold Struct.unpack_one, to_float32. cbn [Struct.py_float].
    pose proof (cast_widen_range x Hx).
    rewrite bytes_to_Z_to_bytes by (cbn; lia).
    by apply cast_round_trip.
Qed.

End Quieted.

(** ** Reading back what the writer wrote *)

Lemma last_named_None props values name :
  name ∉ props.*2 → last_named props values name = None.
Proof.
  revert values. induction props as [|[t p] ps IH]; intros [|v vs] Hnin;
    cbn [last_named]; try done.
  cbn in Hnin. apply not_elem_of_cons in Hnin as [Hne Hnin].
  rewrite (IH vs Hnin). by destruct (String.eqb_spec p name).
Qed.

Lemma packed_row_cells le schema cs columns i row bs name :
  float32_table columns →
  type_codes schema = Ok cs →
  row_values schema columns i = Ok row →
  Struct.pack_codes le cs row = Ok bs →
  name ∈ schema.*2 →
  ∃ col x, columns !! name = Some col ∧ col !! i = Some x
           ∧ to_float32 <$> last_named schema (Struct.unpack_codes le cs bs) name
             = Some (quieted Ieee.binary32 x).
Proof.
  intros Hwf. revert cs row bs.
  induction schema as [|[ty p] r IH]; intros cs row bs Hcs Hrow Hbs Hin.
  { by apply elem_of_nil in Hin. }
  cbn [type_codes] in Hcs. destruct (type_code ty) as [|c]; [done|].
  cbn [bind] in Hcs. destruct (type_codes r) as [|cs'] eqn:Hcs'; [done|].
  injection Hcs as <-. cbn [row_values] in Hrow.
  destruct (columns !! p) as [col|] eqn:Hcol; [|done].
  destruct (col !! i) as [x|] eqn:Hx; [|done].
  destruct (row_values r columns i) as [|row'] eqn:Hrow'; [done|].
  injection Hrow as <-. cbn [Struct.pack_codes] in Hbs.
  destruct (Struct.pack_one le c (NpFloat32 x)) as [|b] eqn:Hb; [done|].
  cbn [bind] in Hbs.
  destruct (Struct.pack_codes le cs' row') as [|bs'] eqn:Hbs'; [done|].
  injection Hbs as <-.
  assert (0 ≤ x < 4294967296) as Hxr.
  { pose proof (Hwf p col Hcol) as Hall. rewrite Forall_lookup in Hall.
    by apply (Hall i x). }
  destruct (float32_round_trip le c x b Hxr Hb) as [Hlen Hval].
  cbn [Struct.unpack_codes last_named].
  rewrite take_app_length', drop_app_length' by done.
  destruct (decide (name ∈ r.*2)) as [Hinr|Hninr].
  - destruct (IH cs' row' bs' eq_refl eq_refl Hbs' Hinr) as (col' & x' & H1 & H2 & H3).
    exists col', x'. do 2 (split; [done|]).
    by destruct (last_named r (Struct.unpack_codes le cs' bs') name).
  - rewrite (last_named_None r _ name Hninr).
    cbn in Hin. apply elem_of_cons in Hin as [->|Hin]; [|done].
    rewrite String.eqb_refl. exists col, x. do 2 (split; [done|]).
    cbn. by rewrite Hval.
Qed.

Lemma rows_packed_record st schema columns k i body j :
  rows_packed st schema columns k i body → (j < k)%nat →
  ∃ row bs, row_values schema columns (i + j) = Ok row
            ∧ Struct.pack st row = Ok bs
            ∧ record (Struct.size st) body j = bs.
Proof.
  revert i body j. induction k as [|k IH]; intros i body j; [lia|].
  cbn [rows_packed]. intros (row & bs & body' & Hrow & Hbs & -> & Hrows) Hj.
  assert (length bs = Struct.size st) as Hlen
    by (unfold Struct.pack in Hbs; by rewrite (pack_codes_length _ _ _ _ Hbs)).
  destruct j as [|j].
  - exists row, bs. rewrite Nat.add_0_r. do 2 (split; [done|]).
    unfold record. cbn [Nat.mul]. rewrite drop_0. by rewrite take_app_length'.
  - destruct (IH (S i) body' j Hrows) as (row' & bs' & H1 & H2 & H3); [lia|].
    exists row', bs'. replace (i + S j)%nat with (S i + j)%nat by lia.
    do 2 (split; [done|]). rewrite <- H3. unfold record. f_equal.
    replace (S j * Struct.size st)%nat
      with (length bs + j * Struct.size st)%nat by lia.
    by rewrite drop_app_add'.
Qed.

Lemma read_rows_total st props n k i rest arrays :
  (Struct.size st * k ≤ length rest)%nat →
  ∃ t, read_rows st props n k i rest arrays = Ok t.
Proof.
  revert i rest arrays. induction k as [|k IH]; intros i rest arrays Hlen;
    [by eexists|].
  cbn [read_rows]. rewrite length_take.
  destruct (Nat.eqb_spec (Struct.size st `min` length rest) (Struct.size st));
    [|lia].
  cbn [negb]. apply IH. rewrite length_drop. nia.
Qed.

Lemma check_columns_lookup n schema columns ty name :
  check_columns n schema columns = Ok tt → (ty, name) ∈ schema →
  ∃ col, columns !! name = Some col ∧ Z.of_nat (length col) = n.
Proof.
  intros Hcheck Hin. induction schema as [|[ty' name'] r IH];
    [by apply elem_of_nil in Hin|].
  cbn [check_columns] in Hcheck.
  destruct (columns !! name') as [col|] eqn:Hcol; [|done].
  destruct (Z.eqb_spec (Z.of_nat (length col)) n) as [Hlen|]; [|done].
  apply elem_of_cons in Hin as [[= -> ->]|Hin]; [by exists col|by apply IH].
Qed.

End RoundTripFloat.

(** ** What the reader stores is a quiet float32 *)

Section QuietColumns.

Context {platform : Platform}.

Section Stored.
Import Ieee.

Lemma round_mag_range f m e :
  0 < mw f → 0 < ew f → 0 ≤ m → 0 ≤ round_mag f m e ≤ inf_mag f.
Proof.
  intros Hmw Hew Hm. pose proof (pow_mw_pos f Hmw). pose proof (pow_ew_pos f Hew).
  assert (0 ≤ inf_mag f) by (unfold inf_mag, emax_field; nia).
  unfold round_mag. destruct (Z.eqb_spec m 0); [lia|].
  set (fe := Z.max _ _). assert (emin f ≤ fe) by (unfold fe; lia).
  split; [|lia]. apply Z.min_glb; [|done].
  assert (0 ≤ (if fe - e <=? 0 then m * 2 ^ (- (fe - e)) else rne m (fe - e))).
  { destruct (Z.leb_spec (fe - e) 0).
    - apply Z.mul_nonneg_nonneg; [lia|]. apply Z.pow_nonneg. lia.
    - unfold rne. assert (0 < 2 ^ (fe - e)) by (apply Z.pow_pos_nonneg; lia).
      assert (0 ≤ m / 2 ^ (fe - e)) by (apply Z.div_pos; lia).
      repeat case_match; lia. }
  nia.
Qed.

Lemma decompose64 b :
  0 ≤ b < 18446744073709551616 →
  ∃ s e m, b = enc64 s e m ∧ 0 ≤ s < 2 ∧ 0 ≤ e < 2048
           ∧ 0 ≤ m < 4503599627370496.
Proof.
  intros Hb. exists (sign binary64 b), (expo binary64 b), (mant binary64 b).
  by apply decompose.
Qed.

(** A double narrowed to float32: a sign and a magnitude that is finite,
    infinite or a quiet NaN. *)
Lemma cast_narrow_shape d :
  0 ≤ d < 18446744073709551616 →
  ∃ s mag, cast binary64 binary32 d = s * 2147483648 + mag ∧ 0 ≤ s < 2
           ∧ (0 ≤ mag ≤ 2139095040 ∨ 2139095040 + 4194304 ≤ mag < 2147483648).
Proof.
  intros (s & e & m & -> & Hs & He & Hm)%decompose64.
  unfold cast, significand, exponent.
  destruct (fields64 s e m) as (-> & -> & ->); [lia..|].
  exists s. eexists. split; [reflexivity|]. split; [done|].
  change (inf_mag binary32) with 2139095040.
  destruct (e =? emax_field binary64).
  - destruct (m =? 0); [lia|]. right.
    unfold set_quiet, move_payload.
    cbn [mw binary32 binary64 Z.leb Z.compare Pos.compare Pos.compare_cont
         Z.sub Z.opp Z.add Z.pos_sub Pos.pred_double].
    change (quiet_bit binary32) with 4194304.
    change (2 ^ (52 - 23)) with 536870912.
    assert (0 ≤ m / 536870912 < 8388608)
      by (split; [apply Z.div_pos; lia|apply Z.div_lt_upper_bound; lia]).
    destruct (Z.leb_spec 4194304 (m / 536870912)); lia.
  - left. change 2139095040 with (inf_mag binary32).
    apply round_mag_range; [done|done|].
    change (2 ^ mw binary64) with 4503599627370496. case_match; lia.
Qed.

Lemma cast_narrow_quiet d :
  0 ≤ d < 18446744073709551616 →
  0 ≤ cast binary64 binary32 d < 4294967296
  ∧ is_snan binary32 (cast binary64 binary32 d) = false.
Proof.
  intros (s & mag & -> & Hs & Hmag)%cast_narrow_shape. split; [lia|].
  assert (s * 2147483648 + mag
          = enc32 s (mag / 8388608) (mag mod 8388608)) as ->.
  { unfold encode. change (sign_weight binary32) with 2147483648.
    change (2 ^ mw binary32) with 8388608.
    pose proof (Z.div_mod mag 8388608 ltac:(lia)). lia. }
  pose proof (Z.mod_pos_bound mag 8388608 ltac:(lia)).
  assert (0 ≤ mag / 8388608 < 256)
    by (split; [apply Z.div_pos; lia|apply Z.div_lt_upper_bound; lia]).
  unfold is_snan, is_nan.
  destruct (fields32 s (mag / 8388608) (mag mod 8388608)) as (_ & -> & ->);
    [lia..|].
  change (emax_field binary32) with 255. change (quiet_bit binary32) with 4194304.
  pose proof (Z.div_mod mag 8388608 ltac:(lia)).
  destruct (Z.eqb_spec (mag / 8388608) 255) as [He|]; [|done].
  destruct (Z.eqb_spec (mag mod 8388608) 0); [done|]. cbn [negb andb].
  destruct (Z.ltb_spec (mag mod 8388608) 4194304); [lia|done].
Qed.

Lemma of_int_range z : 0 ≤ of_int z < 18446744073709551616.
Proof.
  unfold of_int.
  pose proof (round_mag_range binary64 (Z.abs z) 0 eq_refl eq_refl
                (Z.abs_nonneg z)) as H.
  change (inf_mag binary64) with 9218868437227405312 in H.
  change (sign_weight binary64) with 9223372036854775808.
  case_match; lia.
Qed.

Lemma unpack4_range u :
  0 ≤ u < 4294967296 → 0 ≤ Struct.PyFloat_Unpack4 u < 18446744073709551616.
Proof.
  intros Hu. unfold Struct.PyFloat_Unpack4.
  destruct struct_keeps_snan eqn:Hkeeps; [|by apply cast_widen_range].
  cbn [andb].
  destruct (is_snan binary32 u) eqn:Hsnan; [|by apply cast_widen_range].
  destruct (decompose32 u Hu) as (s & e & m & -> & Hs & He & Hm).
  unfold is_snan, is_nan in Hsnan.
  destruct (fields32 s e m) as (_ & Hfe & Hfm); [lia..|].
  rewrite Hfe, Hfm in Hsnan. change (emax_field binary32) with 255 in Hsnan.
  change (quiet_bit binary32) with 4194304 in Hsnan.
  destruct (Z.eqb_spec e 255) as [->|]; [|done].
  destruct (Z.eqb_spec m 0); [done|].
  destruct (Z.ltb_spec m 4194304); [|done].
  pose proof (unpack4_snan s m Hkeeps Hs ltac:(lia)) as Hun.
  unfold Struct.PyFloat_Unpack4 in Hun. rewrite Hkeeps in Hun.
  cbn [andb] in Hun.
  assert (is_snan binary32 (enc32 s 255 m) = true) as Hs'.
  { unfold is_snan, is_nan. rewrite Hfe, Hfm.
    change (emax_field binary32) with 255. change (quiet_bit binary32) with 4194304.
    destruct (Z.eqb_spec m 0); [lia|].
    by destruct (Z.ltb_spec m 4194304); [|lia]. }
  rewrite Hs' in Hun. rewrite Hun. unfold encode.
  change (sign_weight binary64) with 9223372036854775808.
  change (2 ^ mw binary64) with 4503599627370496. lia.
Qed.

Lemma unpack_one_double le c bs :
  (length bs ≤ Struct.width c)%nat →
  0 ≤ Struct.py_float (Struct.unpack_one le c bs) < 18446744073709551616.
Proof.
  intros Hlen. pose proof (bytes_to_Z_range le bs) as Hu.
  assert (2 ^ (8 * Z.of_nat (length bs)) ≤ 2 ^ (8 * Z.of_nat (Struct.width c)))
    as Hpow by (apply Z.pow_le_mono_r; lia).
  unfold Struct.unpack_one.
  destruct c; cbn [Struct.is_signed andb Struct.py_float];
    try (case_match; cbn [Struct.py_float]; apply of_int_range);
    try apply of_int_range.
  - apply unpack4_range. change (2 ^ (8 * Z.of_nat (Struct.width Struct.Cf)))
      with 4294967296 in Hpow. lia.
  - change (2 ^ (8 * Z.of_nat (Struct.width Struct.Cd)))
      with 18446744073709551616 in Hpow. lia.
Qed.

End Stored.

Lemma last_named_elem props values name v :
  last_named props values name = Some v → v ∈ values.
Proof.
  revert values. induction props as [|[t p] ps IH]; intros [|w vs];
    cbn [last_named]; try done.
  destruct (last_named ps vs name) as [u|] eqn:E.
  - intros [= ->]. apply list_elem_of_further. by apply IH.
  - destruct (String.eqb p name); [|done]. intros [= ->].
    apply list_elem_of_here.
Qed.

Lemma unpack_codes_double le cs bs v :
  v ∈ Struct.unpack_codes le cs bs →
  0 ≤ Struct.py_float v < 18446744073709551616.
Proof.
  revert bs. induction cs as [|c cs IH]; intros bs; cbn [Struct.unpack_codes].
  - by intros ?%elem_of_nil.
  - intros [->|Hin]%elem_of_cons; [|by eapply IH].
    apply unpack_one_double. rewrite length_take. lia.
Qed.

(** The table the reader returns holds float32 patterns, none of them a
    signalling NaN. *)
Lemma reader_quiet_table junk file header t :
  read_vertex_table_binary junk file header = Ok t → quiet_table t.
Proof.
  intros Hread name col Hcol.
  destruct (read_ok_inv _ _ _ _ Hread) as (endian & st & _ & He & Hs & _).
  pose proof (reader_cells junk file header t endian st name Hread He Hs) as Hc.
  case_decide; [|congruence].
  destruct Hc as (col' & Hcol' & Hlen & Hcells).
  rewrite Hcol in Hcol'. injection Hcol' as <-.
  apply Forall_lookup. intros i x Hx.
  assert (i < Z.to_nat (vertex_count header))%nat as Hi
    by (rewrite <- Hlen; by eapply lookup_lt_Some).
  rewrite (Hcells i Hi) in Hx.
  destruct (last_named _ _ _) as [v|] eqn:Hv; [|done]. injection Hx as <-.
  apply last_named_elem in Hv. apply unpack_codes_double in Hv.
  by apply cast_narrow_quiet.
Qed.

Lemma quiet_table_float32 columns : quiet_table columns → float32_table columns.
Proof.
  intros H name col Hcol. eapply Forall_impl; [by eapply H|]. by intros x [? _].
Qed.

Lemma quiet_table_quieted columns name col :
  quiet_table columns → columns !! name = Some col →
  quieted Ieee.binary32 <$> col = col.
Proof.
  intros H Hcol. specialize (H name col Hcol). clear Hcol.
  induction H as [|x col' [_ Hx] _ IH]; [done|].
  rewrite fmap_cons, IH. unfold quieted. by rewrite Hx.
Qed.

Lemma build_out_cols_quiet teaser_cols target_schema n acc out_cols :
  quiet_table teaser_cols → quiet_table acc →
  build_out_cols teaser_cols target_schema n acc = Ok out_cols →
  quiet_table out_cols.
Proof.
  intros Ht. revert acc.
  induction target_schema as [|[ty p] r IH]; intros acc Hacc;
    cbn [build_out_cols]; [by intros [= <-]|].
  assert (∀ col, Forall (λ x, 0 ≤ x < 4294967296
                              ∧ Ieee.is_snan Ieee.binary32 x = false) col →
                 quiet_table (<[p:=col]> acc)) as Hins.
  { intros col Hall name col' [[-> <-]|[_ Hl]]%lookup_insert_Some; [done|].
    by eapply Hacc. }
  destruct (teaser_cols !! p) as [col|] eqn:Hp.
  - apply IH, Hins. by eapply Ht.
  - unfold np_zeros. destruct (n <? 0); [done|]. cbn [bind].
    apply IH, Hins. by apply Forall_replicate.
Qed.

Lemma reconcile_quiet teaser_cols target_schema n out_cols :
  quiet_table teaser_cols →
  reconcile teaser_cols target_schema n = Ok out_cols →
  quiet_table out_cols.
Proof.
  intros Ht. unfold reconcile.
  destruct (build_out_cols _ _ _ _) as [|out] eqn:Hb; [done|]. cbn [bind].
  assert (quiet_table out) as Hout.
  { eapply build_out_cols_quiet; [done| |done]. intros name col.
    by rewrite lookup_empty. }
  assert (∀ names out, quiet_table out →
            quiet_table (foldl (λ o name, fill_missing teaser_cols name o)
                           out names)) as Hfill.
  { induction names as [|a names IH]; intros o Ho; [done|].
    cbn [foldl]. apply IH. unfold fill_missing.
    destruct (_ && _); [|done].
    intros name col. rewrite lookup_alter. case_decide; [subst|by apply Ho].
    destruct (o !! name) as [c|]; [|done]. intros [= <-].
    by apply Forall_replicate. }
  intros Heq. apply (inj inr) in Heq. rewrite <- Heq.
  apply (Hfill f_rest_names), (Hfill ["nx"; "ny"; "nz"]), Hout.
Qed.

End QuietColumns.

Section RoundTrip.

Context {platform : Platform}.


End RoundTrip.

Section RoundTripExamples.

#[local] Existing Instance reference.


(** The names have to be tokens: a name with a space in it, which no
    parsed header has, is written into a header that the parser rejects. *)
Example name_with_space_is_not_read_back :
  ∃ out, write_ply_binary_vertex_only 0 [("float", "a b")] {[ "a b" := [] ]}
         = (Some out, Ok tt)
         ∧ parse_ply_header out = Err ValueError_property_line.
Proof. eexists. split; vm_compute; reflexivity. Qed.

End RoundTripExamples.

Section OutputShape.

Context {platform : Platform}.

(** C3.  A successful conversion writes a file whose header is the text
    generated from the reference schema and the source's vertex count: it
    parses to format [binary_little_endian], the vertex count of the source
    header (whatever count the reference declares), the reference's
    properties in their order, and the lines [ply], [format], one [element
    vertex] line, the property lines and [end_header]; the body that follows
    is one record per source vertex, the reconciled columns packed
    little-endian; every entry of those columns is a float32 value that is
    not a signalling NaN. *)
Theorem convert_output_shape (junk : nat → nat → Z) (teaser train out : list byte) :
  convert junk teaser train = (Some out, Ok tt) →
  ∃ teaser_header train_header teaser_cols out_cols cs body,
    parse_ply_header teaser = Ok teaser_header
    ∧ parse_ply_header train = Ok train_header
    ∧ read_vertex_table_binary junk teaser teaser_header = Ok teaser_cols
    ∧ reconcile teaser_cols (vertex_properties train_header)
        (vertex_count teaser_header) = Ok out_cols
    ∧ quiet_table out_cols
    ∧ type_codes (vertex_properties train_header) = Ok cs
    ∧ out = list_byte_of_string
              (header_text (vertex_count teaser_header)
                 (vertex_properties train_header)) ++ body
    ∧ parse_ply_header out
      = Ok (written_header (vertex_count teaser_header)
              (vertex_properties train_header))
    ∧ rows_packed (little_struct cs) (vertex_properties train_header) out_cols
        (Z.to_nat (vertex_count teaser_header)) 0 body
    ∧ length body
      = (record_stride (vertex_properties train_header)
         * Z.to_nat (vertex_count teaser_header))%nat.
Proof.
  intros (th & trh & cols & out_cols & Hth & Htr & Hread & Hrec & Hw)%convert_ok_inv.
  destruct (writer_ok_inv _ _ _ _ Hw) as (cs & body & Hcs & _ & Hascii & -> & Hrows).
  exists th, trh, cols, out_cols, cs, body. do 4 (split; [done|]).
  split; [eapply reconcile_quiet; [by eapply reader_quiet_table|done]|].
  do 2 (split; [done|]).
  split; [|split; [done|]].
  - eapply parse_written_header;
      [by eapply parse_readable|done|by eapply parse_tokens|done].
  - rewrite (rows_packed_length _ _ _ _ _ _ Hrows).
    unfold record_stride. by rewrite Hcs.
Qed.

End OutputShape.

Section OutputShapeExamples.

#[local] Existing Instance reference.

Lemma convert_output_shape_witness :
  parse_ply_header sample_output
  = Ok (written_header 2 [("float", "nx"); ("float", "x")]).
Proof.
  destruct (convert_output_shape no_junk sample_teaser sample_train sample_output)
    as (th & trh & _ & _ & _ & _ & Hth & Htr & _ & _ & _ & _ & _ & Hparse & _).
  - vm_compute. reflexivity.
  - vm_compute in Hth, Htr. injection Hth as <-. injection Htr as <-.
    exact Hparse.
Defined.

End OutputShapeExamples.

(** * Further properties *)

(** ** The header parser *)

Section HeaderParser.

Context {platform : Platform}.

Lemma header_loop_iteration bline rest st :
  header_loop (bline :: rest) st
  = match header_iteration st bline with
    | Break st' => Ok st'
    | Continue st' => header_loop rest st'
    | Raise e => Err e
    end.
Proof.
  cbn [header_loop]. unfold header_iteration.
  destruct (decode_ascii bline) as [|s]; [done|]. cbn [bind].
  destruct (String.eqb _ "end_header"); [done|].
  destruct (split _) as [|p0 parts]; [done|].
  destruct (String.eqb p0 "element").
  { destruct parts as [|nm [|c [|? ?]]]; try done. by destruct (py_int c). }
  destruct (String.eqb p0 "property"); [|done].
  destruct (ps_in_vertex _); [|done].
  destruct parts as [|ty [|name [|m3 [|m4 more]]]]; try done.
  by destruct (String.eqb ty "list").
Qed.

Lemma parse_ok_inv file h :
  parse_ply_header file = Ok h →
  ∃ first fmt_line ls line0 fmt_text st,
    readlines file = first :: fmt_line :: ls
    ∧ decode_ascii first = Ok line0
    ∧ strip (rstrip is_crlf line0) = "ply"
    ∧ decode_ascii fmt_line = Ok fmt_text
    ∧ split (strip fmt_text) = ["format"; format h; version h]
    ∧ header_loop ls (initial_pstate first fmt_line line0 fmt_text) = Ok st
    ∧ ps_count st = Some (vertex_count h)
    ∧ vertex_properties h = ps_props st
    ∧ header_lines h = ps_lines st
    ∧ data_start_offset h = ps_pos st.
Proof.
  unfold parse_ply_header.
  destruct (readlines file) as [|first [|fmt_line ls]]; [done| |].
  { destruct (decode_ascii first); [done|]. cbn [bind]. by destruct (negb _). }
  destruct (decode_ascii first) as [|line0] eqn:H0; [done|]. cbn [bind].
  destruct (String.eqb_spec (strip (rstrip is_crlf line0)) "ply") as [Hply|];
    [|done]. cbn [negb].
  destruct (decode_ascii fmt_line) as [|fmt_text] eqn:Hf; [done|]. cbn [bind].
  destruct (split _) as [|kw [|fmt [|ver [|? ?]]]] eqn:Hsplit; try done.
  destruct (String.eqb_spec kw "format") as [->|]; [|done]. cbn [negb].
  fold (initial_pstate first fmt_line line0 fmt_text).
  destruct (header_loop ls _) as [|st] eqn:Hloop; [done|]. cbn [bind].
  destruct (ps_count st) as [n|] eqn:Hcount; [|done].
  intros Heq. apply (inj inr) in Heq. subst h.
  by exists first, fmt_line, ls, line0, fmt_text, st.
Qed.

Lemma parse_ok_intro file first fmt_line ls line0 fmt_text fmt ver st n :
  readlines file = first :: fmt_line :: ls →
  decode_ascii first = Ok line0 →
  strip (rstrip is_crlf line0) = "ply" →
  decode_ascii fmt_line = Ok fmt_text →
  split (strip fmt_text) = ["format"; fmt; ver] →
  header_loop ls (initial_pstate first fmt_line line0 fmt_text) = Ok st →
  ps_count st = Some n →
  parse_ply_header file
  = Ok {| format := fmt; version := ver; vertex_count := n;
          vertex_properties := ps_props st; header_lines := ps_lines st;
          data_start_offset := ps_pos st |}.
Proof.
  intros Hl H0 Hply Hf Hsplit Hloop Hn. unfold parse_ply_header.
  rewrite Hl, H0. cbn [bind]. rewrite Hply. cbn [String.eqb Ascii.eqb Bool.eqb negb].
  rewrite Hf. cbn [bind]. rewrite Hsplit.
  cbn [String.eqb Ascii.eqb Bool.eqb negb].
  fold (initial_pstate first fmt_line line0 fmt_text).
  rewrite Hloop. cbn [bind]. by rewrite Hn.
Qed.

(** *** Lines *)

Lemma byte_eqb_newline b : Byte.eqb b x0a = true ↔ b = x0a.
Proof.
  split; [apply Byte.byte_dec_bl|]. intros ->. done.
Qed.

Lemma readlines_nonempty b bs : readlines (b :: bs) ≠ [].
Proof.
  cbn [readlines]. destruct (Byte.eqb b x0a); [done|].
  by destruct (readlines bs).
Qed.

Lemma readlines_concat bs : concat (readlines bs) = bs.
Proof.
  induction bs as [|b r IH]; [done|]. cbn [readlines].
  destruct (Byte.eqb b x0a).
  - cbn. by rewrite IH.
  - destruct (readlines r) as [|l ls]; cbn in *; by rewrite <- IH.
Qed.

(** A line that is followed by another one ends with its newline, which is
    its only one; the following lines are the lines of the rest. *)
Lemma readlines_cons bs l ls :
  readlines bs = l :: ls → ls ≠ [] →
  ∃ bs', bs = l ++ bs' ∧ readlines bs' = ls
         ∧ ∀ rest, readlines (l ++ rest) = l :: readlines rest.
Proof.
  revert l ls. induction bs as [|b r IH]; intros l ls; [done|].
  cbn [readlines]. destruct (Byte.eqb b x0a) eqn:Hb.
  - intros [= <- <-] _. exists r. do 2 (split; [done|]).
    intros rest. cbn [app readlines]. by rewrite Hb.
  - destruct (readlines r) as [|l' ls'] eqn:Hr; [by intros [= <- <-]|].
    intros [= <- <-] Hne.
    destruct (IH l' ls' eq_refl Hne) as (bs' & -> & Hbs' & Hl').
    exists bs'. do 2 (split; [done|]).
    intros rest. cbn [app readlines]. by rewrite Hb, Hl'.
Qed.

Lemma readlines_prefix bs pre rest :
  readlines bs = pre ++ rest → rest ≠ [] →
  ∃ bs', bs = concat pre ++ bs' ∧ readlines bs' = rest
         ∧ ∀ body, readlines (concat pre ++ body) = pre ++ readlines body.
Proof.
  revert bs. induction pre as [|l pre IH]; intros bs Hbs Hrest.
  - by exists bs.
  - cbn [app] in Hbs.
    destruct (readlines_cons bs l (pre ++ rest) Hbs) as (bs1 & -> & Hbs1 & Hl).
    { by destruct pre, rest. }
    destruct (IH bs1 Hbs1 Hrest) as (bs' & -> & Hbs' & Hpre).
    exists bs'. cbn [concat]. rewrite <- app_assoc. do 2 (split; [done|]).
    intros body. by rewrite <- app_assoc, Hl, Hpre.
Qed.

(** *** The lines the loop reads *)

Lemma header_iteration_state st bline st' :
  header_iteration st bline = Break st' ∨ header_iteration st bline = Continue st' →
  ∃ decoded, decode_ascii bline = Ok decoded
    ∧ ps_pos st' = ps_pos st + Z.of_nat (length bline)
    ∧ ps_lines st' = ps_lines st ++ [rstrip is_crlf decoded].
Proof.
  unfold header_iteration.
  destruct (decode_ascii bline) as [|s]; [by intros [|]|]. intros H. exists s.
  split; [done|].
  destruct (String.eqb _ "end_header").
  { destruct H as [[= <-]|]; done. }
  destruct (split _) as [|p0 parts].
  { destruct H as [|[= <-]]; done. }
  destruct (String.eqb p0 "element").
  { destruct parts as [|nm [|c [|? ?]]]; try by destruct H.
    destruct (py_int c); [by destruct H|]. destruct H as [|[= <-]]; done. }
  destruct (String.eqb p0 "property"); [|destruct H as [|[= <-]]; done].
  destruct (ps_in_vertex _); [|destruct H as [|[= <-]]; done].
  destruct parts as [|ty [|name [|m3 [|m4 more]]]]; try by destruct H.
  - destruct H as [|[= <-]]; done.
  - destruct (String.eqb ty "list"); by destruct H.
Qed.

Lemma header_iteration_end st bline :
  match header_iteration st bline with
  | Break _ => line_text bline = "end_header"
  | Continue _ => line_text bline ≠ "end_header"
  | Raise _ => True
  end.
Proof.
  unfold header_iteration, line_text.
  destruct (decode_ascii bline) as [|s]; [done|].
  destruct (String.eqb_spec (strip (rstrip is_crlf s)) "end_header") as [|Hne];
    [done|].
  destruct (split _) as [|p0 parts]; [done|].
  destruct (String.eqb p0 "element").
  { destruct parts as [|nm [|c [|? ?]]]; try done. by destruct (py_int c). }
  destruct (String.eqb p0 "property"); [|done].
  destruct (ps_in_vertex _); [|done].
  destruct parts as [|ty [|name [|m3 [|m4 more]]]]; try done.
  by destruct (String.eqb ty "list").
Qed.

(** The loop stops at the first line whose text is [end_header]: the lines
    it has read are [before], none of them that text, and [last]. *)
Lemma header_loop_consumed ls st st' :
  header_loop ls st = Ok st' →
  ∃ before last rest,
    ls = before ++ last :: rest
    ∧ Forall (λ b, line_text b ≠ "end_header") before
    ∧ line_text last = "end_header"
    ∧ ps_pos st' = ps_pos st + Z.of_nat (length (concat (before ++ [last])))
    ∧ strip <$> ps_lines st'
      = (strip <$> ps_lines st) ++ (line_text <$> before ++ [last])
    ∧ ∀ rest', header_loop (before ++ last :: rest') st = Ok st'.
Proof.
  revert st. induction ls as [|bline ls IH]; intros st; [done|].
  rewrite header_loop_iteration.
  pose proof (header_iteration_state st bline) as Hst.
  pose proof (header_iteration_end st bline) as Hend.
  destruct (header_iteration st bline) as [st1|st1|e] eqn:Hit; [| |done].
  - intros Heq. apply (inj inr) in Heq. subst st1.
    destruct (Hst st') as (s & Hs & Hpos & Hlines); [by left|].
    exists [], bline, ls. split; [done|]. split; [constructor|].
    split; [done|]. split; [cbn; by rewrite app_nil_r|].
    split.
    { rewrite Hlines, fmap_app. cbn. unfold line_text. by rewrite Hs. }
    intros rest'. cbn [app]. by rewrite header_loop_iteration, Hit.
  - intros Hloop.
    destruct (Hst st1) as (s & Hs & Hpos & Hlines); [by right|].
    destruct (IH st1 Hloop) as (before & last & rest & -> & Hbefore & Hlast
                                & Hpos' & Hlines' & Hrest).
    exists (bline :: before), last, rest. split; [done|].
    split; [by constructor|]. split; [done|]. split.
    { rewrite Hpos', Hpos. cbn [app concat]. rewrite (length_app bline). lia. }
    split.
    { assert (line_text bline = strip (rstrip is_crlf s)) as Hlt
        by (unfold line_text; by rewrite Hs).
      rewrite Hlines', Hlines, fmap_app, <- app_assoc. cbn [app fmap list_fmap].
      by rewrite Hlt. }
    intros rest'. cbn [app]. by rewrite header_loop_iteration, Hit.
Qed.

End HeaderParser.

Section HeaderLayout.

Context {platform : Platform}.

(** What a successful parse says about the file: its lines are the [ply]
    line, the format line, lines [before] that are not [end_header], the
    line [last] that is, and whatever follows. *)
Lemma parse_layout file h :
  parse_ply_header file = Ok h →
  ∃ first fmt_line before last rest line0 fmt_text st,
    readlines file = (first :: fmt_line :: before ++ [last]) ++ rest
    ∧ decode_ascii first = Ok line0
    ∧ strip (rstrip is_crlf line0) = "ply"
    ∧ decode_ascii fmt_line = Ok fmt_text
    ∧ split (strip fmt_text) = ["format"; format h; version h]
    ∧ (∀ rest', header_loop (before ++ last :: rest')
                  (initial_pstate first fmt_line line0 fmt_text) = Ok st)
    ∧ Forall (λ b, line_text b ≠ "end_header") before
    ∧ line_text last = "end_header"
    ∧ ps_count st = Some (vertex_count h)
    ∧ vertex_properties h = ps_props st
    ∧ header_lines h = ps_lines st
    ∧ data_start_offset h
      = Z.of_nat (length (concat (first :: fmt_line :: before ++ [last])))
    ∧ strip <$> header_lines h
      = line_text <$> (first :: fmt_line :: before ++ [last])
    ∧ data_start_offset h = ps_pos st.
Proof.
  intros (first & fmt_line & ls & line0 & fmt_text & st & Hl & H0 & Hply & Hf
          & Hsplit & Hloop & Hcount & Hprops & Hlines & Hoff)%parse_ok_inv.
  destruct (header_loop_consumed _ _ _ Hloop)
    as (before & last & rest & -> & Hbefore & Hlast & Hpos & Hst & Hrest).
  exists first, fmt_line, before, last, rest, line0, fmt_text, st.
  split; [by rewrite Hl; cbn; rewrite <- app_assoc|].
  do 10 (split; [done|]). split; [|split; [|done]].
  - rewrite Hoff, Hpos. cbn [initial_pstate ps_pos concat].
    rewrite !(length_app first), !(length_app fmt_line). lia.
  - assert (line_text first = strip (rstrip is_crlf line0)) as H1
      by (unfold line_text; by rewrite H0).
    assert (line_text fmt_line = strip (rstrip is_crlf fmt_text)) as H2
      by (unfold line_text; by rewrite Hf).
    rewrite Hlines, Hst. cbn [initial_pstate ps_lines fmap list_fmap app].
    by rewrite H1, H2.
Qed.

Lemma parse_header_bytes file h :
  parse_ply_header file = Ok h →
  ∃ pre rest,
    readlines file = pre ++ rest
    ∧ file = concat pre ++ concat rest
    ∧ data_start_offset h = Z.of_nat (length (concat pre))
    ∧ readlines (concat pre) = pre
    ∧ strip <$> header_lines h = line_text <$> pre
    ∧ (rest ≠ [] → ∀ body, parse_ply_header (concat pre ++ body) = Ok h).
Proof.
  intros (first & fmt_line & before & last & rest & line0 & fmt_text & st & Hl
          & H0 & Hply & Hf & Hsplit & Hloop & _ & _ & Hcount & Hprops & Hlines
          & Hoff & Htexts & Hpos)%parse_layout.
  set (pre := first :: fmt_line :: before ++ [last]) in *.
  exists pre, rest. split; [done|].
  split; [by rewrite <- concat_app, <- Hl, readlines_concat|].
  split; [done|].
  assert (rest ≠ [] → ∀ body, readlines (concat pre ++ body) = pre ++ readlines body)
    as Hpre.
  { intros Hne. by destruct (readlines_prefix file pre rest Hl Hne) as (_ & _ & _ & H). }
  split.
  { destruct rest as [|l rest].
    - rewrite app_nil_r in Hl. rewrite <- Hl at 1. by rewrite readlines_concat.
    - specialize (Hpre ltac:(done) []). by rewrite !app_nil_r in Hpre. }
  split; [done|].
  intros Hne body.
  rewrite (parse_ok_intro (concat pre ++ body) first fmt_line
             (before ++ last :: readlines body) line0 fmt_text
             (format h) (version h) st (vertex_count h)); try done.
  - destruct h as [f v n ps hl off]. cbn in Hcount, Hprops, Hlines, Hpos |- *.
    congruence.
  - rewrite (Hpre Hne). unfold pre. cbn [app]. by rewrite <- app_assoc.
Qed.

(** X1.  The header does not depend on the body.  When a file parses and has at
    least one byte after the header, replacing everything after
    [data_start_offset] by any bytes, or by nothing, gives a file that parses
    to the same header. *)
Theorem header_does_not_depend_on_body (file : list byte) (h : PlyHeader)
    (body : list byte) :
  parse_ply_header file = Ok h →
  (Z.to_nat (data_start_offset h) < length file)%nat →
  parse_ply_header (take (Z.to_nat (data_start_offset h)) file ++ body) = Ok h.
Proof.
  intros Hparse Hlen.
  destruct (parse_header_bytes file h Hparse)
    as (pre & rest & _ & Hfile & Hoff & _ & _ & Hbody).
  rewrite Hoff, Nat2Z.id.
  rewrite Hfile at 1. rewrite take_app_length. apply Hbody.
  intros ->. rewrite Hoff, Nat2Z.id, Hfile in Hlen. cbn in Hlen.
  rewrite app_nil_r in Hlen. lia.
Qed.

(** X2.  The header lines and the offset a successful parse returns.  The offset
    lies within the file; the lines returned are, up to surrounding
    whitespace, the texts of the lines of the file's first
    [data_start_offset] bytes; there are at least three; the first is [ply],
    the last is [end_header], and no line between the format line and the
    last is [end_header]. *)
Theorem header_lines_are_the_header (file : list byte) (h : PlyHeader) :
  parse_ply_header file = Ok h →
  0 ≤ data_start_offset h
  ∧ (Z.to_nat (data_start_offset h) ≤ length file)%nat
  ∧ strip <$> header_lines h
    = line_text <$> readlines (take (Z.to_nat (data_start_offset h)) file)
  ∧ (3 ≤ length (header_lines h))%nat
  ∧ head (strip <$> header_lines h) = Some "ply"
  ∧ last (strip <$> header_lines h) = Some "end_header"
  ∧ ∀ i, (2 ≤ i)%nat → (strip <$> header_lines h) !! i = Some "end_header" →
         S i = length (header_lines h).
Proof.
  intros Hparse.
  destruct (parse_header_bytes file h Hparse)
    as (pre & rest & _ & Hfile & Hoff & Hpre & Htexts & _).
  destruct (parse_layout file h Hparse)
    as (first & fmt_line & before & last & rest' & line0 & fmt_text & st & _
        & H0 & Hply & _ & _ & _ & Hbefore & Hlast & _ & _ & _ & _ & Htexts' & _).
  split; [lia|]. rewrite Hoff, Nat2Z.id.
  split; [rewrite Hfile, length_app; lia|].
  split; [rewrite Hfile, take_app_length; by rewrite Hpre|].
  assert (length (header_lines h) = S (S (S (length before)))) as Hlen.
  { rewrite <- (length_fmap strip), Htexts'. cbn.
    rewrite length_fmap, length_app. cbn. lia. }
  split; [lia|]. rewrite Htexts'.
  split; [cbn; unfold line_text; by rewrite H0, Hply|].
  split.
  { cbn [fmap list_fmap]. rewrite fmap_app. cbn [fmap list_fmap].
    rewrite !last_cons, last_snoc. by rewrite Hlast. }
  intros i Hi Hlk. rewrite Hlen.
  destruct i as [|[|i]]; [lia|lia|].
  change ((line_text <$> before ++ [last]) !! i = Some "end_header") in Hlk.
  rewrite fmap_app in Hlk.
  destruct (decide (i < length before)%nat) as [Hlt|Hge].
  - rewrite lookup_app_l in Hlk by (by rewrite length_fmap).
    rewrite list_lookup_fmap in Hlk.
    destruct (before !! i) as [b|] eqn:Hb; [|done].
    rewrite Forall_lookup in Hbefore. specialize (Hbefore i b Hb).
    cbn in Hlk. congruence.
  - apply lookup_lt_Some in Hlk. rewrite length_app, length_fmap in Hlk.
    cbn in Hlk. lia.
Qed.

(** *** Words *)

Lemma all_chars_lstrip p q s :
  all_chars p s = true → all_chars p (lstrip q s) = true.
Proof.
  induction s as [|a r IH]; [done|]. cbn [lstrip].
  destruct (q a); [|done]. cbn [all_chars]. intros [_ Hr]%andb_prop. by apply IH.
Qed.

Lemma all_chars_rstrip p q s :
  all_chars p s = true → all_chars p (rstrip q s) = true.
Proof.
  induction s as [|a r IH]; [done|]. cbn [rstrip all_chars].
  intros [Ha Hr]%andb_prop. specialize (IH Hr).
  destruct (rstrip q r) as [|b r'].
  - destruct (q a); [done|]. cbn. by rewrite Ha.
  - cbn [all_chars] in *. by rewrite Ha, IH.
Qed.

Lemma all_chars_split p s :
  all_chars p s = true → Forall (λ t, all_chars p t = true) (split s).
Proof.
  induction s as [|a r IH]; [constructor|].
  cbn [all_chars]. intros [Ha Hr]%andb_prop. specialize (IH Hr).
  rewrite split_cons. destruct (is_space a); [done|].
  assert (all_chars p (String a EmptyString) = true) as Hone
    by (cbn; by rewrite Ha).
  destruct r as [|b r']; [by repeat constructor|].
  destruct (is_space b); [by constructor|].
  destruct (split (String b r')) as [|t ts]; [by repeat constructor|].
  inversion IH as [|? ? Ht Hts]; subst. constructor; [|done].
  cbn. by rewrite Ha, Ht.
Qed.

Lemma decode_ascii_ascii bs s : decode_ascii bs = Ok s → ascii_text s = true.
Proof.
  unfold ascii_text. revert s. induction bs as [|b r IH]; intros s; cbn [decode_ascii].
  - intros Heq. apply (inj inr) in Heq. by subst.
  - destruct (Z.ltb_spec (byte_val b) 128) as [Hb|]; [|done].
    destruct (decode_ascii r) as [|s']; [done|]. cbn [bind].
    intros Heq. apply (inj inr) in Heq. subst s. cbn [all_chars].
    rewrite (IH s' eq_refl), andb_true_r. apply Nat.ltb_lt.
    pose proof (byte_of_ascii_val (ascii_of_byte b)) as Hv.
    rewrite byte_of_ascii_of_byte in Hv. lia.
Qed.

(** The words of a header line. *)
Lemma line_words bline s :
  decode_ascii bline = Ok s →
  Forall (λ t, is_word t = true) (split (strip (rstrip is_crlf s))).
Proof.
  intros Hs%decode_ascii_ascii.
  pose proof (split_tokens (strip (rstrip is_crlf s))) as Htok.
  assert (Forall (λ t, ascii_text t = true) (split (strip (rstrip is_crlf s))))
    as Hascii.
  { apply all_chars_split. unfold strip.
    by apply all_chars_rstrip, all_chars_lstrip, all_chars_rstrip. }
  rewrite Forall_forall in *. intros t Ht. unfold is_word.
  by rewrite (Htok t Ht), (Hascii t Ht).
Qed.

Lemma header_iteration_words st bline st' :
  header_iteration st bline = Break st' ∨ header_iteration st bline = Continue st' →
  Forall (λ p, is_word p.1 = true ∧ is_word p.2 = true) (ps_props st) →
  Forall (λ p, is_word p.1 = true ∧ is_word p.2 = true) (ps_props st').
Proof.
  unfold header_iteration.
  destruct (decode_ascii bline) as [|s] eqn:Hs; [by intros [|]|].
  pose proof (line_words bline s Hs) as Hw.
  set (st1 := after_line st bline (rstrip is_crlf s)).
  change (ps_props st) with (ps_props st1).
  destruct (String.eqb _ "end_header").
  { intros [[= <-]|]; done. }
  destruct (split _) as [|p0 parts].
  { intros [|[= <-]]; done. }
  destruct (String.eqb p0 "element").
  { destruct parts as [|nm [|c [|? ?]]]; try by intros [|].
    destruct (py_int c); [by intros [|]|]. intros [|[= <-]]; done. }
  destruct (String.eqb p0 "property"); [|intros [|[= <-]]; done].
  destruct (ps_in_vertex _); [|intros [|[= <-]]; done].
  destruct parts as [|ty [|name [|m3 [|m4 more]]]]; try by intros [|].
  - intros [|[= <-]]; [done|]. intros Hst. cbn [add_property ps_props].
    apply Forall_app. split; [done|].
    inversion Hw as [|? ? _ H1]; subst. inversion H1 as [|? ? Hty H2]; subst.
    inversion H2 as [|? ? Hname _]; subst. by repeat constructor.
  - destruct (String.eqb ty "list"); by intros [|].
Qed.

Lemma header_loop_words ls st st' :
  header_loop ls st = Ok st' →
  Forall (λ p, is_word p.1 = true ∧ is_word p.2 = true) (ps_props st) →
  Forall (λ p, is_word p.1 = true ∧ is_word p.2 = true) (ps_props st').
Proof.
  revert st. induction ls as [|bline ls IH]; intros st; [done|].
  rewrite header_loop_iteration.
  pose proof (header_iteration_words st bline) as Hw.
  destruct (header_iteration st bline) as [st1|st1|e]; [| |done].
  - intros Heq. apply (inj inr) in Heq. subst. apply Hw. by left.
  - intros Hloop Hst. apply (IH _ Hloop), Hw; [by right|done].
Qed.

Lemma parse_props_words file h :
  parse_ply_header file = Ok h →
  Forall (λ p, is_word p.1 = true ∧ is_word p.2 = true) (vertex_properties h).
Proof.
  intros (first & fmt_line & ls & line0 & fmt_text & st & _ & _ & _ & _
          & _ & Hloop & _ & Hprops & _)%parse_ok_inv.
  rewrite Hprops. by apply (header_loop_words _ _ _ Hloop).
Qed.

(** X3.  Everything a parsed header names is a word: the format name, the
    version, and the type and the name of every vertex property are
    non-empty strings of ASCII characters without whitespace. *)
Theorem parsed_names_are_words (file : list byte) (h : PlyHeader) :
  parse_ply_header file = Ok h →
  is_word (format h) = true ∧ is_word (version h) = true
  ∧ Forall (λ p, is_word p.1 = true ∧ is_word p.2 = true) (vertex_properties h).
Proof.
  intros Hparse. pose proof (parse_props_words file h Hparse) as Hprops.
  destruct (parse_ok_inv file h Hparse)
    as (first & fmt_line & ls & line0 & fmt_text & st & _ & _ & _ & Hf
        & Hsplit & _).
  assert (Forall (λ t, is_word t = true) (split (strip fmt_text))) as Hw.
  { pose proof (split_tokens (strip fmt_text)) as Htok.
    assert (Forall (λ t, ascii_text t = true) (split (strip fmt_text))) as Hascii.
    { apply all_chars_split. unfold strip.
      apply all_chars_rstrip, all_chars_lstrip. by eapply decode_ascii_ascii. }
    rewrite Forall_forall in *. intros t Ht. unfold is_word.
    by rewrite (Htok t Ht), (Hascii t Ht). }
  rewrite Hsplit in Hw.
  inversion Hw as [|? ? _ H1]; subst. inversion H1 as [|? ? Hfmt H2]; subst.
  by inversion H2 as [|? ? Hver _]; subst.
Qed.

End HeaderLayout.

Section HeaderLayoutExamples.

#[local] Existing Instance reference.

Lemma header_does_not_depend_on_body_witness :
  parse_ply_header (take 98 sample_dup ++ [x01; x02; x03]) = Ok sample_dup_header.
Proof.
  apply (header_does_not_depend_on_body sample_dup sample_dup_header [x01; x02; x03]).
  - vm_compute. reflexivity.
  - vm_compute. lia.
Defined.

Lemma header_lines_are_the_header_witness :
  last (strip <$> header_lines sample_dup_header) = Some "end_header".
Proof.
  destruct (header_lines_are_the_header sample_dup sample_dup_header)
    as (_ & _ & _ & _ & _ & H & _).
  - vm_compute. reflexivity.
  - exact H.
Defined.

Lemma parsed_names_are_words_witness :
  is_word (format sample_dup_header) = true.
Proof.
  destruct (parsed_names_are_words sample_dup sample_dup_header) as (H & _).
  - vm_compute. reflexivity.
  - exact H.
Defined.

End HeaderLayoutExamples.

(** *** Stripping *)

Section PassedOver.

Context {platform : Platform}.

Lemma rstrip_rstrip (p q : ascii → bool) s :
  (∀ a, q a = true → p a = true) → rstrip p (rstrip q s) = rstrip p s.
Proof.
  intros Hqp. induction s as [|a r IH]; [done|]. cbn [rstrip].
  destruct (rstrip q r) as [|b r'] eqn:Hr.
  - cbn [rstrip] in IH. rewrite <- IH.
    destruct (q a) eqn:Hq; [by rewrite (Hqp a Hq)|done].
  - change (rstrip p (String a (String b r')))
      with (match rstrip p (String b r') with
            | EmptyString => if p a then EmptyString else String a EmptyString
            | r'' => String a r''
            end).
    by rewrite IH.
Qed.

Lemma lstrip_rstrip (p q : ascii → bool) s :
  (∀ a, q a = true → p a = true) → lstrip p (rstrip q s) = rstrip q (lstrip p s).
Proof.
  intros Hqp. induction s as [|a r IH]; [done|]. cbn [rstrip lstrip].
  destruct (p a) eqn:Hp.
  - rewrite <- IH. destruct (rstrip q r) as [|b r'].
    + destruct (q a); [done|]. cbn [lstrip]. by rewrite Hp.
    + cbn [lstrip]. by rewrite Hp.
  - assert (q a = false) as Hq.
    { destruct (q a) eqn:Hq; [|done]. by rewrite (Hqp a Hq) in Hp. }
    cbn [rstrip]. rewrite Hq.
    destruct (rstrip q r) as [|b r']; cbn [lstrip]; by rewrite Hp.
Qed.

Lemma strip_rstrip_crlf s : strip (rstrip is_crlf s) = strip s.
Proof.
  unfold strip. rewrite lstrip_rstrip by apply is_crlf_space.
  apply rstrip_rstrip, is_crlf_space.
Qed.

(** The text of a line given as a string. *)
Lemma line_text_bytes c :
  ascii_text c = true → line_text (line_bytes c) = strip c.
Proof.
  intros Hc. unfold line_text, line_bytes.
  rewrite decode_ascii_text.
  - by rewrite rstrip_newline, strip_rstrip_crlf.
  - unfold ascii_text in *. by rewrite all_chars_app, Hc.
Qed.

(** *** Lines the loop passes over *)

Lemma same_declarations_refl st : same_declarations st st.
Proof. done. Qed.

Lemma header_iteration_related st st' bline :
  same_declarations st st' →
  related_iterations (header_iteration st bline) (header_iteration st' bline).
Proof.
  intros (Hc & Hp & Hv). unfold header_iteration.
  destruct (decode_ascii bline) as [|s]; [done|].
  set (line := rstrip is_crlf s).
  assert (same_declarations (after_line st bline line) (after_line st' bline line))
    as Hsame by done.
  destruct (String.eqb _ "end_header"); [done|].
  destruct (split _) as [|p0 parts]; [done|].
  destruct (String.eqb p0 "element").
  { destruct parts as [|nm [|c [|? ?]]]; try done.
    destruct (py_int c) as [|k]; [done|].
    unfold related_iterations, same_declarations.
    cbn [enter_element after_line ps_count ps_props ps_in_vertex].
    by rewrite Hc, Hp. }
  destruct (String.eqb p0 "property"); [|done].
  cbn [after_line ps_in_vertex]. rewrite Hv.
  destruct (ps_in_vertex st') eqn:Hv'; [|done].
  destruct parts as [|ty [|name [|m3 [|m4 more]]]]; try done.
  - unfold related_iterations, same_declarations.
    cbn [add_property after_line ps_count ps_props ps_in_vertex].
    repeat split; congruence.
  - by destruct (String.eqb ty "list").
Qed.

Lemma header_loop_related ls st st' :
  same_declarations st st' →
  related_results (header_loop ls st) (header_loop ls st').
Proof.
  revert st st'. induction ls as [|bline ls IH]; intros st st' Hsame; [done|].
  rewrite !header_loop_iteration.
  pose proof (header_iteration_related st st' bline Hsame) as Hit.
  destruct (header_iteration st bline), (header_iteration st' bline); try done.
  by apply IH.
Qed.

Lemma header_iteration_passed_over st c :
  ascii_text c = true → passed_over c = true →
  ∃ st', header_iteration st (line_bytes c) = Continue st'
         ∧ same_declarations st st'.
Proof.
  intros Hc [Hend Hparts]%andb_prop.
  unfold header_iteration, line_bytes.
  rewrite decode_ascii_text
    by (unfold ascii_text in *; by rewrite all_chars_app, Hc).
  rewrite rstrip_newline, strip_rstrip_crlf by done.
  apply negb_true_iff in Hend. rewrite Hend.
  destruct (split (strip c)) as [|p0 parts]; [by eexists|].
  apply andb_prop in Hparts as [He Hp].
  apply negb_true_iff in He, Hp. rewrite He, Hp. by eexists.
Qed.

Lemma header_loop_insert used c rest st st' :
  ascii_text c = true → passed_over c = true →
  same_declarations st st' →
  related_results (header_loop (used ++ rest) st)
                  (header_loop (used ++ line_bytes c :: rest) st').
Proof.
  intros Hc Hpass. revert st st'.
  induction used as [|bline used IH]; intros st st' Hsame; cbn [app].
  - rewrite (header_loop_iteration (line_bytes c)).
    destruct (header_iteration_passed_over st' c Hc Hpass) as (st1 & -> & Hst1).
    apply header_loop_related.
    destruct Hsame as (? & ? & ?), Hst1 as (? & ? & ?).
    repeat split; congruence.
  - rewrite !header_loop_iteration.
    pose proof (header_iteration_related st st' bline Hsame) as Hit.
    destruct (header_iteration st bline), (header_iteration st' bline); try done.
    by apply IH.
Qed.

(** X4.  Lines the parser passes over do not matter.  Adding, after any line
    from the format line on, a line that is blank or starts with a word other
    than [element] and [property] (a [comment] or [obj_info] line, say)
    changes neither whether the file parses, nor the exception, nor the
    format, version, vertex count and vertex properties of the header. *)
Theorem passed_over_lines_do_not_matter (ls : list string) (c : string)
    (rest : list byte) :
  (2 ≤ length ls)%nat →
  forallb no_newline ls = true →
  no_newline c = true → ascii_text c = true → passed_over c = true →
  match parse_ply_header (text_lines ls ++ rest),
        parse_ply_header (text_lines ls ++ line_bytes c ++ rest) with
  | inr h, inr h' =>
      format h' = format h ∧ version h' = version h
      ∧ vertex_count h' = vertex_count h
      ∧ vertex_properties h' = vertex_properties h
  | inl e, inl e' => e' = e
  | _, _ => False
  end.
Proof.
  intros Hlen Hls Hnl Hc Hpass.
  destruct ls as [|l0 [|l1 ls]]; [cbn in Hlen; lia|cbn in Hlen; lia|].
  unfold parse_ply_header, text_lines. rewrite join_lines_bytes.
  rewrite !(readlines_lines _ _ Hls), (readlines_line c rest Hnl).
  cbn [fmap list_fmap app].
  destruct (decode_ascii (line_bytes l0)) as [|line0]; [done|]. cbn [bind].
  destruct (negb _); [done|].
  destruct (decode_ascii (line_bytes l1)) as [|fmt_text]; [done|]. cbn [bind].
  destruct (split (strip fmt_text)) as [|kw [|fmt [|ver [|? ?]]]]; try done.
  destruct (negb _); [done|].
  fold (initial_pstate (line_bytes l0) (line_bytes l1) line0 fmt_text).
  pose proof (header_loop_insert (line_bytes <$> ls) c (readlines rest) _ _ Hc Hpass
                (same_declarations_refl
                   (initial_pstate (line_bytes l0) (line_bytes l1) line0 fmt_text)))
    as Hrel.
  destruct (header_loop (_ ++ readlines rest) _) as [e|st],
           (header_loop (_ ++ line_bytes c :: readlines rest) _) as [e'|st'];
    try done; cbn [bind].
  destruct Hrel as (Hcount & Hprops & _). rewrite <- Hcount.
  destruct (ps_count st); [|done]. cbn. by rewrite Hprops.
Qed.

End PassedOver.

Section PassedOverExamples.

#[local] Existing Instance reference.

Lemma passed_over_lines_do_not_matter_witness :
  match parse_ply_header
          (text_lines ["ply"; "format ascii 1.0"; "element vertex 1"]
           ++ text_lines ["property float x"; "end_header"]),
        parse_ply_header
          (text_lines ["ply"; "format ascii 1.0"; "element vertex 1"]
           ++ line_bytes "comment property list"
           ++ text_lines ["property float x"; "end_header"]) with
  | inr h, inr h' =>
      format h' = format h ∧ version h' = version h
      ∧ vertex_count h' = vertex_count h
      ∧ vertex_properties h' = vertex_properties h
  | inl e, inl e' => e' = e
  | _, _ => False
  end.
Proof.
  apply (passed_over_lines_do_not_matter
           ["ply"; "format ascii 1.0"; "element vertex 1"]
           "comment property list"
           (text_lines ["property float x"; "end_header"]));
    [cbn; lia|reflexivity..].
Defined.

End PassedOverExamples.

(** *** Other elements *)

Section OtherElementLines.

Context {platform : Platform}.

Lemma header_iteration_text st c :
  ascii_text c = true →
  header_iteration st (line_bytes c)
  = let st1 := after_line st (line_bytes c)
                 (rstrip is_crlf (c +:+ String "010" EmptyString)) in
    if String.eqb (strip c) "end_header" then Break st1
    else
      match split (strip c) with
      | [] => Continue st1
      | p0 :: _ =>
          if String.eqb p0 "element" then
            match split (strip c) with
            | [_; elem_name; count] =>
                match py_int count with
                | inl e => Raise e
                | inr elem_count => Continue (enter_element st1 elem_name elem_count)
                end
            | _ => Raise ValueError_element_line
            end
          else if String.eqb p0 "property" then
            if ps_in_vertex st then
              match split (strip c) with
              | [_; p_type; p_name] => Continue (add_property st1 p_type p_name)
              | _ :: p1 :: _ :: _ :: _ :: _ =>
                  if String.eqb p1 "list" then Raise ValueError_list_property
                  else Raise ValueError_property_line
              | _ => Raise ValueError_property_line
              end
            else Continue st1
          else Continue st1
      end.
Proof.
  intros Hc. unfold header_iteration, line_bytes.
  rewrite decode_ascii_text
    by (unfold ascii_text in *; by rewrite all_chars_app, Hc).
  by rewrite rstrip_newline, strip_rstrip_crlf.
Qed.

Lemma header_iteration_inside st c :
  ps_in_vertex st = false → ascii_text c = true → inside_element c = true →
  ∃ st', header_iteration st (line_bytes c) = Continue st'
         ∧ same_declarations st st'.
Proof.
  intros Hv Hc [Hend Hparts]%andb_prop.
  rewrite (header_iteration_text st c Hc). cbn zeta.
  apply negb_true_iff in Hend. rewrite Hend.
  destruct (split (strip c)) as [|p0 parts]; [by eexists|].
  apply negb_true_iff in Hparts. rewrite Hparts, Hv.
  destruct (String.eqb p0 "property"); by eexists.
Qed.

Lemma header_iteration_other_element st e name count k :
  ascii_text e = true →
  split (strip e) = ["element"; name; count] → name ≠ "vertex" →
  py_int count = Ok k →
  ∃ st', header_iteration st (line_bytes e) = Continue st'
         ∧ ps_in_vertex st' = false
         ∧ ps_count st' = ps_count st ∧ ps_props st' = ps_props st.
Proof.
  intros He Hsplit Hname Hcount.
  rewrite (header_iteration_text st e He). cbn zeta.
  destruct (String.eqb_spec (strip e) "end_header") as [Heq|_].
  { rewrite Heq in Hsplit. discriminate Hsplit. }
  rewrite Hsplit. cbn [String.eqb Ascii.eqb Bool.eqb]. rewrite Hcount.
  eexists. split; [done|]. cbn [enter_element ps_in_vertex ps_count ps_props after_line].
  by destruct (String.eqb_spec name "vertex").
Qed.

Lemma header_loop_insert_inside others c rest st st' :
  same_declarations st st' → ps_in_vertex st = false →
  forallb ascii_text (others ++ [c]) = true →
  forallb inside_element (others ++ [c]) = true →
  related_results
    (header_loop ((line_bytes <$> others) ++ rest) st)
    (header_loop ((line_bytes <$> others) ++ line_bytes c :: rest) st').
Proof.
  revert st st'. induction others as [|o others IH]; intros st st' Hsame Hv;
    cbn [app fmap list_fmap forallb]; intros Hascii Hinside.
  - rewrite andb_true_r in Hascii, Hinside.
    rewrite (header_loop_iteration (line_bytes c)).
    destruct (header_iteration_inside st' c) as (st1 & -> & Hst1);
      [destruct Hsame as (_ & _ & <-); done|done..|].
    apply header_loop_related.
    destruct Hsame as (? & ? & ?), Hst1 as (? & ? & ?). repeat split; congruence.
  - apply andb_prop in Hascii as [Ho Hascii], Hinside as [Hio Hinside].
    rewrite !header_loop_iteration.
    destruct (header_iteration_inside st o Hv Ho Hio) as (st1 & -> & Hst1).
    destruct (header_iteration_inside st' o) as (st1' & -> & Hst1');
      [destruct Hsame as (_ & _ & <-); done|done..|].
    apply IH; [|destruct Hst1 as (_ & _ & <-); done|done..].
    destruct Hsame as (? & ? & ?), Hst1 as (? & ? & ?), Hst1' as (? & ? & ?).
    repeat split; congruence.
Qed.

Lemma header_loop_insert_other_element used e name count k others c rest st st' :
  same_declarations st st' →
  ascii_text e = true →
  split (strip e) = ["element"; name; count] → name ≠ "vertex" →
  py_int count = Ok k →
  forallb ascii_text (others ++ [c]) = true →
  forallb inside_element (others ++ [c]) = true →
  related_results
    (header_loop (used ++ line_bytes e :: (line_bytes <$> others) ++ rest) st)
    (header_loop (used ++ line_bytes e :: (line_bytes <$> others)
                    ++ line_bytes c :: rest) st').
Proof.
  intros Hsame He Hsplit Hname Hcount Hascii Hinside. revert st st' Hsame.
  induction used as [|bline used IH]; intros st st' Hsame; cbn [app].
  - rewrite !(header_loop_iteration (line_bytes e)).
    destruct (header_iteration_other_element st e name count k He Hsplit Hname Hcount)
      as (st1 & -> & Hv & Hc & Hp).
    destruct (header_iteration_other_element st' e name count k He Hsplit Hname Hcount)
      as (st1' & -> & Hv' & Hc' & Hp').
    apply header_loop_insert_inside; [|done..].
    destruct Hsame as (? & ? & ?). repeat split; congruence.
  - rewrite !header_loop_iteration.
    pose proof (header_iteration_related st st' bline Hsame) as Hit.
    destruct (header_iteration st bline), (header_iteration st' bline); try done.
    by apply IH.
Qed.

(** X5.  What is declared for another element is passed over.  After the line
    that opens an element other than [vertex], and until the next [element]
    line, a line of any shape can be added -- a list property, a property
    line with too few or too many words -- without changing whether the file
    parses, the exception, or the format, version, vertex count and vertex
    properties of the header. *)
Theorem other_elements_are_passed_over (ls others : list string)
    (e name count c : string) (k : Z) (rest : list byte) :
  (2 ≤ length ls)%nat →
  forallb no_newline (ls ++ e :: others) = true → no_newline c = true →
  forallb ascii_text (e :: others ++ [c]) = true →
  split (strip e) = ["element"; name; count] → name ≠ "vertex" →
  py_int count = Ok k →
  forallb inside_element (others ++ [c]) = true →
  match parse_ply_header (text_lines (ls ++ e :: others) ++ rest),
        parse_ply_header (text_lines (ls ++ e :: others) ++ line_bytes c ++ rest) with
  | inr h, inr h' =>
      format h' = format h ∧ version h' = version h
      ∧ vertex_count h' = vertex_count h
      ∧ vertex_properties h' = vertex_properties h
  | inl err, inl err' => err' = err
  | _, _ => False
  end.
Proof.
  intros Hlen Hls Hnl Hascii Hsplit Hname Hcount Hinside.
  destruct ls as [|l0 [|l1 ls]]; [cbn in Hlen; lia|cbn in Hlen; lia|].
  cbn [forallb] in Hascii. apply andb_prop in Hascii as [He Hascii].
  unfold parse_ply_header, text_lines. rewrite join_lines_bytes.
  rewrite !(readlines_lines _ _ Hls), (readlines_line c rest Hnl).
  cbn [fmap list_fmap app].
  destruct (decode_ascii (line_bytes l0)) as [|line0]; [done|]. cbn [bind].
  destruct (negb _); [done|].
  destruct (decode_ascii (line_bytes l1)) as [|fmt_text]; [done|]. cbn [bind].
  destruct (split (strip fmt_text)) as [|kw [|fmt [|ver [|? ?]]]]; try done.
  destruct (negb _); [done|].
  fold (initial_pstate (line_bytes l0) (line_bytes l1) line0 fmt_text).
  rewrite fmap_app, <- !app_assoc. cbn [fmap list_fmap app].
  pose proof (header_loop_insert_other_element (line_bytes <$> ls) e name count k
                others c (readlines rest) _ _
                (same_declarations_refl
                   (initial_pstate (line_bytes l0) (line_bytes l1) line0 fmt_text))
                He Hsplit Hname Hcount Hascii Hinside) as Hrel.
  destruct (header_loop (_ ++ _ :: _ ++ readlines rest) _) as [err|st],
           (header_loop (_ ++ _ :: _ ++ line_bytes c :: readlines rest) _)
             as [err'|st'];
    try done; cbn [bind].
  destruct Hrel as (Hc & Hprops & _). rewrite <- Hc.
  destruct (ps_count st); [|done]. cbn. by rewrite Hprops.
Qed.

End OtherElementLines.

Section OtherElementLinesExamples.

#[local] Existing Instance reference.

Lemma other_elements_are_passed_over_witness :
  match parse_ply_header
          (text_lines ["ply"; "format ascii 1.0"; "element vertex 1";
                       "property float x"; "element face 2"]
           ++ text_lines ["end_header"]),
        parse_ply_header
          (text_lines ["ply"; "format ascii 1.0"; "element vertex 1";
                       "property float x"; "element face 2"]
           ++ line_bytes "property list uchar int vertex_indices"
           ++ text_lines ["end_header"]) with
  | inr h, inr h' =>
      format h' = format h ∧ version h' = version h
      ∧ vertex_count h' = vertex_count h
      ∧ vertex_properties h' = vertex_properties h
  | inl err, inl err' => err' = err
  | _, _ => False
  end.
Proof.
  apply (other_elements_are_passed_over
           ["ply"; "format ascii 1.0"; "element vertex 1"; "property float x"]
           [] "element face 2" "face" "2"
           "property list uchar int vertex_indices" 2
           (text_lines ["end_header"]));
    [cbn; lia|reflexivity|reflexivity|reflexivity|reflexivity|discriminate
    |reflexivity|reflexivity].
Defined.

End OtherElementLinesExamples.

(** *** Headers that declare the vertex element first *)

Section VertexFirst.

Context {platform : Platform}.

Lemma strip_newline s : strip (s +:+ String "010" EmptyString) = strip s.
Proof.
  rewrite <- (strip_rstrip_crlf (s +:+ _)), rstrip_newline by done.
  apply strip_rstrip_crlf.
Qed.

Lemma opens_other_element_inv e :
  opens_other_element e = true →
  ∃ name count k, split (strip e) = ["element"; name; count]
                  ∧ name ≠ "vertex" ∧ py_int count = Ok k.
Proof.
  unfold opens_other_element.
  destruct (split (strip e)) as [|kw [|name [|count [|? ?]]]]; try done.
  intros [[Hkw Hname]%andb_prop Hcount]%andb_prop.
  apply String.eqb_eq in Hkw as ->. apply negb_true_iff in Hname.
  apply String.eqb_neq in Hname.
  destruct (py_int count) as [|k] eqn:Hk; [done|]. by exists name, count, k.
Qed.

Lemma header_iteration_pos st bline st' :
  header_iteration st bline = Continue st' →
  ps_pos st' = ps_pos st + Z.of_nat (length bline).
Proof.
  intros H. destruct (header_iteration_state st bline st') as (_ & _ & Hpos & _);
    [by right|done].
Qed.

(** Lines that leave the declarations as they are: those the loop passes
    over anywhere, and, outside the vertex element, everything up to the
    next [element vertex] line. *)
Lemma header_loop_skip ls rest st :
  Forall (λ l, ascii_text l = true
               ∧ (passed_over l = true
                  ∨ (ps_in_vertex st = false
                     ∧ (inside_element l = true ∨ opens_other_element l = true))))
         ls →
  ∃ st', header_loop ((line_bytes <$> ls) ++ rest) st = header_loop rest st'
         ∧ same_declarations st st'
         ∧ ps_pos st' = ps_pos st + Z.of_nat (length (concat (line_bytes <$> ls))).
Proof.
  revert st. induction ls as [|l ls IH]; intros st Hall.
  { exists st. cbn. split; [done|]. split; [done|lia]. }
  inversion Hall as [|? ? [Hl Hcase] Hrest]; subst.
  assert (∃ st1, header_iteration st (line_bytes l) = Continue st1
                 ∧ same_declarations st st1) as (st1 & Hit & Hsame).
  { destruct Hcase as [Hp|[Hv [Hi|Ho]]].
    - by apply header_iteration_passed_over.
    - by apply header_iteration_inside.
    - destruct (opens_other_element_inv l Ho) as (name & count & k & Hs & Hn & Hk).
      destruct (header_iteration_other_element st l name count k Hl Hs Hn Hk)
        as (st1 & Hit & Hv1 & Hc1 & Hp1).
      exists st1. split; [done|]. repeat split; congruence. }
  destruct (IH st1) as (st' & Hloop & Hsame' & Hpos).
  { eapply Forall_impl; [exact Hrest|]. intros x [Hx Hc]. split; [done|].
    destruct Hsame as (_ & _ & <-). exact Hc. }
  exists st'. cbn [fmap list_fmap app concat].
  rewrite header_loop_iteration, Hit. split; [done|]. split.
  - destruct Hsame as (? & ? & ?), Hsame' as (? & ? & ?). repeat split; congruence.
  - rewrite Hpos, (header_iteration_pos _ _ _ Hit), length_app. lia.
Qed.

Lemma header_loop_vertex_properties plines schema rest st :
  ps_in_vertex st = true →
  Forall (λ l, ascii_text l = true) plines →
  Forall2 (λ l p, split (strip l) = ["property"; p.1; p.2]) plines schema →
  ∃ st', header_loop ((line_bytes <$> plines) ++ rest) st = header_loop rest st'
         ∧ ps_count st' = ps_count st
         ∧ ps_props st' = ps_props st ++ schema
         ∧ ps_in_vertex st' = true
         ∧ ps_pos st' = ps_pos st + Z.of_nat (length (concat (line_bytes <$> plines))).
Proof.
  intros Hv Hascii H2. revert st Hv Hascii.
  induction H2 as [|l [ty name] plines schema Hl _ IH]; intros st Hv Hascii.
  { exists st. cbn. rewrite app_nil_r. repeat split; [done..|lia]. }
  inversion Hascii as [|? ? Ha Hrest]; subst. cbn [fst snd] in Hl.
  assert (header_iteration st (line_bytes l)
          = Continue (add_property
                        (after_line st (line_bytes l)
                           (rstrip is_crlf (l +:+ String "010" EmptyString)))
                        ty name)) as Hit.
  { rewrite (header_iteration_text st l Ha). cbn zeta.
    destruct (String.eqb_spec (strip l) "end_header") as [Heq|_].
    { rewrite Heq in Hl. discriminate Hl. }
    rewrite Hl. cbn [String.eqb Ascii.eqb Bool.eqb]. by rewrite Hv. }
  destruct (IH (add_property
                  (after_line st (line_bytes l)
                     (rstrip is_crlf (l +:+ String "010" EmptyString)))
                  ty name) Hv Hrest) as (st' & Hloop & Hc & Hp & Hv' & Hpos).
  cbn [add_property after_line ps_count ps_props ps_pos] in Hc, Hp, Hpos.
  exists st'. cbn [fmap list_fmap app concat].
  rewrite header_loop_iteration, Hit. split; [done|].
  split; [done|]. split; [by rewrite Hp, <- app_assoc|].
  split; [done|]. rewrite Hpos, length_app. lia.
Qed.

(** X6.  The parser on a header that declares the vertex element first.  For a
    file whose lines are the [ply] line, the format line, lines the parser
    passes over, the [element vertex] line with its count, one line
    [property <type> <name>] for each property of a schema, then nothing or
    the declarations of other elements, and [end_header], the parser returns
    the format name and version of the format line, that count, that schema
    (types and names as written, known to the registry or not), and the
    offset of the first byte after the [end_header] line. *)
Theorem vertex_first_header_parses (first fline ev last fmt ver count : string)
    (n : Z) (pre plines post : list string) (schema : list (string * string))
    (body : list byte) :
  let lines := [first; fline] ++ pre ++ [ev] ++ plines ++ post ++ [last] in
  forallb no_newline lines = true →
  forallb ascii_text lines = true →
  strip first = "ply" →
  split (strip fline) = ["format"; fmt; ver] →
  forallb passed_over pre = true →
  split (strip ev) = ["element"; "vertex"; count] →
  py_int count = Ok n →
  Forall2 (λ l p, split (strip l) = ["property"; p.1; p.2]) plines schema →
  other_elements post = true →
  strip last = "end_header" →
  ∃ h, parse_ply_header (text_lines lines ++ body) = Ok h
       ∧ format h = fmt ∧ version h = ver
       ∧ vertex_count h = n ∧ vertex_properties h = schema
       ∧ data_start_offset h = Z.of_nat (length (text_lines lines)).
Proof.
  intros lines Hnl Hascii Hfirst Hfline Hpre Hev Hcount Hprops Hpost Hlast.
  assert (Forall (λ l, ascii_text l = true) lines) as Hall.
  { apply Forall_forall. intros l Hl. rewrite forallb_forall in Hascii.
    by apply Hascii, list_elem_of_In. }
  unfold lines in Hall. cbn [app] in Hall.
  inversion Hall as [|? ? Ha0 Hall1]; subst.
  inversion Hall1 as [|? ? Ha1 Hall2]; subst.
  apply Forall_app in Hall2 as [Hapre Hall3].
  inversion Hall3 as [|? ? Haev Hall4]; subst.
  apply Forall_app in Hall4 as [Haprops Hall5].
  apply Forall_app in Hall5 as [Hapost Halast].
  inversion Halast as [|? ? Halast' _]; subst.
  assert (∀ l, ascii_text l = true →
               decode_ascii (line_bytes l) = Ok (l +:+ String "010" EmptyString))
    as Hdec.
  { intros l Hl. unfold line_bytes. apply decode_ascii_text.
    unfold ascii_text in *. by rewrite all_chars_app, Hl. }
  set (st0 := initial_pstate (line_bytes first) (line_bytes fline)
                (first +:+ String "010" EmptyString)
                (fline +:+ String "010" EmptyString)).
  set (R := readlines body).
  destruct (header_loop_skip pre
              ((line_bytes <$> [ev] ++ plines ++ post ++ [last]) ++ R) st0)
    as (st1 & Hloop1 & (Hc1 & Hp1 & Hv1) & Hpos1).
  { rewrite forallb_forall in Hpre. rewrite Forall_forall in Hapre.
    apply Forall_forall. intros l Hl. split; [by apply Hapre|left].
    by apply Hpre, list_elem_of_In. }
  set (st2 := enter_element
                (after_line st1 (line_bytes ev)
                   (rstrip is_crlf (ev +:+ String "010" EmptyString)))
                "vertex" n).
  assert (header_iteration st1 (line_bytes ev) = Continue st2) as Hit2.
  { rewrite (header_iteration_text st1 ev Haev). cbn zeta.
    destruct (String.eqb_spec (strip ev) "end_header") as [Heq|_].
    { rewrite Heq in Hev. discriminate Hev. }
    rewrite Hev. cbn [String.eqb Ascii.eqb Bool.eqb]. by rewrite Hcount. }
  destruct (header_loop_vertex_properties plines schema
              ((line_bytes <$> post ++ [last]) ++ R) st2 eq_refl Haprops Hprops)
    as (st3 & Hloop3 & Hc3 & Hp3 & Hv3 & Hpos3).
  assert (∃ st4, header_loop ((line_bytes <$> post ++ [last]) ++ R) st3
                 = header_loop (line_bytes last :: R) st4
                 ∧ ps_count st4 = ps_count st3 ∧ ps_props st4 = ps_props st3
                 ∧ ps_pos st4
                   = ps_pos st3 + Z.of_nat (length (concat (line_bytes <$> post))))
    as (st4 & Hloop4 & Hc4 & Hp4 & Hpos4).
  { destruct post as [|e others].
    { exists st3. cbn. repeat split; [done..|lia]. }
    cbn [other_elements] in Hpost. apply andb_prop in Hpost as [He Hothers].
    inversion Hapost as [|? ? Hae Haothers]; subst.
    destruct (opens_other_element_inv e He) as (name & cnt & k & Hs & Hn & Hk).
    destruct (header_iteration_other_element st3 e name cnt k Hae Hs Hn Hk)
      as (st3' & Hit & Hv' & Hc' & Hp').
    destruct (header_loop_skip others (line_bytes last :: R) st3')
      as (st4 & Hloop & (Hc4 & Hp4 & _) & Hpos4).
    { rewrite forallb_forall in Hothers. rewrite Forall_forall in Haothers.
      apply Forall_forall. intros l Hl. split; [by apply Haothers|right].
      split; [done|].
      specialize (Hothers l (proj1 (list_elem_of_In _ _) Hl)).
      apply orb_prop in Hothers as [?|?]; auto. }
    exists st4. cbn [app fmap list_fmap concat].
    rewrite header_loop_iteration, Hit, fmap_app, <- app_assoc.
    cbn [fmap list_fmap app].
    split; [done|]. split; [congruence|]. split; [congruence|].
    rewrite Hpos4, (header_iteration_pos _ _ _ Hit), length_app. lia. }
  set (st5 := after_line st4 (line_bytes last)
                (rstrip is_crlf (last +:+ String "010" EmptyString))).
  assert (header_loop (line_bytes last :: R) st4 = Ok st5) as Hloop5.
  { rewrite header_loop_iteration, (header_iteration_text st4 last Halast').
    cbn zeta. by rewrite Hlast. }
  exists {| format := fmt; version := ver; vertex_count := n;
            vertex_properties := ps_props st5; header_lines := ps_lines st5;
            data_start_offset := ps_pos st5 |}.
  split.
  - eapply (parse_ok_intro _ (line_bytes first) (line_bytes fline)
              ((line_bytes <$> pre ++ [ev] ++ plines ++ post ++ [last]) ++ R)).
    + unfold text_lines. rewrite join_lines_bytes.
      by rewrite (readlines_lines _ _ Hnl).
    + by apply Hdec.
    + by rewrite rstrip_newline, strip_rstrip_crlf.
    + by apply Hdec.
    + by rewrite strip_newline.
    + fold st0. rewrite fmap_app, <- app_assoc, Hloop1. cbn [app fmap list_fmap].
      rewrite header_loop_iteration, Hit2.
      rewrite fmap_app, <- app_assoc, Hloop3, Hloop4. exact Hloop5.
    + unfold st5. cbn [after_line ps_count]. rewrite Hc4, Hc3.
      unfold st2. by cbn [enter_element ps_count String.eqb Ascii.eqb Bool.eqb].
  - cbn [format version vertex_count vertex_properties data_start_offset].
    do 3 (split; [done|]). split.
    + unfold st5. cbn [after_line ps_props]. rewrite Hp4, Hp3.
      unfold st2. cbn [enter_element after_line ps_props]. by rewrite <- Hp1.
    + unfold st5. cbn [after_line ps_pos]. rewrite Hpos4, Hpos3.
      unfold st2. cbn [enter_element after_line ps_pos]. rewrite Hpos1.
      unfold st0. cbn [initial_pstate ps_pos].
      unfold text_lines, lines. rewrite join_lines_bytes.
      rewrite !fmap_app, !concat_app. cbn [fmap list_fmap concat].
      rewrite !length_app. cbn [length]. lia.
Qed.

End VertexFirst.

Section VertexFirstExamples.

#[local] Existing Instance reference.

Lemma vertex_first_header_parses_witness :
  ∃ h, parse_ply_header
         (text_lines (["ply"; "format binary_little_endian 1.0"]
                      ++ ["comment made by hand"; ""]
                      ++ ["element vertex 3"]
                      ++ ["property float x"; "property half y"]
                      ++ ["element face 1";
                          "property list uchar int vertex_indices"]
                      ++ ["end_header"])
          ++ [x01])
       = Ok h
       ∧ format h = "binary_little_endian" ∧ version h = "1.0"
       ∧ vertex_count h = 3
       ∧ vertex_properties h = [("float", "x"); ("half", "y")].
Proof.
  destruct (vertex_first_header_parses "ply" "format binary_little_endian 1.0"
              "element vertex 3" "end_header" "binary_little_endian" "1.0" "3" 3
              ["comment made by hand"; ""]
              ["property float x"; "property half y"]
              ["element face 1"; "property list uchar int vertex_indices"]
              [("float", "x"); ("half", "y")] [x01])
    as (h & Hh & Hf & Hver & Hn & Hp & _); try reflexivity.
  - repeat constructor.
  - by exists h.
Defined.

End VertexFirstExamples.

(** ** Claim about the format name *)

Section FormatName.

Context {platform : Platform}.

Lemma parse_minimal_header fmt :
  is_token fmt = true → ascii_text fmt = true →
  ∃ header, parse_ply_header (text_lines (minimal_header fmt)) = Ok header
            ∧ format header = fmt.
Proof.
  intros Htok Hascii. set (l2 := "format " +:+ fmt +:+ " 1.0").
  assert (l2 = ("format " +:+ fmt +:+ " ") +:+ "1.0") as Hl2
    by (unfold l2; by rewrite !append_assoc).
  assert (readlines (text_lines (minimal_header fmt))
          = [line_bytes "ply"; line_bytes l2; line_bytes "element vertex 0";
             line_bytes "end_header"]) as Hlines.
  { unfold text_lines. rewrite join_lines_bytes.
    rewrite <- (app_nil_r (concat _)), readlines_lines; [done|].
    unfold minimal_header. cbn [forallb]. fold l2.
    unfold no_newline at 2. unfold l2. rewrite !all_chars_app.
    fold (no_newline fmt). by rewrite (token_no_newline _ Htok). }
  unfold parse_ply_header. rewrite Hlines.
  assert (decode_ascii (line_bytes "ply") = Ok ("ply" +:+ String "010" EmptyString))
    as -> by reflexivity.
  cbn [bind].
  assert (negb (String.eqb (strip (rstrip is_crlf ("ply" +:+ String "010" EmptyString)))
                  "ply") = false) as -> by reflexivity.
  assert (ascii_text (l2 +:+ String "010" EmptyString) = true) as Hasc2.
  { unfold l2, ascii_text in *. by rewrite !all_chars_app, Hascii. }
  unfold line_bytes at 1. rewrite (decode_ascii_text _ Hasc2). cbn [bind].
  destruct (line_rstrip ("format " +:+ fmt +:+ " ") "1.0" eq_refl) as [Hr1 Hr2].
  rewrite <- Hl2 in Hr1, Hr2.
  assert (strip (l2 +:+ String "010" EmptyString) = l2) as ->.
  { unfold strip.
    replace (lstrip is_space (l2 +:+ String "010" EmptyString))
      with (l2 +:+ String "010" EmptyString) by (unfold l2; by rewrite !app_cons).
    by rewrite rstrip_newline. }
  assert (split l2 = ["format"; fmt; "1.0"]) as ->.
  { unfold l2.
    change (split ("format" +:+ String " " (fmt +:+ String " " "1.0"))
            = ["format"; fmt; "1.0"]).
    rewrite (split_word "format" " ") by done.
    by rewrite (split_word fmt " "). }
  cbn [String.eqb Ascii.eqb Bool.eqb negb]. rewrite Hr1.
  eexists. split; [reflexivity|reflexivity].
Qed.

(** The parser with one format line and with another: the same outcome, up
    to the name and the version it records. *)
Lemma format_line_is_not_checked (first fline fline' fmt ver fmt' ver' : string)
    (rest : list byte) :
  no_newline first = true →
  no_newline fline = true → no_newline fline' = true →
  ascii_text fline = true → ascii_text fline' = true →
  split (strip fline) = ["format"; fmt; ver] →
  split (strip fline') = ["format"; fmt'; ver'] →
  match parse_ply_header (line_bytes first ++ line_bytes fline ++ rest),
        parse_ply_header (line_bytes first ++ line_bytes fline' ++ rest) with
  | inr h, inr h' =>
      format h = fmt ∧ version h = ver ∧ format h' = fmt' ∧ version h' = ver'
      ∧ vertex_count h' = vertex_count h
      ∧ vertex_properties h' = vertex_properties h
  | inl e, inl e' => e' = e
  | _, _ => False
  end.
Proof.
  intros Hn0 Hn1 Hn1' Ha1 Ha1' Hs Hs'.
  assert (∀ l, ascii_text l = true →
               decode_ascii (line_bytes l) = Ok (l +:+ String "010" EmptyString))
    as Hdec.
  { intros l Hl. unfold line_bytes. apply decode_ascii_text.
    unfold ascii_text in *. by rewrite all_chars_app, Hl. }
  unfold parse_ply_header.
  rewrite !(readlines_line first _ Hn0), (readlines_line fline rest Hn1),
    (readlines_line fline' rest Hn1').
  destruct (decode_ascii (line_bytes first)) as [|line0]; [done|]. cbn [bind].
  destruct (negb _); [done|].
  rewrite (Hdec _ Ha1), (Hdec _ Ha1'). cbn [bind].
  rewrite !strip_newline, Hs, Hs'.
  cbn [String.eqb Ascii.eqb Bool.eqb negb].
  match goal with
  | |- match (st <-! header_loop _ ?a; _) with _ => _ end =>
      match goal with
      | |- context [header_loop _ ?b] =>
          lazymatch b with
          | a => fail
          | _ =>
              pose proof (header_loop_related (readlines rest) a b
                            ltac:(by repeat split)) as Hrel;
              destruct (header_loop (readlines rest) a) as [e|st],
                       (header_loop (readlines rest) b) as [e'|st']
          end
      end
  end; cbn [bind related_results] in Hrel |- *; try done.
  destruct Hrel as (Hcount & Hprops & _). rewrite <- Hcount.
  destruct (ps_count st); [|done]. cbn. by rewrite Hprops.
Qed.

(** C6 (as amended).  The header parser does not look at the format name.
    A header with any token as format name parses, and the name is recorded
    as it stands; and in any file, a format line of three words that starts
    with [format] can be exchanged for any other such line without changing
    whether the file parses, the exception, the vertex count or the vertex
    properties -- the header records the name and the version of the line it
    was given.  The name is checked when the vertex table is read: for a
    header whose format is neither [binary_little_endian] nor
    [binary_big_endian] the reader raises its only-binary [ValueError],
    whatever the file holds. *)
Theorem format_checked_at_read_time (fmt : string) :
  is_token fmt = true → ascii_text fmt = true →
  (∃ header, parse_ply_header (text_lines (minimal_header fmt)) = Ok header
             ∧ format header = fmt)
  ∧ (∀ (first fline fline' ver fmt' ver' : string) (rest : list byte),
       no_newline first = true →
       no_newline fline = true → no_newline fline' = true →
       ascii_text fline = true → ascii_text fline' = true →
       split (strip fline) = ["format"; fmt; ver] →
       split (strip fline') = ["format"; fmt'; ver'] →
       match parse_ply_header (line_bytes first ++ line_bytes fline ++ rest),
             parse_ply_header (line_bytes first ++ line_bytes fline' ++ rest) with
       | inr h, inr h' =>
           format h = fmt ∧ version h = ver
           ∧ format h' = fmt' ∧ version h' = ver'
           ∧ vertex_count h' = vertex_count h
           ∧ vertex_properties h' = vertex_properties h
       | inl e, inl e' => e' = e
       | _, _ => False
       end)
  ∧ (fmt ≠ "binary_little_endian" → fmt ≠ "binary_big_endian" →
     ∀ junk file header, format header = fmt →
       read_vertex_table_binary junk file header = Err ValueError_only_binary).
Proof.
  intros Htok Hascii. split; [by apply parse_minimal_header|].
  split; [intros; by apply format_line_is_not_checked|].
  intros Hle Hbe junk file header <-. unfold read_vertex_table_binary.
  destruct (String.eqb_spec (format header) "binary_little_endian"); [done|].
  by destruct (String.eqb_spec (format header) "binary_big_endian").
Qed.

End FormatName.

Section FormatNameExamples.

#[local] Existing Instance reference.

Lemma format_checked_at_read_time_witness :
  (∃ header, parse_ply_header (text_lines (minimal_header "ascii")) = Ok header
             ∧ format header = "ascii")
  ∧ (∃ h, parse_ply_header sample_train = Ok h ∧ format h = "ascii"
          ∧ vertex_count h = 7
          ∧ vertex_properties h = [("float", "nx"); ("float", "x")])
  ∧ ∀ junk file header, format header = "ascii" →
      read_vertex_table_binary junk file header = Err ValueError_only_binary.
Proof.
  destruct (format_checked_at_read_time "ascii") as (Hparse & Hsame & Hread);
    [reflexivity|reflexivity|].
  split; [exact Hparse|]. split; [|apply Hread; discriminate].
  pose proof (Hsame "ply" "format ascii 1.0" "format binary_little_endian 1.0"
                "1.0" "binary_little_endian" "1.0"
                (text_lines ["element vertex 7"; "property float nx";
                             "property float x"; "end_header"])
                eq_refl eq_refl eq_refl eq_refl eq_refl eq_refl eq_refl) as H.
  change (line_bytes "ply" ++ line_bytes "format ascii 1.0" ++ _)
    with sample_train in H.
  destruct (parse_ply_header sample_train) as [e|h];
    destruct (parse_ply_header _) as [e'|h'] eqn:Hle in H;
    vm_compute in Hle; try discriminate; try done.
  injection Hle as <-. destruct H as (Hf & _ & _ & _ & Hn & Hp).
  exists h. by repeat split.
Defined.

(** C6, the claim as stated, fails: a header whose format name is [foo]
    parses. *)
Lemma unknown_format_parses :
  ∃ header, parse_ply_header sample_foo = Ok header ∧ format header = "foo".
Proof. eexists. split; [vm_compute; reflexivity|reflexivity]. Qed.

End FormatNameExamples.

(** ** The reader *)

Section ReaderProperties.

Context {platform : Platform}.

Lemma alloc_arrays_Ok_inv junk props n k acc arrays :
  alloc_arrays junk props n k acc = Ok arrays →
  (0 ≤ n ∨ props = [])
  ∧ ∀ j, (j < length props)%nat → numpy_alloc (k + j) n = Allocated.
Proof.
  revert k acc. induction props as [|[ty name] r IH]; intros k acc;
    cbn [alloc_arrays].
  - intros _. split; [by right|]. cbn. lia.
  - unfold np_empty. destruct (Z.ltb_spec n 0); [done|].
    destruct (numpy_alloc k n) eqn:Hk; [|done..]. cbn [bind].
    intros [_ Hroom]%IH. split; [by left|].
    intros [|j] Hj; [by rewrite Nat.add_0_r|].
    replace (k + S j)%nat with (S k + j)%nat by lia. apply Hroom. cbn in Hj. lia.
Qed.

(** Whether the allocation loop succeeds, and how it fails, does not depend
    on what the new arrays hold. *)
Lemma alloc_arrays_junk junk junk' props n k acc acc' :
  match alloc_arrays junk props n k acc, alloc_arrays junk' props n k acc' with
  | inl e, inl e' => e = e'
  | inr _, inr _ => True
  | _, _ => False
  end.
Proof.
  revert k acc acc'. induction props as [|[ty name] r IH]; intros k acc acc';
    cbn [alloc_arrays]; [done|].
  unfold np_empty. destruct (n <? 0); [done|].
  destruct (numpy_alloc k n); [|done..]. cbn [bind]. apply IH.
Qed.

Lemma read_rows_cases st props n k i rest arrays :
  if decide (Struct.size st * k ≤ length rest)%nat
  then ∃ t, read_rows st props n k i rest arrays = Ok t
  else read_rows st props n k i rest arrays
       = Err (EOFError_body (Z.of_nat (i + length rest / Struct.size st)) n).
Proof.
  case_decide; [by apply read_rows_total|apply read_rows_short; lia].
Qed.

Lemma reader_error_junk junk junk' file header e :
  read_vertex_table_binary junk file header = Err e →
  read_vertex_table_binary junk' file header = Err e.
Proof.
  unfold read_vertex_table_binary. destruct (negb _); [done|].
  destruct (_endian_for_format _) as [|endian]; [done|]. cbn [bind].
  destruct (_struct_for_vertex _ _) as [|st]; [done|]. cbn [bind].
  pose proof (alloc_arrays_junk junk junk' (vertex_properties header)
                (vertex_count header) 0 ∅ ∅) as Ha.
  destruct (alloc_arrays junk _ _ _ _) as [e1|arrays],
    (alloc_arrays junk' _ _ _ _) as [e1'|arrays']; try done;
    [by subst e1'|].
  cbn [bind]. destruct (seek _ _) as [|rest]; [done|]. cbn [bind].
  pose proof (read_rows_cases st (vertex_properties header) (vertex_count header)
                (Z.to_nat (vertex_count header)) 0 rest) as Hr.
  pose proof (Hr arrays) as H1. pose proof (Hr arrays') as H2.
  case_decide; [by destruct H1 as [t ->]|by rewrite H1, H2].
Qed.

(** The reader's result, table or exception, is the same whatever
    [numpy.empty] leaves in the arrays. *)
Lemma reader_junk_irrelevant (junk junk' : nat → nat → Z)
    (file : list byte) (header : PlyHeader) :
  read_vertex_table_binary junk file header
  = read_vertex_table_binary junk' file header.
Proof.
  destruct (read_vertex_table_binary junk file header) as [e|t] eqn:H1.
  { symmetry. by eapply reader_error_junk. }
  destruct (read_vertex_table_binary junk' file header) as [e|t'] eqn:H2.
  { eapply reader_error_junk in H2. by rewrite H1 in H2. }
  f_equal. apply map_eq. intros name.
  destruct (read_ok_inv _ _ _ _ H1) as (endian & st & _ & He & Hs & _).
  pose proof (reader_cells junk file header t endian st name H1 He Hs) as C1.
  pose proof (reader_cells junk' file header t' endian st name H2 He Hs) as C2.
  case_decide; [|congruence].
  destruct C1 as (col & -> & Hlen & Hcol), C2 as (col' & -> & Hlen' & Hcol').
  f_equal. apply list_eq. intros i.
  destruct (decide (i < Z.to_nat (vertex_count header))%nat) as [Hi|Hi].
  - by rewrite Hcol, Hcol'.
  - rewrite !(proj2 (lookup_ge_None _ _)); [done|lia|lia].
Qed.

(** X7.  The table the reader returns has one column for each property name of
    the header and no other, and every column has [vertex_count] entries. *)
Theorem reader_table_shape (junk : nat → nat → Z) (file : list byte)
    (header : PlyHeader) (t : table) :
  read_vertex_table_binary junk file header = Ok t →
  dom t = list_to_set (vertex_properties header).*2
  ∧ map_Forall (λ _ col, length col = Z.to_nat (vertex_count header)) t.
Proof.
  intros Hread.
  destruct (read_ok_inv _ _ _ _ Hread) as (endian & st & _ & He & Hs & _).
  split.
  - apply set_eq. intros name. rewrite elem_of_dom, elem_of_list_to_set.
    pose proof (reader_cells junk file header t endian st name Hread He Hs) as C.
    case_decide.
    + destruct C as (col & -> & _). by split.
    + rewrite C. split; [by intros [? ?]|done].
  - intros name col Hcol.
    pose proof (reader_cells junk file header t endian st name Hread He Hs) as C.
    case_decide; [|congruence].
    destruct C as (col' & Hcol' & Hlen & _). congruence.
Qed.

Lemma reader_succeeds_cond junk file header :
  (format header = "binary_little_endian" ∨ format header = "binary_big_endian") →
  (∃ cs, type_codes (vertex_properties header) = Ok cs) →
  (0 ≤ vertex_count header ∨ vertex_properties header = []) →
  room_for (vertex_properties header) (vertex_count header) →
  seekable file (data_start_offset header) = true →
  (record_stride (vertex_properties header) * Z.to_nat (vertex_count header)
   ≤ length file - Z.to_nat (data_start_offset header))%nat →
  ∃ t, read_vertex_table_binary junk file header = Ok t.
Proof.
  intros Hfmt [cs Hcs] Hn Hroom Hseek Hlen.
  unfold read_vertex_table_binary.
  assert (∃ le, _endian_for_format (format header) = Ok (if le : bool then "<" else ">")
                ∧ negb (String.eqb (format header) "binary_little_endian"
                        || String.eqb (format header) "binary_big_endian") = false)
    as (le & -> & ->).
  { destruct Hfmt as [-> | ->]; [by exists true|by exists false]. }
  cbn [bind].
  assert (∃ st, _struct_for_vertex (vertex_properties header)
                  (if le then "<" else ">") = Ok st
                ∧ Struct.size st = record_stride (vertex_properties header))
    as (st & -> & Hsize).
  { unfold record_stride. rewrite Hcs. destruct le.
    - rewrite struct_for_vertex_little, Hcs. by eexists.
    - rewrite struct_for_vertex_big, Hcs. by eexists. }
  cbn [bind].
  assert (∃ arrays, alloc_arrays junk (vertex_properties header)
                      (vertex_count header) 0 ∅ = Ok arrays) as [arrays ->].
  { destruct Hn as [Hn|Hnil]; [by apply alloc_arrays_ok|].
    rewrite Hnil. by eexists. }
  cbn [bind]. apply seekable_Ok in Hseek as [_ ->]. cbn [bind].
  apply read_rows_total. by rewrite Hsize, length_drop.
Qed.

Lemma reader_ok_cond junk file header t :
  read_vertex_table_binary junk file header = Ok t →
  (format header = "binary_little_endian" ∨ format header = "binary_big_endian")
  ∧ (∃ cs, type_codes (vertex_properties header) = Ok cs)
  ∧ (0 ≤ vertex_count header ∨ vertex_properties header = [])
  ∧ 0 ≤ data_start_offset header
  ∧ (record_stride (vertex_properties header) * Z.to_nat (vertex_count header)
     ≤ length file - Z.to_nat (data_start_offset header))%nat.
Proof.
  intros Hread.
  destruct (read_ok_inv _ _ _ _ Hread)
    as (endian & st & arrays & He & Hs & Ha & Hoff & _ & Hlen).
  destruct (struct_for_vertex_inv _ _ _ _ He Hs) as (Hcs & _ & Hsize).
  split; [apply endian_for_format_inv in He; tauto|].
  split; [by eexists|]. split.
  { by destruct (alloc_arrays_Ok_inv _ _ _ _ _ _ Ha). }
  split; [done|]. by rewrite <- Hsize, <- length_drop.
Qed.

Lemma reader_ok_resources junk file header t :
  read_vertex_table_binary junk file header = Ok t →
  room_for (vertex_properties header) (vertex_count header)
  ∧ seekable file (data_start_offset header) = true.
Proof.
  unfold read_vertex_table_binary. destruct (negb _); [done|].
  destruct (_endian_for_format _) as [|endian]; [done|]. cbn [bind].
  destruct (_struct_for_vertex _ _) as [|st]; [done|]. cbn [bind].
  destruct (alloc_arrays _ _ _ _ _) as [|arrays] eqn:Ha; [done|]. cbn [bind].
  destruct (seek _ _) as [|rest] eqn:Hseek; [done|]. intros _. split.
  - by destruct (alloc_arrays_Ok_inv _ _ _ _ _ _ Ha) as [_ Hroom].
  - unfold seekable. by rewrite Hseek.
Qed.

(** X8.  When the reader succeeds.  It returns a table exactly when the format
    name is one of the two binary variants, every property type is in the
    registry, the vertex count is not negative (unless there is no property,
    in which case no array is allocated), numpy has room for the arrays, the
    seek to the data offset succeeds, and the file holds [vertex_count]
    whole records after the offset. *)
Theorem reader_succeeds_iff (junk : nat → nat → Z) (file : list byte)
    (header : PlyHeader) :
  (∃ t, read_vertex_table_binary junk file header = Ok t) ↔
  (format header = "binary_little_endian" ∨ format header = "binary_big_endian")
  ∧ (∃ cs, type_codes (vertex_properties header) = Ok cs)
  ∧ (0 ≤ vertex_count header ∨ vertex_properties header = [])
  ∧ room_for (vertex_properties header) (vertex_count header)
  ∧ seekable file (data_start_offset header) = true
  ∧ (record_stride (vertex_properties header) * Z.to_nat (vertex_count header)
     ≤ length file - Z.to_nat (data_start_offset header))%nat.
Proof.
  split.
  - intros [t Hread].
    destruct (reader_ok_cond _ _ _ _ Hread) as (? & ? & ? & _ & ?).
    destruct (reader_ok_resources _ _ _ _ Hread) as [? ?]. done.
  - intros (Hfmt & Hcs & Hn & Hroom & Hseek & Hlen).
    by apply reader_succeeds_cond.
Qed.

(** X9.  An unknown scalar type is reported before the file is looked at: under a
    binary format name, the reader raises the [ValueError] that names the
    first property type missing from the registry, whatever the file holds
    and whatever the vertex count and the offset are. *)
Theorem reader_reports_first_unknown_type (junk : nat → nat → Z)
    (file : list byte) (header : PlyHeader)
    (known : list (string * string)) (ty name : string)
    (others : list (string * string)) :
  format header = "binary_little_endian" ∨ format header = "binary_big_endian" →
  vertex_properties header = known ++ (ty, name) :: others →
  Forall (λ p, is_Some (_PLY_TYPE_TO_STRUCT !! p.1)) known →
  _PLY_TYPE_TO_STRUCT !! ty = None →
  read_vertex_table_binary junk file header = Err (ValueError_scalar_type ty).
Proof.
  intros Hfmt Hprops Hknown Hty. unfold read_vertex_table_binary.
  assert (∃ endian, _endian_for_format (format header) = Ok endian
                  ∧ negb (String.eqb (format header) "binary_little_endian"
                          || String.eqb (format header) "binary_big_endian") = false)
    as (endian & -> & ->).
  { destruct Hfmt as [-> | ->]; by eexists. }
  cbn [bind]. unfold _struct_for_vertex. rewrite Hprops.
  assert (join_codes (known ++ (ty, name) :: others)
          = Err (ValueError_scalar_type ty)) as ->; [|done].
  clear Hprops. induction Hknown as [|[t p] r [c Hc] _ IH]; cbn [app join_codes].
  - by rewrite Hty.
  - cbn [fst] in Hc. by rewrite Hc, IH.
Qed.

End ReaderProperties.

Section ReaderPropertiesExamples.

#[local] Existing Instance reference.

Lemma reader_table_shape_witness :
  ∃ t, read_vertex_table_binary no_junk sample_dup sample_dup_header = Ok t
       ∧ dom t = list_to_set (vertex_properties sample_dup_header).*2.
Proof.
  destruct (read_vertex_table_binary no_junk sample_dup sample_dup_header)
    as [e|t] eqn:Hread; [vm_compute in Hread; discriminate|].
  exists t. split; [reflexivity|].
  exact (proj1 (reader_table_shape no_junk sample_dup sample_dup_header t Hread)).
Defined.

Lemma reader_reports_first_unknown_type_witness :
  read_vertex_table_binary no_junk []
    {| format := "binary_big_endian"; version := "1.0"; vertex_count := -1;
       vertex_properties := [("float", "x"); ("half", "y"); ("quad", "z")];
       header_lines := []; data_start_offset := -5 |}
  = Err (ValueError_scalar_type "half").
Proof.
  apply (reader_reports_first_unknown_type _ _ _ [("float", "x")] "half" "y"
           [("quad", "z")]).
  - by right.
  - reflexivity.
  - repeat constructor. by eexists.
  - reflexivity.
Defined.

End ReaderPropertiesExamples.

(** ** Integer properties *)

Section IntegerProperties.

Context {platform : Platform}.

Section Integers.
Import Ieee.

Lemma of_int_small z :
  let a := Z.abs z in
  0 < a < 2 ^ 24 →
  of_int z
  = enc64 (if z <? 0 then 1 else 0) (Z.log2 a + 1023)
      (a * 2 ^ (52 - Z.log2 a) - 2 ^ 52)
  ∧ 0 ≤ Z.log2 a < 24
  ∧ 2 ^ 52 ≤ a * 2 ^ (52 - Z.log2 a) < 2 ^ 53.
Proof.
  intros a Ha. destruct (Z.log2_spec a ltac:(lia)) as [Hlo Hhi].
  assert (0 ≤ Z.log2 a) as Hk0 by apply Z.log2_nonneg.
  assert (Z.log2 a < 24) as Hk by (apply Z.log2_lt_pow2; lia).
  set (k := Z.log2 a) in *.
  assert (2 ^ 52 = 2 ^ k * 2 ^ (52 - k)) as H52
    by (rewrite <- Z.pow_add_r by lia; f_equal; lia).
  assert (2 ^ 53 = 2 ^ Z.succ k * 2 ^ (52 - k)) as H53
    by (rewrite <- Z.pow_add_r by lia; f_equal; lia).
  assert (0 < 2 ^ (52 - k)) as HP by (apply Z.pow_pos_nonneg; lia).
  set (P := 2 ^ (52 - k)) in *.
  assert (2 ^ 52 ≤ a * P < 2 ^ 53) as Hrange by nia.
  split; [|done]. unfold of_int. fold a.
  rewrite round_mag_shift_left;
    change (emin binary64) with (-1074); change (mw binary64) with 52;
    fold k; [|lia..].
  fold P. change (inf_mag binary64) with (2047 * 2 ^ 52).
  change (sign_weight binary64) with (2 ^ 63). unfold encode.
  change (sign_weight binary64) with (2 ^ 63). change (mw binary64) with 52.
  change (2 ^ 52) with 4503599627370496 in *.
  change (2 ^ 53) with 9007199254740992 in *.
  rewrite Z.min_l by lia. destruct (z <? 0); lia.
Qed.

Lemma to_float32_small z :
  let a := Z.abs z in
  0 < a < 2 ^ 24 →
  to_float32 (PyInt z)
  = enc32 (if z <? 0 then 1 else 0) (Z.log2 a + 127)
      (a * 2 ^ (23 - Z.log2 a) - 2 ^ 23)
  ∧ 0 ≤ Z.log2 a < 24
  ∧ 2 ^ 23 ≤ a * 2 ^ (23 - Z.log2 a) < 2 ^ 24.
Proof.
  intros a Ha. destruct (of_int_small z Ha) as (Hof & Hk & Hrange).
  fold a in Hof, Hk, Hrange. set (k := Z.log2 a) in *.
  assert (0 < 2 ^ (23 - k)) as HQ by (apply Z.pow_pos_nonneg; lia).
  assert (2 ^ (52 - k) = 2 ^ (23 - k) * 2 ^ 29) as HPQ
    by (rewrite <- Z.pow_add_r by lia; f_equal; lia).
  rewrite HPQ in Hof, Hrange. set (Q := 2 ^ (23 - k)) in *.
  change (2 ^ 29) with 536870912 in *.
  change (2 ^ 52) with 4503599627370496 in *.
  change (2 ^ 53) with 9007199254740992 in *.
  change (2 ^ 23) with 8388608. change (2 ^ 24) with 16777216 in *.
  assert (8388608 ≤ a * Q < 16777216) as Hq by lia.
  split; [|done].
  unfold to_float32. cbn [Struct.py_float]. rewrite Hof.
  assert (0 ≤ (if z <? 0 then 1 else 0)) as Hs by (destruct (z <? 0); lia).
  unfold cast, significand, exponent.
  destruct (fields64 (if z <? 0 then 1 else 0) (k + 1023)
              (a * (Q * 536870912) - 4503599627370496)) as (-> & -> & ->);
    [lia..|].
  change (emax_field binary64) with 2047.
  destruct (Z.eqb_spec (k + 1023) 2047); [lia|].
  destruct (Z.eqb_spec (k + 1023) 0); [lia|].
  change (2 ^ mw binary64) with 4503599627370496.
  change (emin binary64) with (-1074).
  replace (4503599627370496 + (a * (Q * 536870912) - 4503599627370496))
    with ((a * Q) * 2 ^ 29) by (change (2 ^ 29) with 536870912; lia).
  assert (Z.log2 (a * Q) = 23) as Hlog
    by (apply Z.log2_unique; [lia|]; change (2 ^ 23) with 8388608;
        change (2 ^ Z.succ 23) with 16777216; lia).
  rewrite round_mag_shift_right;
    rewrite ?Hlog; change (emin binary32) with (-149);
    change (mw binary32) with 23; [|lia..].
  change (inf_mag binary32) with 2139095040.
  change (sign_weight binary32) with 2147483648. unfold encode.
  change (sign_weight binary32) with 2147483648. change (mw binary32) with 23.
  change (2 ^ 23) with 8388608. rewrite Z.min_l by lia. lia.
Qed.

Lemma to_float32_represents z :
  Z.abs z < 2 ^ 24 → represents_integer (to_float32 (PyInt z)) z.
Proof.
  intros Hz. unfold represents_integer. case_decide as Hz0; [subst; by vm_compute|].
  destruct (to_float32_small z) as (-> & Hk & Hq); [lia|].
  set (k := Z.log2 (Z.abs z)) in *.
  assert (2 ^ (23 - k) * 2 ^ k = 2 ^ 23) as Hpow
    by (rewrite <- Z.pow_add_r by lia; f_equal; lia).
  change (2 ^ 24) with 16777216 in *.
  destruct (fields32 (if z <? 0 then 1 else 0) (k + 127)
              (Z.abs z * 2 ^ (23 - k) - 2 ^ 23)) as (-> & -> & ->).
  - destruct (z <? 0); lia.
  - lia.
  - change (2 ^ 23) with 8388608 in *. lia.
  - split; [done|]. split; [lia|].
    replace (k + 127 - 127) with k by lia.
    replace (2 ^ 23 + (Z.abs z * 2 ^ (23 - k) - 2 ^ 23))
      with (Z.abs z * 2 ^ (23 - k)) by lia.
    rewrite <- Hpow. lia.
Qed.

End Integers.

Lemma unpack_one_small_integer le c bs :
  c ∈ [Struct.Cb; Struct.CB; Struct.Ch; Struct.CH] →
  length bs = Struct.width c →
  ∃ z, Struct.unpack_one le c bs = PyInt z ∧ -32768 ≤ z < 65536.
Proof.
  intros Hc Hlen. pose proof (bytes_to_Z_range le bs) as Hu. rewrite Hlen in Hu.
  unfold Struct.unpack_one. set (u := bytes_to_Z le bs) in *.
  assert (c = Struct.Cb ∨ c = Struct.CB ∨ c = Struct.Ch ∨ c = Struct.CH)
    as [->|[->|[->| ->]]]
    by (repeat (apply elem_of_cons in Hc as [->|Hc]; [tauto|]);
        by apply elem_of_nil in Hc);
    cbv beta iota delta [Struct.is_signed Struct.modulus Struct.width andb] in *;
    change (2 ^ (8 * Z.of_nat 1)) with 256 in *;
    change (2 ^ (8 * Z.of_nat 2)) with 65536 in *;
    change (256 / 2) with 128; change (65536 / 2) with 32768.
  - destruct (Z.leb_spec 128 u); eexists; (split; [done|lia]).
  - eexists; (split; [done|lia]).
  - destruct (Z.leb_spec 32768 u); eexists; (split; [done|lia]).
  - eexists; (split; [done|lia]).
Qed.

(** X10.  Integer properties of 8 and 16 bits are read exactly.  What the reader
    stores for a [char], [uchar], [short] or [ushort] field is the float32
    whose value is the integer in the file; and so for every integer below
    [2^24] in size.  Beyond that the float32 is the nearest one: [2^24 + 1],
    which an [int] or [uint] field can hold, is stored as [2^24]. *)
Theorem small_integers_are_stored_exactly :
  (∀ (le : bool) (c : Struct.code) (bs : list byte),
     c ∈ [Struct.Cb; Struct.CB; Struct.Ch; Struct.CH] →
     length bs = Struct.width c →
     ∃ z, Struct.unpack_one le c bs = PyInt z
          ∧ represents_integer (to_float32 (Struct.unpack_one le c bs)) z)
  ∧ (∀ z, Z.abs z < 2 ^ 24 → represents_integer (to_float32 (PyInt z)) z)
  ∧ to_float32 (PyInt (2 ^ 24 + 1)) = to_float32 (PyInt (2 ^ 24)).
Proof.
  split; [|split; [apply to_float32_represents|by vm_compute]].
  intros le c bs Hc Hlen.
  destruct (unpack_one_small_integer le c bs Hc Hlen) as (z & -> & Hz).
  exists z. split; [done|]. apply to_float32_represents.
  change (2 ^ 24) with 16777216. lia.
Qed.

End IntegerProperties.

Section IntegerPropertiesExamples.

#[local] Existing Instance reference.

Lemma small_integers_are_stored_exactly_witness :
  represents_integer (to_float32 (Struct.unpack_one false Struct.Ch [xff; x85])) (-123).
Proof.
  destruct small_integers_are_stored_exactly as (H & _ & _).
  destruct (H false Struct.Ch [xff; x85]) as (z & Hz & Hr).
  - apply list_elem_of_further, list_elem_of_further, list_elem_of_here.
  - reflexivity.
  - vm_compute in Hz. injection Hz as <-. exact Hr.
Defined.

End IntegerPropertiesExamples.

(** ** Byte order *)

Section ByteOrder.

Context {platform : Platform}.

Lemma swap_fields_length cs chunk : length (swap_fields cs chunk) = length chunk.
Proof.
  revert chunk. induction cs as [|c cs IH]; intros chunk; cbn [swap_fields]; [done|].
  rewrite length_app, length_rev, IH, length_take, length_drop. lia.
Qed.

Lemma swap_records_length cs k body : length (swap_records cs k body) = length body.
Proof.
  revert body. induction k as [|k IH]; intros body; cbn [swap_records]; [done|].
  rewrite length_app, swap_fields_length, IH, length_take, length_drop. lia.
Qed.

Lemma unpack_one_rev c bs :
  Struct.unpack_one false c bs = Struct.unpack_one true c (rev bs).
Proof. done. Qed.

Lemma unpack_codes_swap cs chunk :
  (sum_list (Struct.width <$> cs) ≤ length chunk)%nat →
  Struct.unpack_codes false cs chunk
  = Struct.unpack_codes true cs (swap_fields cs chunk).
Proof.
  revert chunk. induction cs as [|c cs IH]; intros chunk; [done|].
  cbn [Struct.unpack_codes swap_fields]. intros Hlen.
  change (Struct.width c + sum_list (Struct.width <$> cs) ≤ length chunk)%nat
    in Hlen.
  assert (length (rev (take (Struct.width c) chunk)) = Struct.width c) as Hw
    by (rewrite length_rev, length_take; lia).
  rewrite take_app_length', drop_app_length' by done.
  rewrite <- IH by (rewrite length_drop; lia).
  by rewrite unpack_one_rev.
Qed.

Lemma read_rows_swap cs props n k i rest arrays :
  read_rows {| Struct.little := false; Struct.codes := cs |} props n k i rest arrays
  = read_rows {| Struct.little := true; Struct.codes := cs |} props n k i
      (swap_records cs k rest) arrays.
Proof.
  revert i rest arrays. induction k as [|k IH]; intros i rest arrays; [done|].
  cbn [read_rows swap_records]. unfold Struct.size. cbn [Struct.codes].
  set (size := sum_list (Struct.width <$> cs)).
  pose proof (swap_fields_length cs (take size rest)) as Hsw.
  rewrite length_take in Hsw.
  destruct (decide (size ≤ length rest)%nat) as [Hle|Hgt].
  - rewrite Nat.min_l in Hsw by done.
    rewrite take_app_length', drop_app_length' by done.
    rewrite Hsw, length_take, Nat.min_l by done.
    rewrite Nat.eqb_refl. cbn [negb].
    rewrite <- IH. do 2 f_equal. unfold Struct.unpack. cbn [Struct.little Struct.codes].
    apply unpack_codes_swap. rewrite length_take. fold size. lia.
  - rewrite !length_take.
    rewrite length_app, swap_fields_length, swap_records_length.
    rewrite length_take, length_drop.
    destruct (Nat.eqb_spec (size `min` length rest) size) as [|_]; [lia|].
    destruct (Nat.eqb_spec (size `min` (size `min` length rest
                                         + (length rest - size))) size)
      as [|_]; [lia|]. done.
Qed.

(** X11.  The format name decides the byte order of the fields and nothing else:
    under [binary_big_endian] the reader gives what it gives under
    [binary_little_endian] for the file with the bytes of every field of
    every vertex record reversed -- the same table, or the same exception. *)
Theorem format_name_is_the_byte_order (junk : nat → nat → Z) (file : list byte)
    (header : PlyHeader) :
  format header = "binary_big_endian" →
  read_vertex_table_binary junk file header
  = read_vertex_table_binary junk (swap_byte_order header file)
      (with_format "binary_little_endian" header).
Proof.
  intros Hfmt. unfold read_vertex_table_binary, swap_byte_order.
  cbn [with_format format vertex_properties vertex_count data_start_offset].
  rewrite Hfmt. cbn [String.eqb Ascii.eqb Bool.eqb orb negb].
  change (_endian_for_format "binary_big_endian") with (Ok ">").
  change (_endian_for_format "binary_little_endian") with (Ok "<").
  cbn [bind]. rewrite struct_for_vertex_big, struct_for_vertex_little.
  destruct (type_codes (vertex_properties header)) as [e|cs]; [done|].
  cbn [bind].
  destruct (alloc_arrays _ _ _ _ _) as [e|arrays]; [done|]. cbn [bind].
  assert (swap_records cs (Z.to_nat (vertex_count header)) [] = []) as Hnil.
  { apply length_zero_iff_nil. by rewrite swap_records_length. }
  unfold seek.
  rewrite length_app, swap_records_length, length_take, length_drop.
  replace (Z.of_nat
             (Z.to_nat (data_start_offset header) `min` length file
              + (length file - Z.to_nat (data_start_offset header))))
    with (Z.of_nat (length file)) by lia.
  destruct (data_start_offset header <? - 2 ^ 63); [done|].
  destruct (Z.ltb_spec (data_start_offset header) 0); [done|].
  destruct (Z.leb_spec (data_start_offset header) (Z.of_nat (length file))).
  - cbn [bind]. rewrite read_rows_swap. f_equal.
    by rewrite drop_app_length' by (rewrite length_take; lia).
  - destruct (2 ^ 63 <=? data_start_offset header); [done|].
    destruct (seek_past_end _); [|done]. cbn [bind].
    by rewrite read_rows_swap, Hnil.
Qed.

End ByteOrder.

Section ByteOrderExamples.

#[local] Existing Instance reference.

Lemma format_name_is_the_byte_order_witness :
  read_vertex_table_binary no_junk
    [x00; x00; x00; x3f; x80; x00; x00; xbf; x80; x00; x00]
    sample_short_header
  = read_vertex_table_binary no_junk
      [x00; x00; x00; x00; x00; x80; x3f; x00; x00; x80; xbf]
      (with_format "binary_little_endian" sample_short_header).
Proof.
  apply (format_name_is_the_byte_order no_junk
           [x00; x00; x00; x3f; x80; x00; x00; xbf; x80; x00; x00]
           sample_short_header).
  reflexivity.
Defined.

End ByteOrderExamples.

(** ** Column reconciliation for any vertex count *)

Lemma build_out_cols_inv teaser_cols target_schema n acc out_cols :
  build_out_cols teaser_cols target_schema n acc = Ok out_cols →
  ∀ name, out_cols !! name =
    if decide (name ∈ target_schema.*2) then Some (reconciled teaser_cols n name)
    else acc !! name.
Proof.
  revert acc.
  induction target_schema as [|[ty p] r IH]; intros acc; cbn [build_out_cols].
  - intros Heq name. apply (inj inr) in Heq. subst.
    case_decide as Hin; [by apply elem_of_nil in Hin|done].
  - intros Hb.
    assert (∃ col, build_out_cols teaser_cols r n (<[p:=col]> acc) = Ok out_cols
                   ∧ col = reconciled teaser_cols n p) as (col & Hb' & Hcol).
    { unfold reconciled. destruct (teaser_cols !! p) as [c|]; simpl; [by eexists|].
      unfold np_zeros in Hb. destruct (n <? 0); [done|]. by eexists. }
    intros name. rewrite (IH _ Hb').
    destruct (decide (name ∈ r.*2)) as [Hin|Hnin].
    + rewrite decide_True; [done|]. by apply list_elem_of_further.
    + destruct (decide (name = p)) as [->|Hne].
      * rewrite decide_True; [|by apply list_elem_of_here].
        by rewrite lookup_insert_eq, Hcol.
      * rewrite decide_False, lookup_insert_ne; [done|done|].
        intros [?|?]%elem_of_cons; done.
Qed.

Lemma build_out_cols_error teaser_cols target_schema n acc e :
  build_out_cols teaser_cols target_schema n acc = Err e ↔
  e = ValueError_negative_dimensions ∧ n < 0
  ∧ ∃ name, name ∈ target_schema.*2 ∧ teaser_cols !! name = None.
Proof.
  revert acc.
  induction target_schema as [|[ty p] r IH]; intros acc; cbn [build_out_cols].
  - split; [done|]. by intros (_ & _ & name & Hin%elem_of_nil & _).
  - destruct (teaser_cols !! p) as [col|] eqn:Hp.
    + rewrite IH. split.
      * intros (-> & Hn & name & Hin & Hname). do 2 (split; [done|]).
        exists name. split; [by apply list_elem_of_further|done].
      * intros (-> & Hn & name & Hin & Hname). do 2 (split; [done|]).
        exists name. split; [|done].
        apply elem_of_cons in Hin as [->|Hin]; [|done]. cbn in Hname. congruence.
    + unfold np_zeros. destruct (Z.ltb_spec n 0) as [Hn|Hn]; cbn [bind].
      * split.
        -- intros [= <-]. do 2 (split; [done|]). exists p.
           split; [apply list_elem_of_here|done].
        -- by intros (-> & _).
      * rewrite IH. split; intros (_ & ? & _); lia.
Qed.

Lemma build_out_cols_zero_filled teaser_cols target_schema n out_cols :
  build_out_cols teaser_cols target_schema n ∅ = Ok out_cols →
  zero_filled teaser_cols n out_cols.
Proof.
  intros Hb name col Hcol Hnone.
  rewrite (build_out_cols_inv _ _ _ _ _ Hb) in Hcol.
  case_decide; [|by rewrite lookup_empty in Hcol].
  apply (inj Some) in Hcol. subst. unfold reconciled. by rewrite Hnone.
Qed.

(** X12.  The two loops that follow the construction of the output columns in
    [convert] (the [fill(0.0)] calls on [nx], [ny], [nz] and on [f_rest_0]
    to [f_rest_44]) change nothing: whatever the source table, the target
    schema and the vertex count, reconciliation is the construction loop
    alone, in its result and in its failure. *)
Theorem fill_loops_change_nothing (teaser_cols : table)
    (target_schema : list (string * string)) (n : Z) :
  reconcile teaser_cols target_schema n
  = build_out_cols teaser_cols target_schema n ∅.
Proof.
  unfold reconcile.
  destruct (build_out_cols _ _ _ _) as [e|out] eqn:Hb; [done|]. cbn [bind].
  pose proof (build_out_cols_zero_filled _ _ _ _ Hb) as Hz.
  by rewrite !(fill_all_id _ _ _ _ Hz).
Qed.


(** ** The writer *)

Section WriterProperties.

Context {platform : Platform}.

Lemma float_type_code t :
  float_type t = true ↔ type_code t = Ok Struct.Cf ∨ type_code t = Ok Struct.Cd.
Proof.
  unfold float_type. rewrite bool_decide_eq_true. split.
  - intros Hin. repeat (apply elem_of_cons in Hin as [->|Hin]; [by auto|]).
    by apply elem_of_nil in Hin.
  - unfold type_code.
    destruct (_PLY_TYPE_TO_STRUCT !! t) as [s|] eqn:E; [|by intros [|]].
    apply elem_of_list_to_map_2 in E.
    repeat (apply elem_of_cons in E as [E|E];
            [injection E as -> ->; cbn;
             first [by intros [|] | intros _; set_solver]|]).
    by apply elem_of_nil in E.
Qed.

Lemma pack_one_float32 le c x :
  0 ≤ x < 4294967296 →
  match Struct.pack_one le c (NpFloat32 x) with
  | inr _ => c = Struct.Cf ∨ c = Struct.Cd
  | inl e => e = StructError ∧ c ≠ Struct.Cf ∧ c ≠ Struct.Cd
  end.
Proof.
  intros Hx. destruct c; cbn [Struct.pack_one Struct.py_float]; try done.
  - rewrite (pack4_cast x Hx). cbn [bind]. by left.
  - by right.
Qed.

(** Packing a row of float32 values: it succeeds when every code is a
    floating-point code, and is a [struct.error] otherwise. *)
Lemma pack_row_float32 le schema cs columns i row :
  float32_table columns →
  type_codes schema = Ok cs → row_values schema columns i = Ok row →
  if float_schema schema
  then ∃ bs, Struct.pack_codes le cs row = Ok bs
  else Struct.pack_codes le cs row = Err StructError.
Proof.
  intros Hwf. revert cs row.
  induction schema as [|[ty name] r IH]; intros cs row;
    cbn [type_codes row_values float_schema forallb fst].
  - intros Hcs Hrow. apply (inj inr) in Hcs, Hrow. subst. by eexists.
  - destruct (type_code ty) as [|c] eqn:Hc; [done|]. cbn [bind].
    destruct (type_codes r) as [|cs'] eqn:Hcs; [done|]. cbn [bind].
    intros Heq. apply (inj inr) in Heq. subst cs.
    destruct (columns !! name) as [col|] eqn:Hcol; [|done].
    destruct (col !! i) as [x|] eqn:Hx; [|done].
    destruct (row_values r columns i) as [|vs] eqn:Hvs; [done|]. cbn [bind].
    intros Heq. apply (inj inr) in Heq. subst row.
    cbn [Struct.pack_codes].
    assert (0 ≤ x < 4294967296) as Hr.
    { pose proof (Hwf name col Hcol) as Hall. rewrite Forall_lookup in Hall.
      exact (Hall i x Hx). }
    pose proof (pack_one_float32 le c x Hr) as Hp.
    specialize (IH cs' vs eq_refl eq_refl).
    fold (float_schema r).
    destruct (Struct.pack_one le c (NpFloat32 x)) as [e|b]; cbn [bind].
    + destruct Hp as (-> & Hf & Hd).
      replace (float_type ty) with false; [done|].
      symmetry. apply not_true_is_false. rewrite float_type_code, Hc.
      intros [[= ->]|[= ->]]; done.
    + assert (float_type ty = true) as ->.
      { apply float_type_code. rewrite Hc. destruct Hp as [->| ->]; auto. }
      cbn [andb]. destruct (float_schema r).
      * destruct IH as [bs ->]. by eexists.
      * by rewrite IH.
Qed.


Lemma join_lines_ascii ls :
  forallb ascii_text ls = true → ascii_text (join_lines ls) = true.
Proof.
  unfold ascii_text. induction ls as [|l r IH]; [done|].
  cbn [forallb join_lines foldr]. intros [Hl Hr]%andb_true_iff.
  rewrite all_chars_app, Hl. cbn [andb all_chars].
  apply andb_true_intro. split; [done|]. by apply IH.
Qed.

Lemma header_text_ascii n schema cs :
  type_codes schema = Ok cs →
  forallb (λ p, ascii_text p.2) schema = true →
  ascii_text (header_text n schema) = true.
Proof.
  intros Hcs Hnames. rewrite header_text_lines. apply join_lines_ascii.
  rewrite forallb_forall. intros l Hl. apply list_elem_of_In in Hl.
  unfold written_lines in Hl.
  rewrite !elem_of_app, !elem_of_cons, list_elem_of_fmap in Hl.
  destruct Hl as [[->|[->|[->|Hl]]]|[([ty name] & -> & Hin)|[->|Hl]]];
    try done; try by apply elem_of_nil in Hl.
  - pose proof (proj2 (py_str_int_token n)) as Hn. unfold ascii_text in *.
    by rewrite all_chars_app, Hn.
  - unfold property_line, ascii_text. cbn [fst snd]. rewrite !all_chars_app.
    pose proof (type_codes_registry _ _ _ _ Hcs Hin) as Hreg.
    apply registry_token in Hreg as [_ Hty]. unfold ascii_text in Hty.
    rewrite Hty. rewrite forallb_forall in Hnames.
    specialize (Hnames (ty, name) (proj1 (list_elem_of_In _ _) Hin)).
    unfold ascii_text in Hnames. cbn [snd] in Hnames. by rewrite Hnames.
Qed.

Lemma check_columns_Ok n schema columns :
  (∀ ty name, (ty, name) ∈ schema →
     ∃ col, columns !! name = Some col ∧ Z.of_nat (length col) = n) →
  check_columns n schema columns = Ok tt.
Proof.
  induction schema as [|[ty name] r IH]; intros H; cbn [check_columns]; [done|].
  destruct (H ty name) as (col & -> & Hlen); [apply list_elem_of_here|].
  rewrite (proj2 (Z.eqb_eq _ _) Hlen). cbn [negb].
  apply IH. intros ty' name' Hin. apply (H ty' name'). by apply list_elem_of_further.
Qed.

Lemma write_rows_float cs schema columns n k i written :
  float32_table columns → type_codes schema = Ok cs →
  float_schema schema = true →
  check_columns n schema columns = Ok tt → (i + k ≤ Z.to_nat n)%nat →
  ∃ out, write_rows (little_struct cs) schema columns k i written
         = (Some out, Ok tt).
Proof.
  intros Hwf Hcs Hf Hcheck. revert i written.
  induction k as [|k IH]; intros i written Hik; cbn [write_rows]; [by eexists|].
  destruct (check_columns_row n schema columns i Hcheck) as [row Hrow]; [lia|].
  rewrite Hrow. cbn [bind].
  pose proof (pack_row_float32 true schema cs columns i row Hwf Hcs Hrow) as Hp.
  rewrite Hf in Hp. destruct Hp as [bs Hbs].
  unfold Struct.pack. cbn [little_struct Struct.little Struct.codes].
  rewrite Hbs. apply IH. lia.
Qed.

Lemma write_rows_integer cs schema columns n k i written :
  float32_table columns → type_codes schema = Ok cs →
  float_schema schema = false →
  check_columns n schema columns = Ok tt → (i < Z.to_nat n)%nat →
  write_rows (little_struct cs) schema columns (S k) i written
  = (Some written, Err StructError).
Proof.
  intros Hwf Hcs Hf Hcheck Hi. cbn [write_rows].
  destruct (check_columns_row n schema columns i Hcheck) as [row Hrow]; [lia|].
  rewrite Hrow. cbn [bind].
  pose proof (pack_row_float32 true schema cs columns i row Hwf Hcs Hrow) as Hp.
  rewrite Hf in Hp.
  unfold Struct.pack. cbn [little_struct Struct.little Struct.codes].
  by rewrite Hp.
Qed.


(** X15.  The writer can write vertices for floating-point schemas only.  Its rows
    are [numpy.float32] scalars, which [struct] refuses for an integer code:
    when the schema has a property of an integer type and there is at least
    one vertex, a request that passes the sanity check ends in
    [struct.error] on the first row, and the destination is left holding the
    header and nothing else. *)
Theorem writer_integer_schema_fails (n : Z) (schema : list (string * string))
    (columns : table) (cs : list Struct.code) :
  type_codes schema = Ok cs →
  float_schema schema = false →
  0 < n →
  check_columns n schema columns = Ok tt →
  ascii_text (header_text n schema) = true →
  float32_table columns →
  write_ply_binary_vertex_only n schema columns
  = (Some (list_byte_of_string (header_text n schema)), Err StructError).
Proof.
  intros Hcs Hf Hn Hcheck Hascii Hwf.
  unfold write_ply_binary_vertex_only.
  rewrite struct_for_vertex_little, Hcs. cbn [bind]. rewrite Hcheck.
  rewrite (encode_ascii_text _ Hascii).
  destruct (Z.to_nat n) as [|k] eqn:Hk; [lia|].
  eapply write_rows_integer; [done..|lia].
Qed.

Lemma check_columns_agree n schema columns columns' :
  (∀ name, name ∈ schema.*2 → columns !! name = columns' !! name) →
  check_columns n schema columns = check_columns n schema columns'.
Proof.
  induction schema as [|[ty name] r IH]; intros H; cbn [check_columns]; [done|].
  rewrite <- (H name) by apply list_elem_of_here.
  rewrite IH; [done|]. intros name' Hin. apply H. by apply list_elem_of_further.
Qed.

Lemma row_values_agree schema columns columns' i :
  (∀ name, name ∈ schema.*2 → columns !! name = columns' !! name) →
  row_values schema columns i = row_values schema columns' i.
Proof.
  induction schema as [|[ty name] r IH]; intros H; cbn [row_values]; [done|].
  rewrite <- (H name) by apply list_elem_of_here.
  rewrite IH; [done|]. intros name' Hin. apply H. by apply list_elem_of_further.
Qed.

(** X16.  The writer looks at no column but those the schema names: two column
    sets that agree on the schema's names give the same outcome, the same
    bytes or the same exception. *)
Theorem writer_ignores_other_columns (n : Z) (schema : list (string * string))
    (columns columns' : table) :
  (∀ name, name ∈ schema.*2 → columns !! name = columns' !! name) →
  write_ply_binary_vertex_only n schema columns
  = write_ply_binary_vertex_only n schema columns'.
Proof.
  intros H. unfold write_ply_binary_vertex_only.
  destruct (_struct_for_vertex schema "<") as [|st]; [done|].
  rewrite (check_columns_agree n schema columns columns' H).
  destruct (check_columns n schema columns') as [|[]]; [done|].
  destruct (encode_ascii _) as [|hb]; [done|].
  generalize 0%nat. generalize hb.
  induction (Z.to_nat n) as [|k IH]; intros written i; cbn [write_rows]; [done|].
  rewrite (row_values_agree schema columns columns' i H).
  destruct (row <-! row_values schema columns' i; Struct.pack st row); [done|].
  apply IH.
Qed.

End WriterProperties.

Section WriterPropertiesExamples.

#[local] Existing Instance reference.


Lemma writer_integer_schema_fails_witness :
  write_ply_binary_vertex_only 1 [("float", "x"); ("uchar", "r")]
    {[ "x" := [0]; "r" := [0] ]}
  = (Some (list_byte_of_string
             (header_text 1 [("float", "x"); ("uchar", "r")])),
     Err StructError).
Proof.
  apply (writer_integer_schema_fails 1 [("float", "x"); ("uchar", "r")]
           {[ "x" := [0]; "r" := [0] ]} [Struct.Cf; Struct.CB]).
  - reflexivity.
  - reflexivity.
  - lia.
  - reflexivity.
  - reflexivity.
  - intros name col Hcol.
    apply lookup_insert_Some in Hcol as [[_ <-]|[_ Hcol]];
      [repeat constructor; lia|].
    apply lookup_singleton_Some in Hcol as [_ <-]. repeat constructor; lia.
Defined.

Lemma writer_ignores_other_columns_witness :
  write_ply_binary_vertex_only 1 [("float", "x")] {[ "x" := [0]; "y" := [7; 7] ]}
  = write_ply_binary_vertex_only 1 [("float", "x")] {[ "x" := [0] ]}.
Proof.
  apply (writer_ignores_other_columns 1 [("float", "x")]).
  intros name Hin. apply elem_of_cons in Hin as [->|Hin]; [reflexivity|].
  by apply elem_of_nil in Hin.
Defined.

End WriterPropertiesExamples.

(** ** The conversion as a whole *)

Section Conversion.

Context {platform : Platform}.

Lemma reconcile_inv teaser_cols target_schema n out_cols :
  reconcile teaser_cols target_schema n = Ok out_cols →
  ∀ name, out_cols !! name =
    if decide (name ∈ target_schema.*2) then Some (reconciled teaser_cols n name)
    else None.
Proof.
  unfold reconcile.
  destruct (build_out_cols _ _ _ _) as [e|out] eqn:Hb; [done|]. cbn [bind].
  pose proof (build_out_cols_zero_filled _ _ _ _ Hb) as Hz.
  rewrite !(fill_all_id _ _ _ _ Hz). intros Heq. apply (inj inr) in Heq. subst.
  intros name. rewrite (build_out_cols_inv _ _ _ _ _ Hb name).
  case_decide; [done|apply lookup_empty].
Qed.

Lemma reconcile_Ok teaser_cols target_schema n :
  (0 ≤ n ∨ ∀ name, name ∈ target_schema.*2 → is_Some (teaser_cols !! name)) →
  ∃ out_cols, reconcile teaser_cols target_schema n = Ok out_cols.
Proof.
  intros H. unfold reconcile.
  destruct (build_out_cols _ _ _ _) as [e|out] eqn:Hb; [|by eexists].
  apply build_out_cols_error in Hb as (_ & Hn & name & Hin & Hnone).
  destruct H as [|H]; [lia|]. destruct (H name Hin) as [col Hcol]. congruence.
Qed.

(** Reading back what the writer wrote, given what [writer_ok_inv] says
    about a file the writer produced. *)
Lemma read_back junk n schema columns cs body :
  type_codes schema = Ok cs →
  check_columns n schema columns = Ok tt →
  float32_table columns →
  rows_packed (little_struct cs) schema columns (Z.to_nat n) 0 body →
  room_for schema n →
  ∃ t, read_vertex_table_binary junk
         (list_byte_of_string (header_text n schema) ++ body)
         (written_header n schema) = Ok t
       ∧ ∀ name,
           t !! name
           = if decide (name ∈ schema.*2)
             then fmap (quieted Ieee.binary32) <$> columns !! name
             else None.
Proof.
  intros Hcs Hcheck Hwf Hrows Hroom.
  set (header := written_header n schema).
  pose proof (rows_packed_length _ _ _ _ _ _ Hrows) as Hblen.
  assert (drop (Z.to_nat (data_start_offset header))
            (list_byte_of_string (header_text n schema) ++ body) = body) as Hdrop.
  { unfold header. cbn [written_header data_start_offset].
    rewrite Nat2Z.id, <- list_byte_of_string_length. apply drop_app_length. }
  assert (_endian_for_format (format header) = Ok "<") as He by done.
  assert (_struct_for_vertex (vertex_properties header) "<" = Ok (little_struct cs))
    as Hs.
  { rewrite struct_for_vertex_little. unfold header. cbn [written_header
      vertex_properties]. by rewrite Hcs. }
  assert (∃ t, read_vertex_table_binary junk
                 (list_byte_of_string (header_text n schema) ++ body) header = Ok t)
    as [t Hread].
  { apply reader_succeeds_cond; [by left|by exists cs| |done| |].
    - destruct schema as [|[ty name] r]; [by right|left].
      destruct (check_columns_lookup n _ columns ty name Hcheck) as (col & _ & Hn);
        [apply list_elem_of_here|].
      change (vertex_count header) with n. lia.
    - apply seekable_inside. unfold header.
      cbn [written_header data_start_offset].
      rewrite length_app, <- list_byte_of_string_length. lia.
    - change (vertex_properties header) with schema.
      change (vertex_count header) with n.
      rewrite <- (length_drop _ (Z.to_nat (data_start_offset header))), Hdrop, Hblen.
      unfold record_stride. by rewrite Hcs. }
  exists t. split; [done|]. intros name.
  pose proof (reader_cells junk _ header t "<" (little_struct cs) name Hread He Hs)
    as Hcells.
  change (vertex_properties header) with schema in Hcells.
  change (vertex_count header) with n in Hcells.
  rewrite Hdrop in Hcells.
  destruct (decide (name ∈ schema.*2)) as [Hin|Hnin]; [|done].
  destruct Hcells as (col' & -> & Hlen' & Hcol').
  apply list_elem_of_fmap in Hin as ([ty name'] & -> & Hin). cbn [snd].
  destruct (check_columns_lookup n schema columns ty name' Hcheck Hin)
    as (col & Hcol & Hlen).
  rewrite Hcol. cbn. f_equal. apply list_eq. intros i.
  rewrite list_lookup_fmap.
  destruct (decide (i < Z.to_nat n)%nat) as [Hi|Hi].
  - rewrite (Hcol' i Hi).
    destruct (rows_packed_record _ _ _ _ _ _ i Hrows Hi) as (row & bs & Hrow & Hbs & ->).
    destruct (packed_row_cells true schema cs columns i row bs name' Hwf Hcs Hrow Hbs)
      as (col2 & x & Hcol2 & Hx & Hval).
    { apply list_elem_of_fmap. by exists (ty, name'). }
    rewrite Hcol in Hcol2. injection Hcol2 as <-. rewrite Hx. exact Hval.
  - rewrite !(proj2 (lookup_ge_None _ _)); [done|lia|lia].
Qed.

Lemma words_ascii_names schema :
  Forall (λ p, is_word p.1 = true ∧ is_word p.2 = true) schema →
  forallb (λ p, ascii_text p.2) schema = true.
Proof.
  intros H. rewrite forallb_forall. intros p Hp%list_elem_of_In.
  rewrite Forall_forall in H. destruct (H p Hp) as [_ Hw].
  unfold is_word in Hw. by apply andb_prop in Hw as [_ ?].
Qed.

(** What reconciliation hands to the writer, in [convert]. *)
Lemma convert_reconciled junk teaser th cols schema out_cols :
  read_vertex_table_binary junk teaser th = Ok cols →
  reconcile cols schema (vertex_count th) = Ok out_cols →
  quiet_table out_cols
  ∧ check_columns (vertex_count th) schema out_cols = Ok tt
  ∧ (vertex_count th < 0 → schema = []).
Proof.
  intros Hread Hrec.
  destruct (read_ok_inv _ _ _ _ Hread) as (endian & st & _ & He & Hs & _).
  pose proof (λ name, reader_cells junk teaser th cols endian st name Hread He Hs)
    as Hcells.
  assert (vertex_count th < 0 → schema = []) as Hneg.
  { intros Hn. destruct schema as [|[ty name] r]; [done|]. exfalso.
    destruct (reader_ok_cond _ _ _ _ Hread) as (_ & _ & [?|Hnil] & _); [lia|].
    assert (reconcile cols ((ty, name) :: r) (vertex_count th)
            = Err ValueError_negative_dimensions) as Herr; [|congruence].
    unfold reconcile.
    rewrite (proj2 (build_out_cols_error cols ((ty, name) :: r) (vertex_count th) ∅
                      ValueError_negative_dimensions)); [done|].
    do 2 (split; [done|]). exists name. split; [apply list_elem_of_here|].
    specialize (Hcells name). rewrite Hnil in Hcells.
    by rewrite decide_False in Hcells by apply not_elem_of_nil. }
  split; [eapply reconcile_quiet; [by eapply reader_quiet_table|done]|].
  split; [|done].
  apply check_columns_Ok. intros ty name Hin.
  rewrite (reconcile_inv _ _ _ _ Hrec name).
  rewrite decide_True by (apply list_elem_of_fmap; by exists (ty, name)).
  eexists. split; [done|].
  assert (0 ≤ vertex_count th) as Hn.
  { destruct (Z.le_gt_cases 0 (vertex_count th)) as [|Hlt]; [done|].
    rewrite (Hneg ltac:(lia)) in Hin. by apply elem_of_nil in Hin. }
  unfold reconciled. specialize (Hcells name).
  destruct (cols !! name) as [col|] eqn:Hcol; cbn [default from_option id].
  - case_decide; [|done]. destruct Hcells as (col' & [= <-] & Hlen & _). lia.
  - rewrite length_replicate. lia.
Qed.

(** How the writer ends on a request that passes its checks, for columns
    of float32 values. *)
Lemma writer_float32_cases n schema columns cs :
  type_codes schema = Ok cs →
  check_columns n schema columns = Ok tt →
  ascii_text (header_text n schema) = true →
  float32_table columns →
  (0 < n ∧ float_schema schema = false
   ∧ write_ply_binary_vertex_only n schema columns
     = (Some (list_byte_of_string (header_text n schema)), Err StructError))
  ∨ ((n ≤ 0 ∨ float_schema schema = true)
     ∧ ∃ out, write_ply_binary_vertex_only n schema columns = (Some out, Ok tt)).
Proof.
  intros Hcs Hcheck Hascii Hwf.
  unfold write_ply_binary_vertex_only.
  rewrite struct_for_vertex_little, Hcs. cbn [bind]. rewrite Hcheck.
  rewrite (encode_ascii_text _ Hascii).
  destruct (Z.to_nat n) as [|k] eqn:Hk.
  { right. split; [lia|]. by eexists. }
  destruct (float_schema schema) eqn:Hf.
  - right. split; [by right|]. eapply write_rows_float; [done..|lia].
  - left. do 2 (split; [lia || done|]). eapply write_rows_integer; [done..|lia].
Qed.

Lemma parse_offset_nonneg file h :
  parse_ply_header file = Ok h → 0 ≤ data_start_offset h.
Proof.
  intros (pre & rest & _ & _ & -> & _)%parse_header_bytes. lia.
Qed.

(** The offset of a parsed header lies within the file. *)
Lemma parse_offset_inside file h :
  parse_ply_header file = Ok h →
  0 ≤ data_start_offset h ≤ Z.of_nat (length file).
Proof.
  intros (pre & rest & _ & Hfile & Hoff & _)%parse_header_bytes.
  rewrite Hoff, Hfile, length_app. lia.
Qed.

(** What [convert] has computed when the writer is called. *)
Lemma convert_stages junk teaser train dest r :
  convert junk teaser train = (dest, r) →
  (dest = None ∧ ∃ e, r = Err e ∧
     (parse_ply_header teaser = Err e
      ∨ (∃ th, parse_ply_header teaser = Ok th ∧
          (parse_ply_header train = Err e
           ∨ ∃ trh, parse_ply_header train = Ok trh ∧
               (read_vertex_table_binary junk teaser th = Err e
                ∨ ∃ cols, read_vertex_table_binary junk teaser th = Ok cols
                     ∧ reconcile cols (vertex_properties trh) (vertex_count th)
                       = Err e)))))
  ∨ ∃ th trh cols out_cols,
      parse_ply_header teaser = Ok th
      ∧ parse_ply_header train = Ok trh
      ∧ read_vertex_table_binary junk teaser th = Ok cols
      ∧ reconcile cols (vertex_properties trh) (vertex_count th) = Ok out_cols
      ∧ write_ply_binary_vertex_only (vertex_count th) (vertex_properties trh)
          out_cols = (dest, r).
Proof.
  unfold convert, build_target_schema_from_train_header.
  destruct (parse_ply_header teaser) as [e|th] eqn:Hth.
  { intros [= <- <-]. left. split; [done|]. exists e. split; [done|]. by left. }
  destruct (parse_ply_header train) as [e|trh] eqn:Htr.
  { intros [= <- <-]. left. split; [done|]. exists e. split; [done|].
    right. exists th. split; [done|]. by left. }
  destruct (read_vertex_table_binary junk teaser th) as [e|cols] eqn:Hread.
  { intros [= <- <-]. left. split; [done|]. exists e. split; [done|].
    right. exists th. split; [done|]. right. exists trh. split; [done|].
    by left. }
  destruct (reconcile cols _ _) as [e|out_cols] eqn:Hrec.
  { intros [= <- <-]. left. split; [done|]. exists e. split; [done|].
    right. exists th. split; [done|]. right. exists trh. split; [done|].
    right. by exists cols. }
  intros Hw. right. by exists th, trh, cols, out_cols.
Qed.

(** The writer's request in [convert] passes its checks. *)
Lemma convert_writer_request junk teaser train th trh cols out_cols cs :
  parse_ply_header train = Ok trh →
  read_vertex_table_binary junk teaser th = Ok cols →
  reconcile cols (vertex_properties trh) (vertex_count th) = Ok out_cols →
  type_codes (vertex_properties trh) = Ok cs →
  check_columns (vertex_count th) (vertex_properties trh) out_cols = Ok tt
  ∧ ascii_text (header_text (vertex_count th) (vertex_properties trh)) = true
  ∧ float32_table out_cols ∧ quiet_table out_cols.
Proof.
  intros Htr Hread Hrec Hcs.
  destruct (convert_reconciled _ _ _ _ _ _ Hread Hrec) as (Hq & Hcheck & _).
  split; [done|]. split; [|split; [by apply quiet_table_float32|done]].
  eapply header_text_ascii; [done|].
  by eapply words_ascii_names, parse_props_words.
Qed.

(** X17.  The converted file holds the reconciled columns.  Reading the output of
    a successful conversion back under the header it parses to, where numpy
    has room for the arrays of that header, gives, for each property name of
    the reference, the column the source file has under that name, bit for
    bit, and a column of zeros where the source has none; it gives nothing
    else. *)
Theorem converted_file_holds_reconciled_columns (junk junk' : nat → nat → Z)
    (teaser train out : list byte) :
  convert junk teaser train = (Some out, Ok tt) →
  (∀ h, parse_ply_header out = Ok h →
        room_for (vertex_properties h) (vertex_count h)) →
  ∃ th trh cols t,
    parse_ply_header teaser = Ok th
    ∧ parse_ply_header train = Ok trh
    ∧ read_vertex_table_binary junk teaser th = Ok cols
    ∧ parse_ply_header out
      = Ok (written_header (vertex_count th) (vertex_properties trh))
    ∧ read_vertex_table_binary junk' out
        (written_header (vertex_count th) (vertex_properties trh)) = Ok t
    ∧ ∀ name,
        t !! name
        = if decide (name ∈ (vertex_properties trh).*2)
          then Some (default (replicate (Z.to_nat (vertex_count th)) 0)
                       (cols !! name))
          else None.
Proof.
  intros (th & trh & cols & out_cols & Hth & Htr & Hread & Hrec & Hw)%convert_ok_inv
    Hroom.
  destruct (writer_ok_inv _ _ _ _ Hw) as (cs & body & Hcs & Hcheck & Hascii & -> & Hrows).
  destruct (convert_writer_request _ _ _ _ _ _ _ _ Htr Hread Hrec Hcs)
    as (_ & _ & Hwf & Hq).
  pose proof (parse_written_header _ _ cs body (parse_readable _ _ Hth) Hcs
                (parse_tokens _ _ Htr) Hascii) as Hparse.
  specialize (Hroom _ Hparse). cbn [written_header vertex_properties
    vertex_count] in Hroom.
  destruct (read_back junk' _ _ _ _ _ Hcs Hcheck Hwf Hrows Hroom) as (t & Ht & Hlk).
  exists th, trh, cols, t. do 4 (split; [done|]).
  split; [done|]. intros name. rewrite Hlk.
  case_decide as Hin; [|done].
  rewrite (reconcile_inv _ _ _ _ Hrec name), decide_True by done.
  cbn. f_equal. eapply quiet_table_quieted; [done|].
  by rewrite (reconcile_inv _ _ _ _ Hrec name), decide_True.
Qed.

(** X18.  Conversion is idempotent: converting the output of a successful
    conversion against the same reference, where numpy has room for the
    arrays of the output's header, writes the same file again. *)
Theorem convert_is_idempotent (junk junk' : nat → nat → Z)
    (teaser train out : list byte) :
  convert junk teaser train = (Some out, Ok tt) →
  (∀ h, parse_ply_header out = Ok h →
        room_for (vertex_properties h) (vertex_count h)) →
  convert junk' out train = (Some out, Ok tt).
Proof.
  intros (th & trh & cols & out_cols & Hth & Htr & Hread & Hrec & Hw)%convert_ok_inv
    Hroom.
  destruct (writer_ok_inv _ _ _ _ Hw) as (cs & body & Hcs & Hcheck & Hascii & -> & Hrows).
  destruct (convert_writer_request _ _ _ _ _ _ _ _ Htr Hread Hrec Hcs)
    as (_ & _ & Hwf & Hq).
  pose proof (parse_written_header _ _ cs body (parse_readable _ _ Hth) Hcs
                (parse_tokens _ _ Htr) Hascii) as Hparse.
  specialize (Hroom _ Hparse). cbn [written_header vertex_properties
    vertex_count] in Hroom.
  destruct (read_back junk' _ _ _ _ _ Hcs Hcheck Hwf Hrows Hroom) as (t & Ht & Hlk).
  assert (t = out_cols) as ->.
  { apply map_eq. intros name. rewrite Hlk.
    pose proof (reconcile_inv _ _ _ _ Hrec name) as Ho.
    case_decide; [|done]. rewrite Ho. cbn. f_equal.
    eapply quiet_table_quieted; [done|]. by rewrite Ho. }
  assert (reconcile out_cols (vertex_properties trh) (vertex_count th) = Ok out_cols)
    as Hrec'.
  { destruct (reconcile_Ok out_cols (vertex_properties trh) (vertex_count th))
      as [out' Hout'].
    { right. intros name Hin.
      by rewrite (reconcile_inv _ _ _ _ Hrec name), decide_True. }
    rewrite Hout'. f_equal. apply map_eq. intros name.
    rewrite (reconcile_inv _ _ _ _ Hout' name), (reconcile_inv _ _ _ _ Hrec name).
    case_decide; [|done]. unfold reconciled at 1.
    by rewrite (reconcile_inv _ _ _ _ Hrec name), decide_True. }
  unfold convert, build_target_schema_from_train_header.
  rewrite Hparse.
  rewrite Htr, Ht. cbn [vertex_count written_header]. by rewrite Hrec'.
Qed.

End Conversion.

Section ConversionExamples.

#[local] Existing Instance reference.

Lemma converted_file_holds_reconciled_columns_witness :
  ∃ t, read_vertex_table_binary no_junk sample_output
         (written_header 2 [("float", "nx"); ("float", "x")]) = Ok t
       ∧ t !! "nx" = Some [0; 0].
Proof.
  destruct (converted_file_holds_reconciled_columns no_junk no_junk
              sample_teaser sample_train sample_output)
    as (th & trh & cols & t & Hth & Htr & Hread & _ & Ht & Hlk).
  - vm_compute. reflexivity.
  - intros h _ k _. reflexivity.
  - vm_compute in Hth, Htr. injection Hth as <-. injection Htr as <-.
    cbn [vertex_count vertex_properties] in *.
    exists t. split; [exact Ht|]. rewrite (Hlk "nx").
    vm_compute in Hread. injection Hread as <-. reflexivity.
Defined.

Lemma convert_is_idempotent_witness :
  convert no_junk sample_output sample_train = (Some sample_output, Ok tt).
Proof.
  apply (convert_is_idempotent no_junk no_junk sample_teaser sample_train).
  - vm_compute. reflexivity.
  - intros h _ k _. reflexivity.
Defined.

End ConversionExamples.

(** *** What the conversion cannot end in *)

Section ConversionFailures.

Context {platform : Platform}.

Lemma decode_ascii_error bs e : decode_ascii bs = Err e → e = UnicodeDecodeError.
Proof.
  induction bs as [|b r IH]; cbn [decode_ascii]; [done|].
  destruct (byte_val b <? 128); [|by intros [= <-]].
  destruct (decode_ascii r); [|done]. cbn [bind]. intros [= <-]. by apply IH.
Qed.

Lemma py_int_error s e : py_int s = Err e → e = ValueError_int.
Proof.
  unfold py_int. destruct s as [|a r]; [by intros [= <-]|].
  destruct (Ascii.eqb a "-"); [|destruct (Ascii.eqb a "+")];
    destruct (digits_uint false _); try (by intros [= <-]);
    destruct (too_many_digits _); try done; by intros [= <-].
Qed.

Lemma alloc_arrays_error junk props n k acc e :
  alloc_arrays junk props n k acc = Err e → ruled_out e = false.
Proof.
  revert k acc. induction props as [|[ty name] r IH]; intros k acc;
    cbn [alloc_arrays]; [done|].
  unfold np_empty. destruct (n <? 0); [by intros [= <-]|].
  destruct (numpy_alloc k n); cbn [bind]; [apply IH|by intros [= <-]..].
Qed.

Lemma header_iteration_error st bline e :
  header_iteration st bline = Raise e → ruled_out e = false.
Proof.
  unfold header_iteration.
  destruct (decode_ascii bline) as [e'|s] eqn:Hs.
  { intros [= <-]. by apply decode_ascii_error in Hs as ->. }
  destruct (String.eqb _ "end_header"); [done|].
  destruct (split _) as [|p0 parts]; [done|].
  destruct (String.eqb p0 "element").
  { destruct parts as [|nm [|c [|? ?]]]; try by intros [= <-].
    destruct (py_int c) as [e'|k] eqn:Hc; [|done].
    intros [= <-]. by apply py_int_error in Hc as ->. }
  destruct (String.eqb p0 "property"); [|done].
  destruct (ps_in_vertex _); [|done].
  destruct parts as [|ty [|name [|m3 [|m4 more]]]]; try by intros [= <-].
  destruct (String.eqb ty "list"); by intros [= <-].
Qed.

Lemma header_loop_error ls st e :
  header_loop ls st = Err e → ruled_out e = false.
Proof.
  revert st. induction ls as [|bline ls IH]; intros st; [by intros [= <-]|].
  rewrite header_loop_iteration.
  pose proof (header_iteration_error st bline) as Hit.
  destruct (header_iteration st bline) as [st1|st1|e']; [done|apply IH|].
  intros [= <-]. by apply Hit.
Qed.

Lemma parse_error file e : parse_ply_header file = Err e → ruled_out e = false.
Proof.
  unfold parse_ply_header.
  destruct (readlines file) as [|first ls]; [by intros [= <-]|].
  destruct (decode_ascii first) as [e'|line0] eqn:H0.
  { intros [= <-]. by apply decode_ascii_error in H0 as ->. }
  cbn [bind]. destruct (negb _); [by intros [= <-]|].
  destruct ls as [|fmt_line ls]; [by intros [= <-]|].
  destruct (decode_ascii fmt_line) as [e'|fmt_text] eqn:Hf.
  { intros [= <-]. by apply decode_ascii_error in Hf as ->. }
  cbn [bind].
  destruct (split _) as [|kw [|fmt [|ver [|? ?]]]]; try by intros [= <-].
  destruct (negb _); [by intros [= <-]|].
  destruct (header_loop ls _) as [e'|st] eqn:Hloop.
  { intros [= <-]. by eapply header_loop_error. }
  cbn [bind]. destruct (ps_count st); [done|]. by intros [= <-].
Qed.

Lemma type_codes_error props e :
  type_codes props = Err e → ruled_out e = false.
Proof.
  induction props as [|[ty name] r IH]; [done|]. cbn [type_codes].
  destruct (type_code ty) as [e'|c] eqn:Hc.
  { intros [= <-]. unfold type_code in Hc.
    destruct (registry_cases ty) as [Hr|(a & c & Hr & Ha)]; rewrite Hr in Hc.
    - by injection Hc as <-.
    - by rewrite Ha in Hc. }
  cbn [bind]. destruct (type_codes r) as [e'|cs]; [|done].
  intros [= <-]. by apply IH.
Qed.

Lemma reader_error junk file header e :
  read_vertex_table_binary junk file header = Err e →
  0 ≤ data_start_offset header ≤ Z.of_nat (length file) →
  ruled_out e = false.
Proof.
  unfold read_vertex_table_binary.
  destruct (String.eqb_spec (format header) "binary_little_endian") as [Hle|_].
  - rewrite Hle. cbn [orb negb bind].
    change (_endian_for_format "binary_little_endian") with (Ok "<").
    cbn [bind]. rewrite struct_for_vertex_little.
    destruct (type_codes _) as [e'|cs] eqn:Hcs; cbn [bind].
    { intros [= <-] _. by eapply type_codes_error. }
    destruct (alloc_arrays _ _ _ _ _) as [e'|arrays] eqn:Ha; cbn [bind].
    { intros [= <-] _. by eapply alloc_arrays_error. }
    intros Hrows Hoff. revert Hrows. rewrite seek_inside by done. cbn [bind].
    match goal with
    | |- read_rows ?st ?p ?n ?k ?i ?rest ?a = _ → _ =>
        pose proof (read_rows_cases st p n k i rest a) as Hr
    end.
    case_decide; [by destruct Hr as [t ->]|]. rewrite Hr. by intros [= <-].
  - destruct (String.eqb_spec (format header) "binary_big_endian") as [Hbe|_];
      [|by intros [= <-]].
    rewrite Hbe. cbn [orb negb bind].
    change (_endian_for_format "binary_big_endian") with (Ok ">").
    cbn [bind]. rewrite struct_for_vertex_big.
    destruct (type_codes _) as [e'|cs] eqn:Hcs; cbn [bind].
    { intros [= <-] _. by eapply type_codes_error. }
    destruct (alloc_arrays _ _ _ _ _) as [e'|arrays] eqn:Ha; cbn [bind].
    { intros [= <-] _. by eapply alloc_arrays_error. }
    intros Hrows Hoff. revert Hrows. rewrite seek_inside by done. cbn [bind].
    match goal with
    | |- read_rows ?st ?p ?n ?k ?i ?rest ?a = _ → _ =>
        pose proof (read_rows_cases st p n k i rest a) as Hr
    end.
    case_decide; [by destruct Hr as [t ->]|]. rewrite Hr. by intros [= <-].
Qed.

Lemma reconcile_error teaser_cols target_schema n e :
  reconcile teaser_cols target_schema n = Err e → ruled_out e = false.
Proof.
  unfold reconcile.
  destruct (build_out_cols _ _ _ _) as [e'|out] eqn:Hb; [|done].
  intros [= <-]. by apply build_out_cols_error in Hb as (-> & _).
Qed.

(** X19.  How a conversion can fail.  It never ends in the writer's [KeyError] or
    row-count [ValueError], in an encoding, seek, overflow or index error, or
    in the [ValueError] of [_endian_for_format]: the steps before rule them
    out.  And it leaves the destination untouched, with one exception: when
    the reference declares a property of an integer type and the source has
    at least one vertex, it ends in [struct.error] with the destination
    holding the new header and no vertex. *)
Theorem conversion_failures (junk : nat → nat → Z) (teaser train : list byte)
    (dest : option (list byte)) (e : exn) :
  convert junk teaser train = (dest, Err e) →
  ruled_out e = false
  ∧ (dest = None
     ∨ ∃ th trh,
         parse_ply_header teaser = Ok th ∧ parse_ply_header train = Ok trh
         ∧ e = StructError ∧ 0 < vertex_count th
         ∧ float_schema (vertex_properties trh) = false
         ∧ dest = Some (list_byte_of_string
                          (header_text (vertex_count th) (vertex_properties trh)))).
Proof.
  intros [(-> & e' & [= <-] & H)|(th & trh & cols & out_cols & Hth & Htr & Hread
                                   & Hrec & Hw)]%convert_stages.
  - split; [|by left].
    destruct H as [H|(th & Hth & [H|(trh & Htr & [H|(cols & Hread & H)])])].
    + by eapply parse_error.
    + by eapply parse_error.
    + eapply reader_error; [done|]. by eapply parse_offset_inside.
    + by eapply reconcile_error.
  - destruct (type_codes (vertex_properties trh)) as [e'|cs] eqn:Hcs.
    { unfold write_ply_binary_vertex_only in Hw.
      rewrite struct_for_vertex_little, Hcs in Hw. cbn [bind] in Hw.
      injection Hw as <- <-. split; [by eapply type_codes_error|by left]. }
    destruct (convert_writer_request _ _ _ _ _ _ _ _ Htr Hread Hrec Hcs)
      as (Hcheck & Hascii & Hwf & _).
    destruct (writer_float32_cases _ _ _ _ Hcs Hcheck Hascii Hwf)
      as [(Hn & Hf & Hw')|(_ & out & Hw')]; rewrite Hw' in Hw; [|done].
    injection Hw as <- <-. split; [done|]. right. by exists th, trh.
Qed.


(** X21.  Uninitialized memory never shows.  Whatever [numpy.empty] leaves in the
    arrays it hands out, the reader returns the same table or raises the same
    exception, and the conversion writes the same bytes or fails the same
    way: every cell is overwritten before the table is returned. *)
Theorem uninitialized_memory_never_shows (junk junk' : nat → nat → Z) :
  (∀ file header,
     read_vertex_table_binary junk file header
     = read_vertex_table_binary junk' file header)
  ∧ (∀ teaser train, convert junk teaser train = convert junk' teaser train).
Proof.
  split; [apply reader_junk_irrelevant|].
  intros teaser train. unfold convert.
  destruct (parse_ply_header teaser) as [|th]; [done|].
  destruct (parse_ply_header train) as [|trh]; [done|].
  by rewrite (reader_junk_irrelevant junk junk').
Qed.

End ConversionFailures.

Section ConversionFailuresExamples.

#[local] Existing Instance reference.

Lemma conversion_failures_witness :
  ∃ th trh,
    parse_ply_header sample_teaser = Ok th
    ∧ parse_ply_header sample_train_uchar = Ok trh
    ∧ float_schema (vertex_properties trh) = false.
Proof.
  destruct (conversion_failures no_junk sample_teaser sample_train_uchar
              (Some (list_byte_of_string
                       (header_text 2 [("uchar", "nx"); ("float", "x")])))
              StructError) as [_ [H|(th & trh & Hth & Htr & _ & _ & Hf & _)]].
  - vm_compute. reflexivity.
  - discriminate H.
  - by exists th, trh.
Defined.

End ConversionFailuresExamples.

(** ** [_summarize_header] *)

Section SummaryProperties.

Context {platform : Platform}.

(** X22.  The summary of a converted file.  When the conversion succeeds, the
    summary of the output can be computed; it reports the format
    [binary_little_endian] and the vertex count of the source, and from there
    on -- the number of properties and the list of their names -- it is the
    summary of the reference. *)
Theorem summary_of_converted_file (junk : nat → nat → Z)
    (teaser train out : list byte) (train_name out_name : string) :
  convert junk teaser train = (Some out, Ok tt) →
  ∃ th trh tail,
    parse_ply_header teaser = Ok th
    ∧ parse_ply_header train = Ok trh
    ∧ _summarize_header train_name train
      = Ok (train_name +:+ ": format=" +:+ format trh
            +:+ " vertex=" +:+ py_str_int (vertex_count trh) +:+ tail)
    ∧ _summarize_header out_name out
      = Ok (out_name +:+ ": format=binary_little_endian"
            +:+ " vertex=" +:+ py_str_int (vertex_count th) +:+ tail).
Proof.
  intros (th & trh & cols & out_cols & Hth & Htr & Hread & Hrec & Hw)%convert_ok_inv.
  destruct (writer_ok_inv _ _ _ _ Hw) as (cs & body & Hcs & _ & Hascii & -> & _).
  exists th, trh. eexists. do 2 (split; [done|]).
  unfold _summarize_header.
  rewrite (parse_written_header _ _ cs body (parse_readable _ _ Hth) Hcs
             (parse_tokens _ _ Htr) Hascii), Htr.
  cbn [bind written_header format vertex_count vertex_properties].
  split; reflexivity.
Qed.

End SummaryProperties.

Section SummaryPropertiesExamples.

#[local] Existing Instance reference.

Lemma summary_of_converted_file_witness :
  ∃ tail,
    _summarize_header "converted.ply" sample_output
    = Ok ("converted.ply" +:+ ": format=binary_little_endian"
          +:+ " vertex=" +:+ py_str_int 2 +:+ tail).
Proof.
  destruct (summary_of_converted_file no_junk sample_teaser sample_train
              sample_output "train.ply" "converted.ply")
    as (th & trh & tail & Hth & _ & _ & Hs).
  - vm_compute. reflexivity.
  - vm_compute in Hth. injection Hth as <-. by exists tail.
Defined.

End SummaryPropertiesExamples.
